(** * roiextractors: a shallow embedding of the extractors and of the NWB round trip

    The development follows the Python sources:
    - [extraction_tools.VideoStructure] (exercised by tests/test_internals/test_extraction_tools.py),
    - [Hdf5ImagingExtractor] (constructor, get_frames, write_imaging),
    - [MemmapImagingExtractor] (constructor, accessors, get_frames, write_imaging),
    - the shape and element checks of testing.py,
    - [set_dynamic_table_property] and [NwbSegmentationExtractor]
      (constructor, accessors and write_nwb) of nwbsegmentationextractor.py.

    Python exceptions are values of [Py.error]; a call that may raise returns
    [Py.result].  Objects that the Python code mutates in place (the NWB file,
    a dynamic table, the file system) are threaded explicitly. *)

From Stdlib Require Import ZArith QArith String Ascii List Lia Bool.
From stdpp Require Import base list strings pretty gmap sorting.

Local Open Scope string_scope.
Local Open Scope list_scope.
Local Open Scope Z_scope.

(* ===================================================================== *)
(** ** Python exceptions and results                                      *)
(* ===================================================================== *)

Module Py.

(** The exception classes that the modelled code raises, each with the
    text or the name it carries. *)
Inductive error : Type :=
| Exception (msg : string)
| AssertionError (msg : string)
| FileExistsError (msg : string)
| ValueError (msg : string)
| TypeError (msg : string)
| KeyError (key : string)
| IndexError (msg : string)
| AttributeError (attr : string)
| UnboundLocalError (var : string)
| OSError (msg : string)
| NotImplementedError.

Definition result (A : Type) : Type := (error + A)%type.

Definition ok {A} (a : A) : result A := inr a.
Definition raise {A} (e : error) : result A := inl e.

Definition bind {A B} (m : result A) (k : A -> result B) : result B :=
  match m with
  | inl e => inl e
  | inr a => k a
  end.

Definition is_ok {A} (r : result A) : bool :=
  match r with inr _ => true | inl _ => false end.

(** Reading a local variable that no executed statement has bound. *)
Definition local {A} (var : string) (v : option A) : result A :=
  match v with
  | Some a => inr a
  | None => inl (UnboundLocalError var)
  end.

End Py.

Notation "'let*' x ':=' m 'in' k" := (Py.bind m (fun x => k))
  (at level 10, x name, m at level 100, k at level 200, only parsing).

(* ===================================================================== *)
(** ** VideoStructure                                                     *)
(* ===================================================================== *)

Module VideoStructure.

(** Modelled from the spec: the class [VideoStructure] lives in
    extraction_tools.py, which is not among the sources; only its tests are.
    The record, the validation of the four axes, [frame_shape],
    [number_of_pixels_per_frame] and [build_video_shape] follow sections 3
    and 4.1 of the specification and the expectations of
    test_extraction_tools.py. *)
Record t : Type := mk {
  rows : Z;
  columns : Z;
  num_channels : Z;
  rows_axis : Z;
  columns_axis : Z;
  num_channels_axis : Z;
  frame_axis : Z
}.

(** The error of a malformed axis assignment; it carries the offending
    values (rows_axis, columns_axis, num_channels_axis, frame_axis). *)
Inductive error : Type :=
| ConfigurationError (bad_axes : list Z).

Definition axes (v : t) : list Z :=
  [rows_axis v; columns_axis v; num_channels_axis v; frame_axis v].

Definition in_range (a : Z) : bool := (0 <=? a) && (a <=? 3).

(** "integers in [0,3], pairwise distinct". *)
Definition valid_axes (l : list Z) : bool :=
  forallb in_range l && bool_decide (NoDup l).

(** Construction validates the structure once. *)
Definition make (rows columns num_channels
                 rows_axis columns_axis num_channels_axis frame_axis : Z)
  : error + t :=
  let v := mk rows columns num_channels
              rows_axis columns_axis num_channels_axis frame_axis in
  if valid_axes (axes v) then inr v else inl (ConfigurationError (axes v)).

(** A shape under construction: four slots, [None] until assigned. *)
Definition place (axis : Z) (x : Z) (shape : list (option Z)) : list (option Z) :=
  <[Z.to_nat axis := Some x]> shape.

(** "inserts num_frames at frame_axis, other three at their axes". *)
Definition build_video_shape (v : t) (num_frames : Z) : list (option Z) :=
  place (num_channels_axis v) (num_channels v)
    (place (columns_axis v) (columns v)
       (place (rows_axis v) (rows v)
          (place (frame_axis v) num_frames (replicate 4 None)))).

(** "rows, columns, channels reordered to their axis positions excluding
    frame axis": the frame slot is removed. *)
Definition frame_shape (v : t) : list (option Z) :=
  delete (Z.to_nat (frame_axis v))
    (place (num_channels_axis v) (num_channels v)
       (place (columns_axis v) (columns v)
          (place (rows_axis v) (rows v) (replicate 4 None)))).

Definition shape_product (shape : list (option Z)) : Z :=
  foldr Z.mul 1 (omap id shape).

(** The number of elements of one frame, derived from [frame_shape]. *)
Definition number_of_pixels_per_frame (v : t) : Z :=
  shape_product (frame_shape v).

(** The 24 assignments of distinct axes 0..3. *)
Definition all_axis_permutations : list (list Z) :=
  permutations [0; 1; 2; 3].

End VideoStructure.

(* ===================================================================== *)
(** ** Paths                                                              *)
(* ===================================================================== *)

Module PyPath.

(** The two library functions that the writers apply to a target path,
    [pathlib.Path(p).suffix] and [os.path.splitext(p)[-1]], on POSIX paths.
    Both work on the characters of the path read from the end. *)

Definition slash : ascii := "/"%char.
Definition dot : ascii := "."%char.

Fixpoint drop_while_eq (c : ascii) (l : list ascii) : list ascii :=
  match l with
  | x :: r => if Ascii.eqb x c then drop_while_eq c r else l
  | [] => []
  end.

(** Splits at the first occurrence of [c]: the characters before it and
    the characters after it. *)
Fixpoint split_at (c : ascii) (l : list ascii) : option (list ascii * list ascii) :=
  match l with
  | [] => None
  | x :: r =>
      if Ascii.eqb x c then Some ([], r)
      else match split_at c r with
           | Some (before, after) => Some (x :: before, after)
           | None => None
           end
  end.

Definition take_until (c : ascii) (l : list ascii) : list ascii :=
  match split_at c l with
  | Some (before, _) => before
  | None => l
  end.

(** [Path(p).name], reversed: trailing separators do not count. *)
Definition rev_name (p : string) : list ascii :=
  take_until slash (drop_while_eq slash (rev (list_ascii_of_string p))).

(** [Path(p).suffix]: the text from the last dot of the name, when that dot
    is neither the first nor the last character of the name. *)
Definition suffix (p : string) : string :=
  match split_at dot (rev_name p) with
  | Some (ext, stem) =>
      match ext, stem with
      | _ :: _, _ :: _ => string_of_list_ascii (dot :: rev ext)
      | _, _ => ""
      end
  | None => ""
  end.

(** [os.path.splitext(p)[-1]]: the text from the last dot of the last
    component, unless only dots precede it in that component. *)
Definition splitext_ext (p : string) : string :=
  let rcomp := take_until slash (rev (list_ascii_of_string p)) in
  match split_at dot rcomp with
  | Some (ext, stem) =>
      match drop_while_eq dot (rev stem) with
      | [] => ""
      | _ :: _ => string_of_list_ascii (dot :: rev ext)
      end
  | None => ""
  end.

Definition lower_char (c : ascii) : ascii :=
  let n := nat_of_ascii c in
  if (Nat.leb 65 n && Nat.leb n 90)%bool then ascii_of_nat (n + 32) else c.

(** [str.lower] on ASCII text. *)
Definition lower (s : string) : string :=
  string_of_list_ascii (map lower_char (list_ascii_of_string s)).

End PyPath.

(* ===================================================================== *)
(** ** Hdf5ImagingExtractor                                               *)
(* ===================================================================== *)

Module Hdf5ImagingExtractor.

Section Frames.

Context {Pixel : Type}.

(** One frame without and with a channel axis. *)
Definition Frame : Type := list (list Pixel).
Definition FrameC : Type := list (list (list Pixel)).

(** [_standard_video]: (frames, rows, columns), or after
    [lazy_transpose([1, 2, 3, 0])] (frames, rows, columns, channels). *)
Inductive video : Type :=
| Video3 (frames : list Frame)
| Video4 (frames : list FrameC).

(** What [get_frames] returns: a block of frames of one channel, of all
    channels, or of the channel-less video with an axis of length one
    inserted after the frame axis. *)
Inductive block : Type :=
| Block3 (frames : list Frame)
| Block4 (frames : list FrameC)
| BlockNewaxis (frames : list (list Frame)).



(** The attributes of an extractor that [get_frames] reads.  [_num_frames]
    is what [get_video_shape] (extraction_tools.py, not among the sources)
    returned to the constructor.  [data_has_channel_axis] is the attribute
    spelled without underscore and in the singular that the third branch
    of [get_frames] reads; the class itself never sets it, so it is [None]
    unless the base class provides it. *)
Record extractor : Type := mkExtractor {
  _standard_video : video;
  _num_frames : nat;
  data_has_channel_axis : option bool
}.

(** [self._data_has_channels_axis = self._video.ndim > 3]. *)
Definition _data_has_channels_axis (ex : extractor) : bool :=
  match _standard_video ex with
  | Video4 _ => true
  | Video3 _ => false
  end.

Definition get_num_frames (ex : extractor) : nat := _num_frames ex.

(** [np.min] and [np.max] of a list of frame indices; both raise on an
    empty list. *)
Definition np_min (l : list nat) : Py.result nat :=
  match l with
  | [] => Py.raise (Py.ValueError "zero-size array to reduction operation minimum which has no identity")
  | x :: r => Py.ok (foldr Nat.min x r)
  end.

Definition np_max (l : list nat) : Py.result nat :=
  match l with
  | [] => Py.raise (Py.ValueError "zero-size array to reduction operation maximum which has no identity")
  | x :: r => Py.ok (foldr Nat.max x r)
  end.

(** [a[start:stop]] along the first axis, for non-negative bounds. *)
Definition slice {A} (start stop : nat) (l : list A) : list A :=
  take (stop - start) (drop start l).

(** [[..., channel]]: the entry [channel] of every pixel. *)
Definition select_channel (channel : nat) (f : FrameC) : option Frame :=
  mapM (mapM (fun px : list Pixel => px !! channel)) f.

Definition getattr {A} (name : string) (v : option A) : Py.result A :=
  match v with
  | Some a => Py.ok a
  | None => Py.raise (Py.AttributeError name)
  end.

(** [Hdf5ImagingExtractor.get_frames].  [frame_idxs = None] is Python's
    [None]; a single integer index behaves as the list holding it.  The
    nested lists keep the size of the channel axis in their pixels only:
    the channel is checked against the pixels of the slice, so that a
    slice without any pixel accepts every channel, where the library
    compares the index with the size of the axis. *)
Definition get_frames (ex : extractor) (frame_idxs : option (list nat))
    (channel : option nat) : Py.result block :=
  let* bounds := (match frame_idxs with
             | Some idxs =>
                 let* slice_start := np_min idxs in
                 let* top := np_max idxs in
                 Py.ok (slice_start, Nat.min (top + 1) (get_num_frames ex))
             | None => Py.ok (0%nat, get_num_frames ex)
             end) in
  let '(slice_start, slice_stop) := bounds in
  match _standard_video ex with
  | Video4 frames =>
      match channel with
      | Some c =>
          match mapM (select_channel c) (slice slice_start slice_stop frames) with
          | Some fs => Py.ok (Block3 fs)
          | None => Py.raise (Py.IndexError "index out of bounds for the channel axis")
          end
      | None => Py.ok (Block4 (slice slice_start slice_stop frames))
      end
  | Video3 frames =>
      let* no_axis := getattr "data_has_channel_axis" (data_has_channel_axis ex) in
      if (negb no_axis && negb (bool_decide (is_Some channel)))%bool
      then Py.ok (BlockNewaxis (map (fun f => [f]) (slice slice_start slice_stop frames)))
      else Py.ok (Block3 (slice slice_start slice_stop frames))
  end.

End Frames.

Section Writing.

(** The imaging extractor being written and the helper
    [write_to_h5_dataset_format] come from modules that are not among the
    sources; they are the parameters of the writer.  The helper fills the
    open file handle and may raise on the way. *)
Context {Imaging Data Attr : Type}.

Record dataset : Type := mkDataset {
  ds_data : Data;
  ds_attrs : gmap string Attr
}.

(** An HDF5 file: its datasets by path.  A file system: its files by path. *)
Abbreviation h5file := (gmap string dataset).
Abbreviation filesystem := (gmap string (gmap string dataset)).

Context (get_sampling_frequency : Imaging -> Attr).
Context (write_to_h5_dataset_format :
           Imaging -> string -> h5file -> h5file * option Py.error).

Definition is_file (fs : filesystem) (p : string) : bool :=
  bool_decide (is_Some (fs !! p)).

Definition hdf5_suffix (p : string) : bool :=
  bool_decide (PyPath.suffix p ∈ [".h5"; ".hdf5"]).

(** [Hdf5ImagingExtractor.write_imaging]: the file system after the call
    and the outcome. *)
Definition write_imaging (fs : filesystem) (imaging : Imaging) (save_path : string)
    (overwrite : bool) (mov_field : string) : filesystem * Py.result unit :=
  if negb (hdf5_suffix save_path) then
    (fs, Py.raise (Py.AssertionError "'save_path' file is not an .hdf5 or .h5 file"))
  else if (is_file fs save_path && negb overwrite)%bool then
    (fs, Py.raise (Py.FileExistsError
                     "The specified path exists! Use overwrite=True to overwrite it."))
  else
    (* save_path.unlink() when the file is there; h5py.File(save_path, "w") *)
    let fs1 := if is_file fs save_path then delete save_path fs else fs in
    let '(f, err) := write_to_h5_dataset_format imaging mov_field ∅ in
    match err with
    | Some e => (<[save_path := f]> fs1, Py.raise e)
    | None =>
        match f !! mov_field with
        | None => (<[save_path := f]> fs1, Py.raise (Py.KeyError mov_field))
        | Some dset =>
            let dset' := mkDataset (ds_data dset)
                           (<["fr" := get_sampling_frequency imaging]> (ds_attrs dset)) in
            (<[save_path := <[mov_field := dset']> f]> fs1, Py.ok tt)
        end
    end.

End Writing.

(** *** The constructor *)

Module Init.

Section Reading.

(** [get_video_shape] belongs to extraction_tools.py, which is not among
    the sources, and [ndim] to the dataset library: both are parameters.
    The values of the attributes of a dataset (sampling rate, start time,
    metadata) are of one type. *)
Context {Data Attr : Type}.
Context (get_video_shape : Data -> Py.result (nat * nat * nat * nat)).
Context (ndim : Data -> nat).

(** The attributes of an instance.  [_start_time] and [metadata] are only
    assigned when the argument or the attribute of the dataset exists:
    [None] is the attribute that was never set. *)
Record instance : Type := mkInstance {
  filepath : string;
  _sampling_frequency : Attr;
  _mov_field : string;
  _channel_names : list string;
  _video : Data;
  _start_time : option Attr;
  metadata : option Attr;
  _num_channels : nat;
  _num_frames : nat;
  _rows : nat;
  _columns : nat;
  _data_has_channels_axis : bool
}.

(** [[f"channel_{ch}" for ch in range(self._num_channels)]]. *)
Definition default_channel_names (n : nat) : list string :=
  map (fun ch : nat => ("channel_" ++ pretty ch)%string) (seq 0 n).

(** [Hdf5ImagingExtractor(file_path, mov_field, sampling_frequency,
    start_time, metadata, channel_names)] on a file system.  The file is
    tested for the key "mov" and then read at [mov_field]. *)
Definition __init__ (fs : gmap string (gmap string (@dataset Data Attr)))
    (file_path mov_field : string) (sampling_frequency start_time metadata : option Attr)
    (channel_names : option (list string)) : Py.result instance :=
  if negb (hdf5_suffix file_path) then
    Py.raise (Py.AssertionError "'file_path' file is not an .hdf5 or .h5 file")
  else
    match fs !! file_path with
    | None => Py.raise (Py.OSError "Unable to open file")
    | Some file =>
        if negb (bool_decide (is_Some (file !! "mov"))) then
          Py.raise (Py.Exception (file_path ++ " does not contain the 'mov' dataset")%string)
        else
          match file !! mov_field with
          | None => Py.raise (Py.KeyError mov_field)
          | Some dset =>
              let* fr :=
                (match sampling_frequency with
                 | None =>
                     match ds_attrs dset !! "fr" with
                     | Some a => Py.ok a
                     | None => Py.raise (Py.AssertionError
                                 "sampling frequency information is unavailable!")
                     end
                 | Some a => Py.ok a
                 end) in
              let start :=
                match start_time with
                | None => ds_attrs dset !! "start_time"
                | Some a => Some a
                end in
              let meta :=
                match metadata with
                | None => ds_attrs dset !! "metadata"
                | Some a => Some a
                end in
              let* shape := get_video_shape (ds_data dset) in
              let '(num_channels, num_frames, rows, columns) := shape in
              let* names :=
                (match channel_names with
                 | Some l =>
                     if Nat.eqb (length l) num_channels then Py.ok l
                     else Py.raise (Py.AssertionError
                            "'channel_names' length is different than number of channels")
                 | None => Py.ok (default_channel_names num_channels)
                 end) in
              Py.ok (mkInstance file_path fr mov_field names (ds_data dset) start meta
                       num_channels num_frames rows columns (Nat.ltb 3 (ndim (ds_data dset))))
          end
    end.

Definition get_image_size (self : instance) : nat * nat := (_rows self, _columns self).
Definition get_num_frames (self : instance) : nat := _num_frames self.
Definition get_sampling_frequency (self : instance) : Attr := _sampling_frequency self.
Definition get_channel_names (self : instance) : list string := _channel_names self.
Definition get_num_channels (self : instance) : nat := _num_channels self.

End Reading.

End Init.

End Hdf5ImagingExtractor.

(* ===================================================================== *)
(** ** MemmapImagingExtractor                                             *)
(* ===================================================================== *)

Module MemmapImagingExtractor.

(** An array of any number of axes: an item, or the list of its entries
    along the first axis.  An array without entries keeps no record of its
    further axes. *)
#[local] Unset Elimination Schemes.
Inductive ndarray (A : Type) : Type :=
| Item (x : A)
| Arr (items : list (ndarray A)).
#[local] Set Elimination Schemes.

Arguments Item {A} x.
Arguments Arr {A} items.

Definition getattr {B} (attr : string) (v : option B) : Py.result B :=
  match v with
  | Some a => Py.ok a
  | None => Py.raise (Py.AttributeError attr)
  end.

(** A loop whose body may raise: it stops at the first exception. *)
Fixpoint for_each {B C} (f : B -> Py.result C) (l : list B) : Py.result (list C) :=
  match l with
  | [] => Py.ok []
  | x :: r =>
      let* y := f x in
      let* ys := for_each f r in
      Py.ok (y :: ys)
  end.

(** An index into an axis of [n] entries: non-negative indices count from
    the start, negative ones from the end. *)
Definition position (n : nat) (i : Z) : option nat :=
  if (0 <=? i) && (i <? Z.of_nat n) then Some (Z.to_nat i)
  else if (- Z.of_nat n <=? i) && (i <? 0) then Some (Z.to_nat (Z.of_nat n + i))
  else None.

Definition entry {B} (l : list B) (i : Z) : Py.result B :=
  match position (length l) i with
  | Some k =>
      match l !! k with
      | Some x => Py.ok x
      | None => Py.raise (Py.IndexError "index is out of bounds for the axis")
      end
  | None => Py.raise (Py.IndexError "index is out of bounds for the axis")
  end.

(** [a.take(indices=idxs, axis=k)] for a list of indices and a
    non-negative axis.  An axis that the array does not have raises
    numpy's AxisError, which is an IndexError. *)
Fixpoint take {A} (k : nat) (idxs : list Z) (a : ndarray A) : Py.result (ndarray A) :=
  match a with
  | Item _ => Py.raise (Py.IndexError "axis is out of bounds for array")
  | Arr l =>
      match k with
      | O => let* picked := for_each (entry l) idxs in Py.ok (Arr picked)
      | S k' => let* inner := for_each (take k' idxs) l in Py.ok (Arr inner)
      end
  end.

(** [a[p0, p1, ...]]: the entry at a list of positions, one for each
    leading axis. *)
Fixpoint item {A} (path : list nat) (a : ndarray A) : option (ndarray A) :=
  match path with
  | [] => Some a
  | p :: rest =>
      match a with
      | Item _ => None
      | Arr l => l !! p ≫= item rest
      end
  end.

Section Instance.

Context {A Rate : Type}.

(** The attributes that the methods of the class read; [None] is an
    attribute that the instance does not have. *)
Record t : Type := mk {
  _video : option (ndarray A);
  frame_axis : option nat;
  _num_frames : option nat;
  _rows : option nat;
  _columns : option nat;
  _sampling_frequency : option Rate;
  _num_channels : option nat
}.

(** [MemmapImagingExtractor(imaging_extractor, save_path, verbose)]: the
    body of the constructor is [pass]; it assigns no attribute and does
    not call the constructor of the base class. *)
Definition __init__ {Imaging} (imaging_extractor : Imaging) (save_path : option string)
    (verbose : bool) : t :=
  mk None None None None None None None.

Definition get_num_frames (self : t) : Py.result nat :=
  getattr "_num_frames" (_num_frames self).

Definition get_frames (self : t) (frame_idxs : option (list Z)) : Py.result (ndarray A) :=
  let* frame_idxs :=
    (match frame_idxs with
     | Some l => Py.ok l
     | None => let* n := get_num_frames self in Py.ok (Z.of_nat <$> seq 0 n)
     end) in
  let* video := getattr "_video" (_video self) in
  let* axis := getattr "frame_axis" (frame_axis self) in
  take axis frame_idxs video.

Definition get_image_size (self : t) : Py.result (nat * nat) :=
  let* rows := getattr "_rows" (_rows self) in
  let* columns := getattr "_columns" (_columns self) in
  Py.ok (rows, columns).

Definition get_sampling_frequency (self : t) : Py.result Rate :=
  getattr "_sampling_frequency" (_sampling_frequency self).

(** The body of [get_channel_names] is a docstring and [pass]: the result
    is Python's [None]. *)
Definition get_channel_names (self : t) : option (list string) := None.

Definition get_num_channels (self : t) : Py.result nat :=
  getattr "_num_channels" (_num_channels self).

End Instance.

Section Writing.

(** The extractor that is written is used through four accessors.
    [get_frames imaging i ch] is [imaging.get_frames(i, channel=ch)];
    [broadcasts plane size] tells whether the plane can be assigned to a
    slot of the image size.  [imaging.get_dtype()] only fixes the type of
    the elements.  What [np.memmap] does for a shape without elements
    depends on the version of the library (an error, or an empty mapping):
    it is the parameter [empty_mapping]. *)
Context {Imaging Plane : Type}.
Context (get_num_frames get_num_channels : Imaging -> nat).
Context (get_image_size : Imaging -> nat * nat).
Context (get_frames : Imaging -> nat -> nat -> Py.result Plane).
Context (broadcasts : Plane -> nat * nat -> bool).
Context (empty_mapping : option Py.error).

(** The mapped array, of shape (num_frames, num_channels, rows, columns):
    its slots along the first two axes; [None] is a slot of zeros. *)
Record mapped : Type := mkMapped {
  shape : nat * nat * nat * nat;
  slots : list (list (option Plane))
}.

(** [video_to_save[a, b] = plane]. *)
Definition setitem (a b : nat) (plane : Plane) (size : nat * nat)
    (m : list (list (option Plane))) : Py.result (list (list (option Plane))) :=
  match m !! a with
  | None => Py.raise (Py.IndexError "index is out of bounds for axis 0")
  | Some row =>
      if decide (b < length row)%nat then
        if broadcasts plane size then Py.ok (<[a := <[b := Some plane]> row]> m)
        else Py.raise (Py.ValueError "could not broadcast input array")
      else Py.raise (Py.IndexError "index is out of bounds for axis 1")
  end.

(** The slots have [n] entries along the first axis and [c] along the
    second. *)
Definition shaped (n c : nat) (m : list (list (option Plane))) : Prop :=
  length m = n ∧ ∀ a row, m !! a = Some row → length row = c.

(** [for i in range(imaging.get_num_frames()): plane = imaging.get_frames(i,
    channel=ch); video_to_save[ch, i] = plane]: the slots after the loop,
    and the exception that stopped it. *)
Fixpoint frames_loop (imaging : Imaging) (size : nat * nat) (ch : nat) (frames : list nat)
    (m : list (list (option Plane))) : list (list (option Plane)) * option Py.error :=
  match frames with
  | [] => (m, None)
  | i :: r =>
      match get_frames imaging i ch with
      | inl e => (m, Some e)
      | inr plane =>
          match setitem ch i plane size m with
          | inl e => (m, Some e)
          | inr m' => frames_loop imaging size ch r m'
          end
      end
  end.

(** [for ch in range(imaging.get_num_channels())]: with [verbose] every
    channel is announced. *)
Fixpoint channels_loop (verbose : bool) (imaging : Imaging) (size : nat * nat)
    (channels : list nat) (m : list (list (option Plane)))
  : list string * list (list (option Plane)) * option Py.error :=
  match channels with
  | [] => ([], m, None)
  | ch :: r =>
      let printed := if verbose then [("Saving channel " ++ pretty ch)%string] else [] in
      match frames_loop imaging size ch (seq 0 (get_num_frames imaging)) m with
      | (m', Some e) => (printed, m', Some e)
      | (m', None) =>
          let '(more, m'', e) := channels_loop verbose imaging size r m' in
          (printed ++ more, m'', e)
      end
  end.

(** [MemmapImagingExtractor.write_imaging(imaging_extractor, save_path,
    verbose)]: the file system after the call, what was printed, and the
    outcome.  Mode "w+" creates the file or replaces the one that is
    there. *)
Definition write_imaging (fs : gmap string mapped) (imaging_extractor : Imaging)
    (save_path : string) (verbose : bool)
  : gmap string mapped * list string * Py.result unit :=
  let imaging := imaging_extractor in
  let num_frames := get_num_frames imaging in
  let num_channels := get_num_channels imaging in
  let size := get_image_size imaging in
  let dims := (num_frames, num_channels, size.1, size.2) in
  let zeros := replicate num_frames (replicate num_channels None) in
  match (if Nat.eqb (num_frames * num_channels * size.1 * size.2) 0 then empty_mapping
         else None) with
  | Some e => (<[save_path := mkMapped dims zeros]> fs, [], Py.raise e)
  | None =>
      let '(printed, m, err) :=
        channels_loop verbose imaging size (seq 0 num_channels) zeros in
      (<[save_path := mkMapped dims m]> fs, printed,
       match err with Some e => Py.raise e | None => Py.ok tt end)
  end.

End Writing.

End MemmapImagingExtractor.

(* ===================================================================== *)
(** ** The checks of testing.py                                           *)
(* ===================================================================== *)

Module Testing.

(** [_assert_iterable_shape(iterable, shape)]: the argument enters through
    the shape of the array it is converted to.  An entry of [shape] that
    is a Python int is [Some n]; any other entry ([None], a numpy integer)
    is [None]. *)
Fixpoint _assert_iterable_shape (ar_shape : list nat) (shape : list (option Z))
  : Py.result unit :=
  match ar_shape, shape with
  | ar, given :: rest_given =>
      match ar with
      | [] => Py.ok tt
      | a :: rest =>
          match given with
          | Some n =>
              if decide (Z.of_nat a = n) then _assert_iterable_shape rest rest_given
              else Py.raise (Py.AssertionError "")
          | None => _assert_iterable_shape rest rest_given
          end
      end
  | _, [] => Py.ok tt
  end.

(** [_assert_iterable_shape_max(iterable, shape_max)]. *)
Fixpoint _assert_iterable_shape_max (ar_shape : list nat) (shape_max : list (option Z))
  : Py.result unit :=
  match ar_shape, shape_max with
  | ar, given :: rest_given =>
      match ar with
      | [] => Py.ok tt
      | a :: rest =>
          match given with
          | Some n =>
              if decide (Z.of_nat a <= n) then _assert_iterable_shape_max rest rest_given
              else Py.raise (Py.AssertionError "")
          | None => _assert_iterable_shape_max rest rest_given
          end
      end
  | _, [] => Py.ok tt
  end.

Section Elements.

(** Objects, tuples of types, [isinstance] between them and the text of a
    tuple of types are those of Python. *)
Context {Obj Dtypes : Type}.
Context (isinstance : Obj -> Dtypes -> bool).
Context (repr : Dtypes -> string).

(** What [_assert_iterable_element_dtypes] distinguishes: an object that
    is a string or is not iterable, and an iterable with the objects it
    yields. *)
#[local] Unset Elimination Schemes.
Inductive value : Type :=
| Atom (o : Obj)
| Iter (items : list value).
#[local] Set Elimination Schemes.

Fixpoint _assert_iterable_element_dtypes (iterable : value) (dtypes : Dtypes)
  : Py.result unit :=
  match iterable with
  | Iter items =>
      (fix loop (l : list value) : Py.result unit :=
         match l with
         | [] => Py.ok tt
         | x :: r =>
             let* _ := _assert_iterable_element_dtypes x dtypes in
             loop r
         end) items
  | Atom o =>
      if isinstance o dtypes then Py.ok tt
      else Py.raise (Py.AssertionError ("array is none of the types " ++ repr dtypes)%string)
  end.

(** The objects at the leaves, in the order of iteration. *)
Fixpoint atoms (v : value) : list Obj :=
  match v with
  | Atom o => [o]
  | Iter items => concat (map atoms items)
  end.

End Elements.

End Testing.

(* ===================================================================== *)
(** ** Dynamic tables                                                     *)
(* ===================================================================== *)

Module DynamicTable.

(** [list.index]: the position of the first occurrence. *)
Fixpoint list_index (x : Z) (l : list Z) : option nat :=
  match l with
  | [] => None
  | y :: r => if decide (y = x) then Some 0%nat else S <$> list_index x r
  end.

Section Table.

(** The type of the cells of a column. *)
Context {V : Type}.

(** A dynamic table as [set_dynamic_table_property] sees it: the id column
    and the other columns by name.  The Python object is mutated in place,
    so every operation returns the table after the call. *)
Record t : Type := mk {
  id : list Z;
  columns : gmap string (list V)
}.

Definition add_column (name : string) (data : list V) (tbl : t) : t :=
  mk (id tbl) (<[name := data]> (columns tbl)).

(** The loop [for (row_id, value) in zip(row_ids, values):
    data[ids.index(row_id)] = value] over a column; it stops at the first
    assignment that raises and keeps the assignments made before. *)
Fixpoint assign (ids : list Z) (data : list V) (pairs : list (Z * V))
  : list V * option Py.error :=
  match pairs with
  | [] => (data, None)
  | (row_id, value) :: rest =>
      match list_index row_id ids with
      | None => (data, Some (Py.ValueError "row id is not in list"))
      | Some i =>
          if decide (i < length data)%nat
          then assign ids (<[i := value]> data) rest
          else (data, Some (Py.IndexError "list assignment index out of range"))
      end
  end.

(** [set_dynamic_table_property(dynamic_table, row_ids, property_name,
    values, index, default_value)].  The two [isinstance] checks of the
    source hold by typing.  With [index = True] the values are the ragged
    column itself. *)
Definition set_dynamic_table_property (tbl : t) (row_ids : list Z)
    (property_name : string) (values : list V) (index : bool) (default_value : V)
  : t * Py.result unit :=
  let ids := id tbl in
  if existsb (fun i => negb (bool_decide (i ∈ ids))) row_ids then
    (tbl, Py.raise (Py.ValueError "'ids' contains values outside the range of existing ids"))
  else if (negb (Nat.eqb (length row_ids) (length values)) && negb index)%bool then
    (tbl, Py.raise (Py.ValueError "'ids' and 'values' should be lists of same size"))
  else if negb index then
    match columns tbl !! property_name with
    | Some data =>
        let '(data', err) := assign ids data (zip row_ids values) in
        (add_column property_name data' tbl,
         match err with Some e => Py.raise e | None => Py.ok tt end)
    | None =>
        let col_data := replicate (length ids) default_value in
        let '(col_data', err) := assign ids col_data (zip row_ids values) in
        match err with
        | Some e => (tbl, Py.raise e)
        | None => (add_column property_name col_data' tbl, Py.ok tt)
        end
    end
  else
    match columns tbl !! property_name with
    | Some _ => (tbl, Py.raise Py.NotImplementedError)
    | None => (add_column property_name values tbl, Py.ok tt)
    end.

(** The comprehension [[dynamic_table[property_name][all_row_ids.index(x)]
    for x in row_ids]]: for every requested id the column is looked up,
    then the position of the id, then the cell. *)
Fixpoint cells (tbl : t) (all_row_ids : list Z) (property_name : string)
    (row_ids : list Z) : Py.result (list V) :=
  match row_ids with
  | [] => Py.ok []
  | x :: rest =>
      match columns tbl !! property_name with
      | None => Py.raise (Py.KeyError property_name)
      | Some data =>
          match list_index x all_row_ids with
          | None => Py.raise (Py.ValueError (pretty x ++ " is not in list")%string)
          | Some i =>
              match data !! i with
              | None => Py.raise (Py.IndexError "list index out of range")
              | Some cell =>
                  let* others := cells tbl all_row_ids property_name rest in
                  Py.ok (cell :: others)
              end
          end
      end
  end.

(** [get_dynamic_table_property(dynamic_table, row_ids=..., property_name=...)].
    The key 'id', which the table resolves to its id column, is not a
    property name here. *)
Definition get_dynamic_table_property (tbl : t) (row_ids : option (list Z))
    (property_name : string) : Py.result (list V) :=
  let all_row_ids := id tbl in
  let row_ids := default all_row_ids row_ids in
  cells tbl all_row_ids property_name row_ids.

End Table.

End DynamicTable.

(* ===================================================================== *)
(** ** Arrays                                                             *)
(* ===================================================================== *)

Module Np.

(** Mask weights are finite floating-point numbers, read as rationals:
    the code only compares them.  Trace samples may also be NaN. *)
Inductive float : Type :=
| NaN
| PosInf
| Fin (q : Q).

(** A two-dimensional and a three-dimensional array as nested lists,
    first axis outermost.  A nested list without rows keeps no other
    length: [shape2] and [shape3] give 0 for the axes behind an empty
    one, where a numpy array keeps them. *)
Abbreviation array2 A := (list (list A)).
Abbreviation array3 A := (list (list (list A))).

Definition shape2 {A} (a : array2 A) : nat * nat :=
  (length a, match a with row :: _ => length row | [] => 0%nat end).

Definition shape3 {A} (a : array3 A) : nat * nat * nat :=
  (length a,
   match a with plane :: _ => length plane | [] => 0%nat end,
   match a with (line :: _) :: _ => length line | _ => 0%nat end).

(** The nested list has the shape of a three-dimensional array. *)
Definition rectangular3 {A} (a : array3 A) : bool :=
  let '(_, d1, d2) := shape3 a in
  forallb (fun plane => Nat.eqb (length plane) d1
                        && forallb (fun line => Nat.eqb (length line) d2) plane) a.

(** [a[:, :, i]]. *)
Definition last_axis_at {A} (i : nat) (a : array3 A) : option (array2 A) :=
  mapM (mapM (fun px : list A => px !! i)) a.

(** [a[:, :, idxs]]. *)
Definition last_axis_take {A} (idxs : list nat) (a : array3 A) : option (array3 A) :=
  mapM (mapM (fun px : list A => mapM (fun i => px !! i) idxs)) a.

(** [np.moveaxis(a, [0, 1, 2], [2, 0, 1])]: entry (i, y, x) of the
    argument is entry (y, x, i) of the result.  Anything that is not a
    three-dimensional array has no third axis to move. *)
Definition moveaxis_first_to_last (a : array3 Q) : Py.result (array3 Q) :=
  let '(d0, d1, d2) := shape3 a in
  if (rectangular3 a && negb (Nat.eqb d0 0) && negb (Nat.eqb d1 0))%bool then
    Py.ok (map (fun y =>
             map (fun x =>
               map (fun i => default 0%Q (plane ← a !! i; line ← plane !! y; line !! x))
                   (seq 0 d0))
               (seq 0 d2))
             (seq 0 d1))
  else Py.raise (Py.ValueError "source: axis 2 is out of bounds for array").

(** The same call on a one-dimensional array, which has no axis 1:
    numpy raises its AxisError, a ValueError. *)
Definition moveaxis_of_vector {A} (a : list A) : Py.result (array3 Q) :=
  Py.raise (Py.ValueError "source: axis 1 is out of bounds for array of dimension 1").

(** [a.reshape([r, c, n], order='F')] of a three-dimensional array: the
    entries are read and written with the first index changing fastest. *)
Definition flat_F (a : array3 Q) (pos : nat) : option Q :=
  let '(d0, d1, _) := shape3 a in
  plane ← a !! (pos mod d0)%nat;
  line ← plane !! ((pos / d0) mod d1)%nat;
  line !! (pos / (d0 * d1))%nat.

Definition reshape3_F (r c n : nat) (a : array3 Q) : Py.result (array3 Q) :=
  let '(d0, d1, d2) := shape3 a in
  if negb (Nat.eqb (d0 * d1 * d2) (r * c * n)) then
    Py.raise (Py.ValueError "cannot reshape array")
  else
    Py.ok (map (fun y =>
             map (fun x =>
               map (fun z => default 0%Q (flat_F a (y + r * (x + c * z))%nat)) (seq 0 n))
               (seq 0 c))
             (seq 0 r)).

(** [a[r, c]]. *)
Definition entry2 {A} (a : array2 A) (r c : nat) : option A :=
  row ← a !! r; row !! c.

(** [a.T] of a two-dimensional array. *)
Definition transpose {A} (a : array2 A) : array2 A :=
  let '(_, d1) := shape2 a in
  map (fun j => omap (fun row : list A => row !! j) a) (seq 0 d1).

(** [np.amax] of a two-dimensional array of weights. *)
Definition qmax (x y : Q) : Q := if Qle_bool x y then y else x.

Definition amax (a : array2 Q) : Py.result Q :=
  match concat a with
  | [] => Py.raise (Py.ValueError
            "zero-size array to reduction operation maximum which has no identity")
  | w :: ws => Py.ok (foldr qmax w ws)
  end.

(** [np.where(a == m)] of a two-dimensional [a]: the (row, column)
    positions of the entries equal to [m], in row-major order; its first
    component is the list of rows, its second the list of columns. *)
Fixpoint where_row (r c : nat) (m : Q) (row : list Q) : list (nat * nat) :=
  match row with
  | [] => []
  | w :: ws => (if Qeq_bool w m then [(r, c)] else []) ++ where_row r (S c) m ws
  end.

Fixpoint where_from2 (r : nat) (m : Q) (a : array2 Q) : list (nat * nat) :=
  match a with
  | [] => []
  | row :: rest => where_row r 0 m row ++ where_from2 (S r) m rest
  end.

Definition where_eq2 (m : Q) (a : array2 Q) : list (nat * nat) := where_from2 0 m a.

(** [np.where(x == l)[0]] for a one-dimensional [l]: the positions of the
    entries equal to [x], in increasing order. *)
Fixpoint where_from1 (k : nat) (x : Z) (l : list Z) : list nat :=
  match l with
  | [] => []
  | y :: r => (if decide (y = x) then [k] else []) ++ where_from1 (S k) x r
  end.

Definition where_eq1 (x : Z) (l : list Z) : list nat := where_from1 0 x l.

(** [np.median] of a one-dimensional array of integers: the middle of the
    sorted values, or the mean of the two middle ones. *)
Definition median (l : list Z) : option Q :=
  let s := merge_sort Z.le l in
  let n := length s in
  if Nat.eqb n 0 then None
  else if Nat.odd n then inject_Z <$> s !! (n / 2)%nat
  else
    match s !! (n / 2 - 1)%nat, s !! (n / 2)%nat with
    | Some a, Some b => Some ((inject_Z a + inject_Z b) / 2)%Q
    | _, _ => None
    end.

(** Storing a float into an array of dtype int: truncation toward zero. *)
Definition to_int (q : Q) : Z := Z.quot (Qnum q) (Zpos (Qden q)).

End Np.

(* ===================================================================== *)
(** ** The NWB container                                                  *)
(* ===================================================================== *)

Module NWB.

(** The container library (pynwb) is used through named and typed nodes.
    A file is the list that [nwbfile.all_children()] returns; a node is
    referred to by its position in that list.  In this model an object
    added to the file goes to the end of the list, and a position keeps
    denoting the node it denoted before.  The library lists a new object
    next to its parent instead, which moves the nodes behind it: a
    position that [write_nwb] found in the names read at the start is
    used by the model as the node found, whatever has been added since.
    The checks that the library makes on the arguments of a new imaging
    plane or acquisition series are not part of the model.  The parent of
    a node is the object it was added to; the root and the objects added
    to the file itself have none. *)

(** A ROI table: the id column, the 'image_mask' and 'pixel_mask' columns
    when they exist (one mask, one array of pixel rows per ROI), and the
    other columns in the order of [colnames]. *)
Record plane_segmentation : Type := mkPlaneSegmentation {
  ps_id : list Z;
  ps_image_mask : option (Np.array3 Q);
  ps_pixel_mask : option (Np.array3 Q);
  ps_columns : list (string * list Q)
}.

Record roi_response_series : Type := mkRoiResponseSeries {
  rrs_data : Np.array2 Np.float;
  rrs_rois : list nat;
  rrs_starting_time : Q;
  rrs_rate : option Q
}.

Inductive body : Type :=
| NWBFileRoot
| Device
| OpticalChannel
| ImagingPlane (optical_channel : list nat) (device : nat)
| TwoPhotonSeries (external_file : list (option string)) (rate : option Q)
| ProcessingModule
| ImageSegmentation
| Fluorescence
| PlaneSegmentation (table : plane_segmentation)
| RoiResponseSeries (series : roi_response_series)
| TimeSeries (data : Np.array2 Np.float) (timestamps : list Np.float)
| Other (type_name : string).

(** [type(node).__name__]. *)
Definition type_name (b : body) : string :=
  match b with
  | NWBFileRoot => "NWBFile"
  | Device => "Device"
  | OpticalChannel => "OpticalChannel"
  | ImagingPlane _ _ => "ImagingPlane"
  | TwoPhotonSeries _ _ => "TwoPhotonSeries"
  | ProcessingModule => "ProcessingModule"
  | ImageSegmentation => "ImageSegmentation"
  | Fluorescence => "Fluorescence"
  | PlaneSegmentation _ => "PlaneSegmentation"
  | RoiResponseSeries _ => "RoiResponseSeries"
  | TimeSeries _ _ => "TimeSeries"
  | Other n => n
  end.

Record node : Type := mkNode {
  name : string;
  parent : option nat;
  content : body
}.

Abbreviation file := (list node).

(** What a path of the file system holds: an NWB container, or a file
    without NWB content (such as the one that opening with mode 'w'
    leaves before anything is written). *)
Inductive disk_file : Type :=
| Blank
| Container (f : file).

Abbreviation filesystem := (gmap string disk_file).

(** [[type(i).__name__ for i in nwbfile.all_children()]] and
    [[i.name for i in nwbfile.all_children()]]. *)
Definition children_type (f : file) : list string := map (fun n => type_name (content n)) f.
Definition children_name (f : file) : list string := map name f.

(** [[i for i, e in enumerate(l) if e == x]]. *)
Fixpoint positions_from (k : nat) (x : string) (l : list string) : list nat :=
  match l with
  | [] => []
  | e :: r => (if decide (e = x) then [k] else []) ++ positions_from (S k) x r
  end.

Definition positions (x : string) (l : list string) : list nat := positions_from 0 x l.

(** The same comprehension with a name that may be Python's [None], which
    equals no node name. *)
Definition positions_opt (x : option string) (l : list string) : list nat :=
  match x with
  | Some s => positions s l
  | None => []
  end.

(** [nwbfile.processing.values()] and [nwbfile.devices.values()], as
    positions. *)
Definition processing (f : file) : list nat := positions "ProcessingModule" (children_type f).
Definition devices (f : file) : list nat := positions "Device" (children_type f).

(** The child of node [p] with the given name. *)
Definition child_named (f : file) (p : nat) (nm : string) : option nat :=
  fst <$> list_find (fun n => parent n = Some p /\ name n = nm) f.

(** The processing module with the given name. *)
Definition module_named (f : file) (nm : string) : option nat :=
  fst <$> list_find (fun n => type_name (content n) = "ProcessingModule" /\ name n = nm) f.

(** [column.data] of a ragged column such as 'pixel_mask', whose rows
    have their own lengths: the one-dimensional array of the ends of the
    rows in the flat array of their entries. *)
Fixpoint row_ends {A} (start : nat) (column : list (list A)) : list nat :=
  match column with
  | [] => []
  | row :: r => (start + length row)%nat :: row_ends (start + length row) r
  end.

Definition ragged_data {A} (column : list (list A)) : list nat := row_ends 0 column.

(** Attaching a new object. *)
Definition add (n : node) (f : file) : file := f ++ [n].

(** Replacing the content of an object that is in the file. *)
Definition set_content (i : nat) (b : body) (f : file) : file :=
  match f !! i with
  | Some n => <[i := mkNode (name n) (parent n) b]> f
  | None => f
  end.

(** [str] of a list of strings or [None]s. *)
Definition py_repr (x : option string) : string :=
  match x with
  | Some s => "'" ++ s ++ "'"
  | None => "None"
  end.

Fixpoint py_join (l : list string) : string :=
  match l with
  | [] => ""
  | [x] => x
  | x :: r => x ++ ", " ++ py_join r
  end.

Definition py_str_list (l : list (option string)) : string :=
  "[" ++ py_join (map py_repr l) ++ "]".

End NWB.

(* ===================================================================== *)
(** ** NwbSegmentationExtractor: state and accessors                      *)
(* ===================================================================== *)

Module NwbSegmentationExtractor.

(** [self.pixel_masks]: the accessors and the writer index it as a table
    of rows (x, y, weight, roi id); the constructor assigns it what
    [np.moveaxis] returns for the 'pixel_mask' column, an array of three
    axes. *)
Inductive pixel_mask_array : Type :=
| PixelRows (rows : Np.array2 Q)
| PixelStack (stack : Np.array3 Q).

(** The attributes of an instance.  A sampling rate is a float or Python's
    [None].  [_accepted_list] is read by [accepted_list] and never assigned
    in this class: it is the base class's, [None] until a classification
    is set. *)
Record t : Type := mk {
  filepath : string;
  image_masks : Np.array3 Q;
  raw_images : Np.array3 Q;
  pixel_masks : pixel_mask_array;
  extimage_dims : nat * nat;
  _no_background_comps : nat;
  roi_response : Np.array2 Np.float;
  roi_response_bk : Np.array2 Np.float;
  extra_columns : list (string * list Q);
  _samp_freq : option Q;
  total_time : Q;
  _roi_idx : list Z;
  channel_names : option (list (list string));
  raw_movie_file_location : option string;
  _accepted_list : option (list nat)
}.

Definition image_dims (self : t) : list nat :=
  [(extimage_dims self).1; (extimage_dims self).2].

Definition roi_idx (self : t) : list Z := _roi_idx self.

Definition no_rois (self : t) : nat := length (roi_idx self).

Definition get_roi_ids (self : t) : list Z := roi_idx self.

Definition get_num_rois (self : t) : nat := no_rois self.

(** [range(n)]. *)
Definition range (n : nat) : list nat := seq 0 n.

Definition accepted_list (self : t) : list nat :=
  match _accepted_list self with
  | None => range (no_rois self)
  | Some l => l
  end.

(** [[a for a in range(self.no_rois) if a not in set(self.accepted_list)]]. *)
Definition rejected_list (self : t) : list nat :=
  filter (fun a => a ∉ accepted_list self) (range (no_rois self)).

(** One column of [roi_locs]: the ROI's mask, its maximum, the positions
    that attain it, and the two medians stored as integers. *)
Definition roi_loc (raw_images : Np.array3 Q) (i : nat) : Py.result (Z * Z) :=
  match Np.last_axis_at i raw_images with
  | None => Py.raise (Py.IndexError "index is out of bounds for axis 2")
  | Some mask =>
      let* top := Np.amax mask in
      let temp := Np.where_eq2 top mask in
      match Np.median (Z.of_nat <$> temp.*1), Np.median (Z.of_nat <$> temp.*2) with
      | Some r, Some c => Py.ok (Np.to_int r, Np.to_int c)
      | _, _ => Py.raise (Py.ValueError "cannot convert float NaN to integer")
      end
  end.

(** The loop [for i in range(no_ROIs)] of [roi_locs]. *)
Fixpoint roi_locs_loop (raw_images : Np.array3 Q) (l : list nat) : Py.result (list (Z * Z)) :=
  match l with
  | [] => Py.ok []
  | i :: r =>
      let* loc := roi_loc raw_images i in
      let* locs := roi_locs_loop raw_images r in
      Py.ok (loc :: locs)
  end.

(** [roi_locs]: the 2 x no_rois array, as the list of its columns. *)
Definition roi_locs (self : t) : Py.result (list (Z * Z)) :=
  roi_locs_loop (raw_images self) (range (no_rois self)).

Definition get_num_frames (self : t) : nat := (Np.shape2 (roi_response self)).2.

Definition num_of_frames (self : t) : nat := (Np.shape2 (roi_response self)).2.

Definition samp_freq (self : t) : option Q := _samp_freq self.

Definition get_sampling_frequency (self : t) : option Q := samp_freq self.

(** The three comprehensions that turn requested ids into positions:
    [ROI_idx] (the positions of each id), [ele] (the requests without a
    position) and [ROI_idx_] (the first position of every other request). *)
Definition resolve_roi_ids (self : t) (ROI_ids : list Z) : list nat :=
  let ROI_idx := map (fun i => Np.where_eq1 i (roi_idx self)) ROI_ids in
  let ele := omap id (imap (fun i j => match j with [] => Some i | _ => None end) ROI_idx) in
  omap id (imap (fun i j => if decide (i ∈ ele) then None else head j) ROI_idx).

(** Indexing a list with a list of positions. *)
Definition take_positions {A} (what : string) (idxs : list nat) (l : list A)
  : Py.result (list A) :=
  match mapM (fun i => l !! i) idxs with
  | Some r => Py.ok r
  | None => Py.raise (Py.IndexError what)
  end.

(** [a[start:stop]] for non-negative bounds. *)
Definition slice {A} (start stop : nat) (l : list A) : list A :=
  take (stop - start) (drop start l).

Definition get_traces (self : t) (ROI_ids : option (list Z))
    (start_frame end_frame : option nat) : Py.result (Np.array2 Np.float) :=
  let start_frame := default 0%nat start_frame in
  let end_frame := default (get_num_frames self + 1)%nat end_frame in
  let ROI_idx_ := match ROI_ids with
                  | None => range (get_num_rois self)
                  | Some ids => resolve_roi_ids self ids
                  end in
  let* rows := take_positions "index is out of bounds for axis 0" ROI_idx_ (roi_response self) in
  Py.ok (map (slice start_frame end_frame) rows).

Definition get_roi_locations (self : t) (ROI_ids : option (list Z))
  : Py.result (list (Z * Z)) :=
  match ROI_ids with
  | None => roi_locs self
  | Some ids =>
      let* locs := roi_locs self in
      take_positions "index is out of bounds for axis 1" (resolve_roi_ids self ids) locs
  end.

(** [self.pixel_masks[self.pixel_masks[:, 3] == roiid, :]]: on a table,
    the rows whose fourth entry equals [roiid]; on a stack, the boolean
    mask has the shape of axes 0 and 2 and must fit axes 0 and 1. *)
Definition rows_with_id (pm : pixel_mask_array) (roiid : Z) : Py.result (Np.array2 Q) :=
  match pm with
  | PixelRows rows =>
      match mapM (fun row : list Q => row !! 3%nat) rows with
      | None => Py.raise (Py.IndexError "index 3 is out of bounds for axis 1")
      | Some ids =>
          Py.ok (omap (fun '(row, x) => if Qeq_bool x (inject_Z roiid) then Some row else None)
                      (zip rows ids))
      end
  | PixelStack stack =>
      match mapM (fun plane : list (list Q) => plane !! 3%nat) stack with
      | None => Py.raise (Py.IndexError "index 3 is out of bounds for axis 1")
      | Some lines =>
          let '(_, d1, d2) := Np.shape3 stack in
          if negb (Nat.eqb d1 d2) then
            Py.raise (Py.IndexError "boolean index did not match indexed array along axis 1")
          else
            Py.ok (concat (zip_with (fun plane line =>
                     omap (fun '(entry, x) =>
                             if Qeq_bool x (inject_Z roiid) then Some entry else None)
                          (zip plane line)) stack lines))
      end
  end.

(** [np.append(temp, rows, axis=0)] onto the array [temp] of four columns:
    the rows appended must have four entries. *)
Definition append_rows (rows rest : Np.array2 Q) : Py.result (Np.array2 Q) :=
  if forallb (fun row => Nat.eqb (length row) 4) rows then Py.ok (rows ++ rest)
  else Py.raise (Py.ValueError
         "all the input array dimensions except for the concatenation axis must match exactly").

(** The loop [for i, roiid in enumerate(ROI_idx_)] of [get_pixel_masks],
    which appends the selected rows. *)
Fixpoint pixel_masks_loop (pm : pixel_mask_array) (l : list Z) : Py.result (Np.array2 Q) :=
  match l with
  | [] => Py.ok []
  | roiid :: r =>
      let* rows := rows_with_id pm roiid in
      let* rest := pixel_masks_loop pm r in
      append_rows rows rest
  end.

(** [get_pixel_masks]: with [ROI_ids = None] the loop runs over the ids
    themselves, otherwise over the positions that [resolve_roi_ids]
    returns. *)
Definition get_pixel_masks (self : t) (ROI_ids : option (list Z)) : Py.result (Np.array2 Q) :=
  let ROI_idx_ := match ROI_ids with
                  | None => roi_idx self
                  | Some ids => Z.of_nat <$> resolve_roi_ids self ids
                  end in
  pixel_masks_loop (pixel_masks self) ROI_idx_.

(** [get_image_masks]: [raw_images] reshaped to [image_dims + [no_rois]]
    and indexed along the last axis. *)
Definition get_image_masks (self : t) (ROI_ids : option (list Z)) : Py.result (Np.array3 Q) :=
  let ROI_idx_ := match ROI_ids with
                  | None => range (get_num_rois self)
                  | Some ids => resolve_roi_ids self ids
                  end in
  let* reshaped := Np.reshape3_F (extimage_dims self).1 (extimage_dims self).2 (no_rois self)
                     (raw_images self) in
  match Np.last_axis_take ROI_idx_ reshaped with
  | Some masks => Py.ok masks
  | None => Py.raise (Py.IndexError "index is out of bounds for axis 2")
  end.

Definition get_movie_framesize (self : t) : list nat := image_dims self.

Definition get_movie_location (self : t) : option string := raw_movie_file_location self.

Definition get_channel_names (self : t) : option (list (list string)) := channel_names self.

Definition get_num_channels (self : t) : Py.result nat :=
  match channel_names self with
  | Some l => Py.ok (length l)
  | None => Py.raise (Py.TypeError "object of type 'NoneType' has no len()")
  end.

(** *** The constructor *)

(** The value of the local [mod] (called [pmod] below, [mod] being a
    reserved word): [nwbfile.processing] itself when the file holds
    exactly one module (the variable is not reassigned in that case), or
    the first module when it holds several. *)
Inductive module_handle : Type :=
| AllModules
| OneModule (idx : nat).

(** The statements on [mod]: what is printed, and its value or the exception. *)
Definition select_module (f : NWB.file) : list string * Py.result module_handle :=
  match NWB.processing f with
  | m :: _ :: _ =>
      (["multiple processing modules found, picking the first one"], Py.ok (OneModule m))
  | [] => ([], Py.raise (Py.Exception "no processing module found"))
  | [_] => ([], Py.ok AllModules)
  end.

(** [mod['Fluorescence']]: a key of the dictionary of modules, or a data
    interface of the one module. *)
Definition mod_getitem (f : NWB.file) (pmod : module_handle) (key : string) : Py.result nat :=
  match pmod with
  | AllModules =>
      match NWB.module_named f key with
      | Some i => Py.ok i
      | None => Py.raise (Py.KeyError key)
      end
  | OneModule m =>
      match NWB.child_named f m key with
      | Some i => Py.ok i
      | None => Py.raise (Py.KeyError key)
      end
  end.

(** [mod['Fluorescence'].get_roi_response_series[name]]:
    [get_roi_response_series] is a method of the Fluorescence interface,
    and the text subscripts it where a call would look the series up. *)
Definition get_roi_response_series (f : NWB.file) (pmod : module_handle) (series_name : string)
  : Py.result NWB.roi_response_series :=
  let* x := mod_getitem f pmod "Fluorescence" in
  match NWB.content <$> f !! x with
  | Some NWB.Fluorescence => Py.raise (Py.TypeError "'method' object is not subscriptable")
  | _ => Py.raise (Py.AttributeError "get_roi_response_series")
  end.

(** [ps[...]]: the local [ps] must be bound, and bound to a table. *)
Definition ps_table (f : NWB.file) (ps : option nat) : Py.result NWB.plane_segmentation :=
  let* i := Py.local "ps" ps in
  match NWB.content <$> f !! i with
  | Some (NWB.PlaneSegmentation table) => Py.ok table
  | _ => Py.raise (Py.TypeError "object is not subscriptable")
  end.

Definition ps_column {A} (key : string) (col : option A) : Py.result A :=
  match col with
  | Some data => Py.ok data
  | None => Py.raise (Py.KeyError key)
  end.

(** [np.nan * np.ones([n, m])]. *)
Definition nan_block (n m : nat) : Np.array2 Np.float := replicate n (replicate m Np.NaN).

(** The names of the optical channels of the imaging plane at [i]. *)
Definition optical_channel_names_of (f : NWB.file) (i : nat) : Py.result (list string) :=
  match NWB.content <$> f !! i with
  | Some (NWB.ImagingPlane channels _) =>
      match mapM (fun c => NWB.name <$> f !! c) channels with
      | Some names => Py.ok names
      | None => Py.raise (Py.AttributeError "name")
      end
  | _ => Py.raise (Py.AttributeError "optical_channel")
  end.

Fixpoint channel_names_loop (f : NWB.file) (planes : list nat) : Py.result (list (list string)) :=
  match planes with
  | [] => Py.ok []
  | i :: r =>
      let* names := optical_channel_names_of f i in
      let* rest := channel_names_loop f r in
      Py.ok (names :: rest)
  end.

(** The statements from "Imaging plane" to the end of the constructor:
    [channel_names] and [raw_movie_file_location]. *)
Definition read_channel_names (f : NWB.file) : Py.result (option (list (list string))) :=
  match NWB.positions "ImagingPlane" (NWB.children_type f) with
  | [] => Py.ok None
  | planes => let* l := channel_names_loop f planes in Py.ok (Some l)
  end.

Definition read_movie_location (f : NWB.file) : Py.result (option string) :=
  match NWB.positions "TwoPhotonSeries" (NWB.children_type f) with
  | [] => Py.ok None
  | i :: _ =>
      match NWB.content <$> f !! i with
      | Some (NWB.TwoPhotonSeries external_file _) => Py.ok (Some (NWB.py_str_list external_file))
      | _ => Py.raise (Py.AttributeError "external_file")
      end
  end.

(** What the statements between the lookup of the ROI table and the
    imaging plane assign. *)
Record tables : Type := mkTables {
  t_image_masks : Np.array3 Q;
  t_pixel_masks : Np.array3 Q;
  t_roi_response : Np.array2 Np.float;
  t_roi_response_bk : Np.array2 Np.float;
  t_new_columns : list (string * list Q);
  t_samp_freq : option Q;
  t_total_time : Q;
  t_roi_idx : list Z
}.

(** The statements between the lookup of the ROI table and the imaging
    plane: masks, responses, columns, rate and ids.  The 'image_mask'
    column holds one mask per ROI and its data is a three-dimensional
    array; the 'pixel_mask' column is ragged and its data is
    one-dimensional, yet the text moves three axes of both.  Two lines of
    the source are incomplete: the right-hand side of
    [self._no_background_comps =] is missing and is the parameter
    [no_background_comps]; [else len(_roi_exist) > 0:] is read as the
    [elif] it stands for. *)
Definition read_tables (f : NWB.file) (no_background_comps : nat)
    (pmod : module_handle) (ps : option nat) : Py.result tables :=
  let* table := ps_table f ps in
  let* image_mask := ps_column "image_mask" (NWB.ps_image_mask table) in
  let* image_masks := Np.moveaxis_first_to_last image_mask in
  let* pixel_mask := ps_column "pixel_mask" (NWB.ps_pixel_mask table) in
  let* pixel_masks := Np.moveaxis_of_vector (NWB.ragged_data pixel_mask) in
  let _roi_exist :=
    omap (fun n => if decide (NWB.type_name (NWB.content n) = "RoiResponseSeries")
                   then Some (NWB.name n) else None) f in
  match _roi_exist with
  | [] => Py.raise (Py.Exception "no ROI response series found")
  | first :: others =>
      let* rrs_neurons := get_roi_response_series f pmod first in
      let roi_response := NWB.rrs_data rrs_neurons in
      let* roi_response_bk :=
        match others with
        | [] => Py.ok (nan_block no_background_comps (Np.shape2 roi_response).2)
        | second :: _ =>
            let* rrs_bk := get_roi_response_series f pmod second in
            Py.ok (NWB.rrs_data rrs_bk)
        end in
      let _samp_freq := NWB.rrs_rate rrs_neurons in
      let* total_time :=
        match _samp_freq with
        | Some rate => Py.ok (rate * inject_Z (Z.of_nat (length roi_response)))%Q
        | None => Py.raise (Py.TypeError "unsupported operand type(s) for *: 'NoneType' and 'int'")
        end in
      Py.ok (mkTables image_masks pixel_masks roi_response roi_response_bk
               (NWB.ps_columns table) _samp_freq total_time (NWB.ps_id table))
  end.

(** The body of [with NWBHDF5IO(filepath, mode='r+') as io:] on the file
    that [io.read()] returned: what is printed, and the instance or the
    exception. *)
Definition read_nwbfile (f : NWB.file) (filepath : string) (no_background_comps : nat)
  : list string * Py.result t :=
  let _nwbchildren_name := NWB.children_name f in
  let '(printed, pmod) := select_module f in
  match pmod with
  | inl e => (printed, inl e)
  | inr pmod =>
      let _plane_segmentation_exist := NWB.positions "PlaneSegmentation" _nwbchildren_name in
      let printed' :=
        match _plane_segmentation_exist with
        | [] => ["could not find a plane segmentation to contain image mask"]
        | _ => []
        end in
      (* [ps] is only bound in the [else] of the check *)
      let ps := head _plane_segmentation_exist in
      (printed ++ printed',
       let* tb := read_tables f no_background_comps pmod ps in
       let* channels := read_channel_names f in
       let* movie := read_movie_location f in
       Py.ok (mk filepath (t_image_masks tb) (t_image_masks tb)
                (PixelStack (t_pixel_masks tb)) (Np.shape3 (t_image_masks tb)).1
                no_background_comps (t_roi_response tb) (t_roi_response_bk tb)
                (t_new_columns tb) (t_samp_freq tb) (t_total_time tb) (t_roi_idx tb)
                channels movie None))
  end.

(** [NwbSegmentationExtractor(filepath)]. *)
Definition __init__ (fs : NWB.filesystem) (filepath : string) (no_background_comps : nat)
  : list string * Py.result t :=
  match fs !! filepath with
  | None => ([], Py.raise (Py.Exception "file does not exist"))
  | Some NWB.Blank => ([], Py.raise (Py.OSError "Unable to open file (file signature not found)"))
  | Some (NWB.Container f) => read_nwbfile f filepath no_background_comps
  end.

(** *** write_nwb *)

(** What [write_nwb] reads of the extractor it is given: three accessors
    and the attributes of the object.  The background masks are optional
    attributes ([hasattr]).  The attribute [cn] only feeds an [Images]
    object that is never attached to the file, and is left out. *)
Record segmentation_extractor : Type := mkSegmentation {
  seg_sampling_frequency : option Q;
  seg_movie_location : option string;
  seg_channel_names : option (list string);
  seg_roi_idx : list Z;
  seg_image_masks : Np.array2 Q;
  seg_pixel_masks : Np.array2 Q;
  seg_image_dims : list nat;
  seg_image_masks_bk : option (Np.array2 Q);
  seg_pixel_masks_bk : option (list (Np.array2 Q));
  seg_roi_response : Np.array2 Np.float;
  seg_roi_response_bk : Np.array2 Np.float;
  seg_roi_response_residual : Np.array2 Np.float
}.

(** The keyword arguments that decide what is written where.  The
    descriptions, wavelengths, indicator, location, identifier and session
    start only annotate the objects and are left out. *)
Record arguments : Type := mkArguments {
  propertydict : option (list (string * list Q));
  starting_time : Q;
  device_name : string;
  optical_channel_name : option string;
  imaging_plane_name : string;
  image_series_name : string;
  processing_module_name : string;
  neuron_roi_response_series_name : string;
  background_roi_response_series_name : string
}.

(** The defaults of the signature. *)
Definition default_arguments : arguments :=
  mkArguments None 0%Q "MyDevice" None "MyImagingPlane" "MyTwoPhotonSeries" "Ophys"
    "NeuronTimeSeriesData" "BackgroundTimeSeriesData".

(** An element of [optical_channel_list]: a list holding new channels (by
    name), or a node of the file. *)
Inductive channel_item : Type :=
| NewChannels (names : list string)
| ExistingNode (idx : nat).

(** The file in memory and the local variables of [write_nwb] that the
    two branches bind; [None] is a variable that no executed statement
    has bound.  [pmod] is the local [mod]; [optical_channel] holds the
    name of the channel object of the branch for a new file. *)
Record frame : Type := mkFrame {
  nwbfile : NWB.file;
  _nwbchildren_name : option (list string);
  device : option nat;
  optical_channel_list : option (list channel_item);
  optical_channel : option string;
  imaging_plane : option nat;
  image_series : option nat;
  pmod : option nat;
  img_seg : option nat;
  fl : option nat;
  ps : option nat
}.

Definition new_frame (f : NWB.file) : frame :=
  mkFrame f None None None None None None None None None None.

Definition set_nwbfile (v : NWB.file) (s : frame) : frame :=
  mkFrame v (_nwbchildren_name s) (device s) (optical_channel_list s) (optical_channel s)
    (imaging_plane s) (image_series s) (pmod s) (img_seg s) (fl s) (ps s).
Definition set__nwbchildren_name (v : option (list string)) (s : frame) : frame :=
  mkFrame (nwbfile s) v (device s) (optical_channel_list s) (optical_channel s)
    (imaging_plane s) (image_series s) (pmod s) (img_seg s) (fl s) (ps s).
Definition set_device (v : option nat) (s : frame) : frame :=
  mkFrame (nwbfile s) (_nwbchildren_name s) v (optical_channel_list s) (optical_channel s)
    (imaging_plane s) (image_series s) (pmod s) (img_seg s) (fl s) (ps s).
Definition set_optical_channel_list (v : option (list channel_item)) (s : frame) : frame :=
  mkFrame (nwbfile s) (_nwbchildren_name s) (device s) v (optical_channel s)
    (imaging_plane s) (image_series s) (pmod s) (img_seg s) (fl s) (ps s).
Definition set_optical_channel (v : option string) (s : frame) : frame :=
  mkFrame (nwbfile s) (_nwbchildren_name s) (device s) (optical_channel_list s) v
    (imaging_plane s) (image_series s) (pmod s) (img_seg s) (fl s) (ps s).
Definition set_imaging_plane (v : option nat) (s : frame) : frame :=
  mkFrame (nwbfile s) (_nwbchildren_name s) (device s) (optical_channel_list s)
    (optical_channel s) v (image_series s) (pmod s) (img_seg s) (fl s) (ps s).
Definition set_image_series (v : option nat) (s : frame) : frame :=
  mkFrame (nwbfile s) (_nwbchildren_name s) (device s) (optical_channel_list s)
    (optical_channel s) (imaging_plane s) v (pmod s) (img_seg s) (fl s) (ps s).
Definition set_pmod (v : option nat) (s : frame) : frame :=
  mkFrame (nwbfile s) (_nwbchildren_name s) (device s) (optical_channel_list s)
    (optical_channel s) (imaging_plane s) (image_series s) v (img_seg s) (fl s) (ps s).
Definition set_img_seg (v : option nat) (s : frame) : frame :=
  mkFrame (nwbfile s) (_nwbchildren_name s) (device s) (optical_channel_list s)
    (optical_channel s) (imaging_plane s) (image_series s) (pmod s) v (fl s) (ps s).
Definition set_fl (v : option nat) (s : frame) : frame :=
  mkFrame (nwbfile s) (_nwbchildren_name s) (device s) (optical_channel_list s)
    (optical_channel s) (imaging_plane s) (image_series s) (pmod s) (img_seg s) v (ps s).
Definition set_ps (v : option nat) (s : frame) : frame :=
  mkFrame (nwbfile s) (_nwbchildren_name s) (device s) (optical_channel_list s)
    (optical_channel s) (imaging_plane s) (image_series s) (pmod s) (img_seg s) (fl s) v.

(** A statement: it runs on a frame and ends normally or with an
    exception; the frame it leaves is the frame at that point. *)
Definition run (A : Type) : Type := frame -> Py.result A * frame.

Definition ret {A} (a : A) : run A := fun s => (inr a, s).
Definition fail {A} (e : Py.error) : run A := fun s => (inl e, s).
Definition then_ {A B} (m : run A) (k : A -> run B) : run B :=
  fun s => match m s with
           | (inl e, s') => (inl e, s')
           | (inr a, s') => k a s'
           end.
Definition lift {A} (r : Py.result A) : run A := fun s => (r, s).
Definition get : run frame := fun s => (inr s, s).
Definition modify (g : frame -> frame) : run unit := fun s => (inr tt, g s).
Definition read_local {A} (var : string) (proj : frame -> option A) : run A :=
  fun s => (Py.local var (proj s), s).

End NwbSegmentationExtractor.

Notation "'let+' x ':=' m 'in' k" := (NwbSegmentationExtractor.then_ m (fun x => k))
  (at level 10, x name, m at level 100, k at level 200, only parsing).
Notation "m ';+' k" := (NwbSegmentationExtractor.then_ m (fun _ => k))
  (at level 100, k at level 200, right associativity, only parsing).

(* ===================================================================== *)
(** ** NwbSegmentationExtractor.write_nwb                                 *)
(* ===================================================================== *)

Module WriteNwb.

Import NwbSegmentationExtractor.

(** Attaching an object to the file; its position is returned. *)
Definition add_node (n : NWB.node) : run nat :=
  fun s => (inr (length (nwbfile s)), set_nwbfile (NWB.add n (nwbfile s)) s).

(** The node at a position, when it has the content that the called
    method belongs to. *)
Definition expect (method : string) (P : NWB.body -> bool) (i : nat) : run unit :=
  fun s => match NWB.content <$> nwbfile s !! i with
           | Some b => if P b then (inr tt, s) else (inl (Py.AttributeError method), s)
           | None => (inl (Py.AttributeError method), s)
           end.

Definition is_processing_module (b : NWB.body) : bool :=
  match b with NWB.ProcessingModule => true | _ => false end.
Definition is_image_segmentation (b : NWB.body) : bool :=
  match b with NWB.ImageSegmentation => true | _ => false end.
Definition is_fluorescence (b : NWB.body) : bool :=
  match b with NWB.Fluorescence => true | _ => false end.

(** [for i, val in enumerate(l)] and [l[1::]] on a list that may be
    Python's [None]. *)
Definition iterate {A} (l : option (list A)) : Py.result (list A) :=
  match l with
  | Some l => Py.ok l
  | None => Py.raise (Py.TypeError "'NoneType' object is not iterable")
  end.

Definition from_second {A} (l : option (list A)) : Py.result (list A) :=
  match l with
  | Some l => Py.ok (drop 1 l)
  | None => Py.raise (Py.TypeError "'NoneType' object is not subscriptable")
  end.

(** The positions given to the new channels of an imaging plane placed
    at [next - 1], and their names in the order of attachment. *)
Fixpoint place_channels (next : nat) (items : list channel_item) : list nat * list string :=
  match items with
  | [] => ([], [])
  | NewChannels names :: r =>
      let '(refs, news) := place_channels (next + length names) r in
      (seq next (length names) ++ refs, names ++ news)
  | ExistingNode i :: r =>
      let '(refs, news) := place_channels next r in
      (i :: refs, news)
  end.

(** [nwbfile.create_imaging_plane(name=..., optical_channel=...,
    device=...)]: the plane and its new channels are attached. *)
Definition create_imaging_plane (plane_name : string) (channels : list channel_item)
    (dev : nat) : run nat :=
  fun s =>
    let p := length (nwbfile s) in
    let '(refs, news) := place_channels (S p) channels in
    let plane := NWB.mkNode plane_name None (NWB.ImagingPlane refs dev) in
    let nodes := map (fun n => NWB.mkNode n (Some p) NWB.OpticalChannel) news in
    (inr p, set_nwbfile (nwbfile s ++ plane :: nodes) s).

(** **** The branch for a file that exists *)

(** "check existence of device".  [len(_device_exist > 1)] compares a list
    with an integer. *)
Definition device_step (args : arguments) : run unit :=
  let+ names := read_local "_nwbchildren_name" _nwbchildren_name in
  let _device_exist := NWB.positions (device_name args) names in
  (match _device_exist with
   | [] => let+ _ := add_node (NWB.mkNode (device_name args) None NWB.Device) in ret tt
   | _ :: _ =>
       fail (Py.TypeError "'>' not supported between instances of 'list' and 'int'")
   end) ;+
  let+ s := get in
  match NWB.devices (nwbfile s) with
  | d :: _ => modify (set_device (Some d))
  | [] => fail (Py.IndexError "list index out of range")
  end.

(** "check existence of optical channel". *)
Definition optical_channel_step (args : arguments)
    (optical_channel_names : option (list string)) : run unit :=
  let+ names := read_local "_nwbchildren_name" _nwbchildren_name in
  let _optical_channel_exist := NWB.positions_opt (optical_channel_name args) names in
  match _optical_channel_exist with
  | [] =>
      let+ l := lift (iterate optical_channel_names) in
      modify (set_optical_channel_list (Some (map (fun val => NewChannels [val]) l)))
  | [i] =>
      let+ l := lift (from_second optical_channel_names) in
      modify (set_optical_channel_list
                (Some (map (fun val => NewChannels [val]) l ++ [ExistingNode i])))
  | _ => fail (Py.Exception "Multiple Optical Channels exist, provide name of one")
  end.

(** "check existence of imaging plane".  The plane that is created is not
    assigned to [imaging_plane]. *)
Definition imaging_plane_step (args : arguments) : run unit :=
  let+ names := read_local "_nwbchildren_name" _nwbchildren_name in
  let _imaging_plane_exist := NWB.positions (imaging_plane_name args) names in
  match _imaging_plane_exist with
  | [] =>
      let+ channels := read_local "optical_channel_list" optical_channel_list in
      let+ dev := read_local "device" device in
      let+ _ := create_imaging_plane (imaging_plane_name args) channels dev in
      ret tt
  | [i] => modify (set_imaging_plane (Some i))
  | _ => fail (Py.Exception "Multiple Imaging Planes exist, provide name of one")
  end.

(** "check existence of image series".  The series that is added is not
    assigned to [image_series]. *)
Definition image_series_step (args : arguments) (raw_movie_file_location : option string)
    (imaging_rate : option Q) : run unit :=
  let+ names := read_local "_nwbchildren_name" _nwbchildren_name in
  let _image_series_exist := NWB.positions (image_series_name args) names in
  match _image_series_exist with
  | [] =>
      let+ _ := add_node (NWB.mkNode (image_series_name args) None
                            (NWB.TwoPhotonSeries [raw_movie_file_location] imaging_rate)) in
      ret tt
  | [i] => modify (set_image_series (Some i))
  | _ => fail (Py.Exception "Multiple Imaging Series exist, provide name of one")
  end.

(** "Adding Ophys". *)
Definition processing_module_step (args : arguments) : run unit :=
  let+ names := read_local "_nwbchildren_name" _nwbchildren_name in
  let _ophys_module_exist := NWB.positions (processing_module_name args) names in
  match _ophys_module_exist with
  | [] =>
      let+ m := add_node (NWB.mkNode (processing_module_name args) None NWB.ProcessingModule) in
      modify (set_pmod (Some m))
  | [i] => modify (set_pmod (Some i))
  | _ => fail (Py.Exception "Multiple Ophys modules exist, provide name of one")
  end.

(** [mod.add_data_interface(...)] of a new interface. *)
Definition add_data_interface (interface_name : string) (b : NWB.body) : run nat :=
  let+ m := read_local "mod" pmod in
  expect "add_data_interface" is_processing_module m ;+
  add_node (NWB.mkNode interface_name (Some m) b).

(** "Adding ImageSegmentation" and "Adding Fluorescence". *)
Definition image_segmentation_step : run unit :=
  let+ names := read_local "_nwbchildren_name" _nwbchildren_name in
  match NWB.positions "ImageSegmentation" names with
  | [] =>
      let+ i := add_data_interface "ImageSegmentation" NWB.ImageSegmentation in
      modify (set_img_seg (Some i))
  | i :: _ => modify (set_img_seg (Some i))
  end.

Definition fluorescence_step : run unit :=
  let+ names := read_local "_nwbchildren_name" _nwbchildren_name in
  match NWB.positions "Fluorescence" names with
  | [] =>
      let+ i := add_data_interface "Fluorescence" NWB.Fluorescence in
      modify (set_fl (Some i))
  | i :: _ => modify (set_fl (Some i))
  end.

Definition empty_table : NWB.plane_segmentation := NWB.mkPlaneSegmentation [] None None [].

(** [img_seg.create_plane_segmentation('ROIs', imaging_plane,
    'PlaneSegmentation', image_series)]. *)
Definition create_plane_segmentation : run nat :=
  let+ seg_node := read_local "img_seg" img_seg in
  let+ _ := read_local "imaging_plane" imaging_plane in
  let+ _ := read_local "image_series" image_series in
  expect "create_plane_segmentation" is_image_segmentation seg_node ;+
  add_node (NWB.mkNode "PlaneSegmentation" (Some seg_node) (NWB.PlaneSegmentation empty_table)).

(** "Adding PlaneSegmentation". *)
Definition plane_segmentation_step : run unit :=
  let+ names := read_local "_nwbchildren_name" _nwbchildren_name in
  match NWB.positions "PlaneSegmentation" names with
  | [] => let+ i := create_plane_segmentation in modify (set_ps (Some i))
  | i :: _ => modify (set_ps (Some i))
  end.

(** The [if _nwbfile_exist:] branch, on the file that [io.read()]
    returned. *)
Definition existing_file_branch (args : arguments)
    (optical_channel_names : option (list string))
    (raw_movie_file_location : option string) (imaging_rate : option Q) : run unit :=
  (let+ s := get in
   modify (set__nwbchildren_name (Some (NWB.children_name (nwbfile s))))) ;+
  device_step args ;+
  optical_channel_step args optical_channel_names ;+
  imaging_plane_step args ;+
  image_series_step args raw_movie_file_location imaging_rate ;+
  processing_module_step args ;+
  image_segmentation_step ;+
  fluorescence_step ;+
  plane_segmentation_step.

(** What the entity checks keep of a frame: the names read at the start,
    and an unbound [imaging_plane] or [image_series] as long as no node
    has the requested name. *)
Definition checks_keep (args : arguments) (names : list string) (s : frame) : Prop :=
  _nwbchildren_name s = Some names ∧
  (imaging_plane_name args ∉ names → imaging_plane s = None) ∧
  (image_series_name args ∉ names → image_series s = None).

(** **** The branch for a new file *)

(** [OpticalChannel(optical_channel_name, ...)]: the container library
    gives every object a name, which has to be a string. *)
Definition new_optical_channel (channel_name : option string) : Py.result string :=
  match channel_name with
  | Some n => Py.ok n
  | None => Py.raise (Py.TypeError "OpticalChannel.__init__: incorrect type for 'name'")
  end.

(** The [else:] branch.  [device] is a local variable of [write_nwb]
    (the other branch assigns it) and this branch reads it without
    binding it. *)
Definition new_file_branch (args : arguments)
    (raw_movie_file_location : option string) (imaging_rate : option Q) : run unit :=
  modify (set_nwbfile [NWB.mkNode "root" None NWB.NWBFileRoot]) ;+
  (let+ _ := add_node (NWB.mkNode (device_name args) None NWB.Device) in ret tt) ;+
  let+ channel := lift (new_optical_channel (optical_channel_name args)) in
  modify (set_optical_channel (Some channel)) ;+
  let+ channel := read_local "optical_channel" optical_channel in
  let+ dev := read_local "device" device in
  let+ plane := create_imaging_plane (imaging_plane_name args) [NewChannels [channel]] dev in
  modify (set_imaging_plane (Some plane)) ;+
  let+ series := add_node (NWB.mkNode (image_series_name args) None
                             (NWB.TwoPhotonSeries [raw_movie_file_location] imaging_rate)) in
  modify (set_image_series (Some series)) ;+
  let+ m := add_node (NWB.mkNode (processing_module_name args) None NWB.ProcessingModule) in
  modify (set_pmod (Some m)) ;+
  let+ i := add_data_interface "ImageSegmentation" NWB.ImageSegmentation in
  modify (set_img_seg (Some i)) ;+
  let+ i := add_data_interface "Fluorescence" NWB.Fluorescence in
  modify (set_fl (Some i)) ;+
  let+ i := create_plane_segmentation in
  modify (set_ps (Some i)).

(** **** The statements after the two branches *)

(** "Adding custom columns": the block runs when [propertydict] is empty
    or [None], and starts with [range(len(propertydict))]; its loop body
    (the only caller of [set_dynamic_table_property]) therefore never
    runs. *)
Definition custom_columns (args : arguments) : run unit :=
  match propertydict args with
  | None => fail (Py.TypeError "object of type 'NoneType' has no len()")
  | Some [] => ret tt
  | Some (_ :: _) => ret tt
  end.

(** [v.reshape(image_dims, order='F')] of a flat mask to (rows, columns). *)
Definition reshape_F (dims : list nat) (v : list Q) : Py.result (Np.array2 Q) :=
  match dims with
  | [rows; columns] =>
      if Nat.eqb (length v) (rows * columns) then
        Py.ok (map (fun y => map (fun x => default 0%Q (v !! (y + x * rows)%nat))
                                 (seq 0 columns))
                   (seq 0 rows))
      else Py.raise (Py.ValueError "cannot reshape array")
  | _ => Py.raise (Py.ValueError "cannot reshape array")
  end.

(** [a[:, i]]. *)
Definition column {A} (i : nat) (a : Np.array2 A) : Py.result (list A) :=
  match mapM (fun row : list A => row !! i) a with
  | Some c => Py.ok c
  | None => Py.raise (Py.IndexError "index is out of bounds for axis 1")
  end.

(** [ps.add_roi(image_mask=..., pixel_mask=..., id=...)] on the table that
    [ps] refers to; without [id] the row gets the number of rows as id. *)
Definition add_roi (image_mask : Np.array2 Q) (pixel_mask : option (Np.array2 Q))
    (roi_id : option Z) : run unit :=
  let+ p := read_local "ps" ps in
  let+ s := get in
  match NWB.content <$> nwbfile s !! p with
  | Some (NWB.PlaneSegmentation tbl) =>
      let tbl' :=
        NWB.mkPlaneSegmentation
          (NWB.ps_id tbl ++ [default (Z.of_nat (length (NWB.ps_id tbl))) roi_id])
          (Some (default [] (NWB.ps_image_mask tbl) ++ [image_mask]))
          (match pixel_mask with
           | Some pm => Some (default [] (NWB.ps_pixel_mask tbl) ++ [pm])
           | None => NWB.ps_pixel_mask tbl
           end)
          (NWB.ps_columns tbl) in
      modify (set_nwbfile (NWB.set_content p (NWB.PlaneSegmentation tbl') (nwbfile s)))
  | _ => fail (Py.AttributeError "add_roi")
  end.

(** "Adding Image and Pixel Masks": the loop over [enumerate(roi_idx)]. *)
Fixpoint add_rois (seg : segmentation_extractor) (rois : list (nat * Z)) : run unit :=
  match rois with
  | [] => ret tt
  | (i, roiid) :: r =>
      let+ img_roi := lift (column i (seg_image_masks seg)) in
      let+ rows := lift (rows_with_id (PixelRows (seg_pixel_masks seg)) roiid) in
      let pix_roi := map (take 4) rows in
      let+ mask := lift (reshape_F (seg_image_dims seg) img_roi) in
      add_roi mask (Some pix_roi) (Some roiid) ;+
      add_rois seg r
  end.

(** "Background components addition". *)
Fixpoint add_background_rois (seg : segmentation_extractor)
    (masks : list (list Q * option (Np.array2 Q))) : run unit :=
  match masks with
  | [] => ret tt
  | (img_roi_bk, pix_roi_bk) :: r =>
      let+ mask := lift (reshape_F (seg_image_dims seg) img_roi_bk) in
      add_roi mask pix_roi_bk None ;+
      add_background_rois seg r
  end.

Definition background_components (seg : segmentation_extractor) : run unit :=
  match seg_image_masks_bk seg with
  | None => ret tt
  | Some bk =>
      match seg_pixel_masks_bk seg with
      | Some pix => add_background_rois seg (zip (Np.transpose bk) (Some <$> pix))
      | None => add_background_rois seg ((fun m => (m, None)) <$> Np.transpose bk)
      end
  end.

(** [np.arange(n) / imaging_rate + starting_time]. *)
Definition timestamps_of (n : nat) (imaging_rate : option Q) (start : Q)
  : Py.result (list Np.float) :=
  match imaging_rate with
  | None => Py.raise (Py.TypeError "unsupported operand type(s) for /: 'int' and 'NoneType'")
  | Some rate =>
      Py.ok (map (fun k : nat =>
                    if Qeq_bool rate 0 then (if Nat.eqb k 0 then Np.NaN else Np.PosInf)
                    else Np.Fin (inject_Z (Z.of_nat k) / rate + start)%Q)
                 (seq 0 n))
  end.

(** [fl.create_roi_response_series(name=..., data=..., rois=...,
    starting_time=..., rate=...)]. *)
Definition create_roi_response_series (series_name : string) (data : Np.array2 Np.float)
    (rois : list nat) (start : Q) (rate : option Q) : run unit :=
  let+ f := read_local "fl" fl in
  expect "create_roi_response_series" is_fluorescence f ;+
  let+ _ := add_node (NWB.mkNode series_name (Some f)
                        (NWB.RoiResponseSeries (NWB.mkRoiResponseSeries data rois start rate))) in
  ret tt.

(** [ps.create_roi_table_region(description, region=...)]: the rows of
    the region must be rows of the table. *)
Definition create_roi_table_region (region : list nat) : run (list nat) :=
  let+ p := read_local "ps" ps in
  let+ s := get in
  match NWB.content <$> nwbfile s !! p with
  | Some (NWB.PlaneSegmentation tbl) =>
      match list_find (fun idx => length (NWB.ps_id tbl) <= idx)%nat region with
      | Some (_, idx) =>
          fail (Py.IndexError ("The index " ++ pretty idx
                               ++ " is out of range for this DynamicTable of length "
                               ++ pretty (length (NWB.ps_id tbl))))
      | None => ret region
      end
  | _ => fail (Py.AttributeError "create_roi_table_region")
  end.

(** "Add Traces" to the residual series.  Both response series are given
    [roi_response.T]. *)
Definition add_traces (seg : segmentation_extractor) (args : arguments)
    (imaging_rate : option Q) : run unit :=
  let no_neurons_rois := (Np.shape2 (seg_image_masks seg)).2 in
  let no_background_rois := length (seg_roi_response_bk seg) in
  let+ neuron_rois := create_roi_table_region (seq 0 no_neurons_rois) in
  let+ background_rois := create_roi_table_region (seq no_neurons_rois no_background_rois) in
  let+ timestamps := lift (timestamps_of (Np.shape2 (seg_roi_response_bk seg)).2
                             imaging_rate (starting_time args)) in
  let+ names := read_local "_nwbchildren_name" _nwbchildren_name in
  (match NWB.positions (neuron_roi_response_series_name args) names with
   | [] => create_roi_response_series (neuron_roi_response_series_name args)
             (Np.transpose (seg_roi_response seg)) neuron_rois (starting_time args) imaging_rate
   | _ :: _ => fail (Py.Exception ("Time Series for" ++ neuron_roi_response_series_name args
                                   ++ " already exists , provide another name"))
   end) ;+
  let+ names := read_local "_nwbchildren_name" _nwbchildren_name in
  (match NWB.positions (background_roi_response_series_name args) names with
   | [] => create_roi_response_series (background_roi_response_series_name args)
             (Np.transpose (seg_roi_response seg)) background_rois (starting_time args)
             imaging_rate
   | _ :: _ => fail (Py.Exception ("Time Series for" ++ background_roi_response_series_name args
                                   ++ " already exists , provide another name"))
   end) ;+
  let+ m := read_local "mod" pmod in
  expect "add" is_processing_module m ;+
  let+ _ := add_node (NWB.mkNode "residuals" (Some m)
                        (NWB.TimeSeries (Np.transpose (seg_roi_response_residual seg))
                           timestamps)) in
  ret tt.

(** Everything between the two branches and [io.write(nwbfile)]. *)
Definition after_branches (seg : segmentation_extractor) (args : arguments)
    (imaging_rate : option Q) : run unit :=
  custom_columns args ;+
  add_rois seg (imap (fun i roiid => (i, roiid)) (seg_roi_idx seg)) ;+
  background_components seg ;+
  add_traces seg args imaging_rate.

(** **** write_nwb *)

(** [if not optical_channel_name:] and the two ways of building
    [optical_channel_names]. *)
Definition channel_names_argument (seg : segmentation_extractor) (args : arguments)
  : Py.result (option (list string)) :=
  match optical_channel_name args with
  | None | Some "" => Py.ok (seg_channel_names seg)
  | Some n =>
      let* rest := iterate (seg_channel_names seg) in
      Py.ok (Some (n :: rest))
  end.

(** [write_nwb(segmentation_extractor_obj, filename, **kwargs)]: the file
    system after the call and the outcome.  The file is only written by
    the last statement, [io.write(nwbfile)]; opening a new file with mode
    'w' creates it. *)
Definition write_nwb (fs : NWB.filesystem) (seg : segmentation_extractor)
    (filename : string) (args : arguments) : NWB.filesystem * Py.result unit :=
  let imaging_rate := seg_sampling_frequency seg in
  let raw_movie_file_location := seg_movie_location seg in
  match channel_names_argument seg args with
  | inl e => (fs, inl e)
  | inr optical_channel_names =>
      if negb (bool_decide (PyPath.lower (PyPath.splitext_ext filename) = ".nwb")) then
        (fs, Py.raise (Py.Exception "Wrong filename"))
      else
        match fs !! filename with
        | Some NWB.Blank =>
            (fs, Py.raise (Py.OSError "Unable to open file (file signature not found)"))
        | Some (NWB.Container f) =>
            let body :=
              existing_file_branch args optical_channel_names raw_movie_file_location
                imaging_rate ;+
              after_branches seg args imaging_rate in
            match body (new_frame f) with
            | (inl e, _) => (fs, inl e)
            | (inr _, s) => (<[filename := NWB.Container (nwbfile s)]> fs, inr tt)
            end
        | None =>
            let body :=
              new_file_branch args raw_movie_file_location imaging_rate ;+
              after_branches seg args imaging_rate in
            match body (new_frame []) with
            | (inl e, _) => (<[filename := NWB.Blank]> fs, inl e)
            | (inr _, s) => (<[filename := NWB.Container (nwbfile s)]> fs, inr tt)
            end
        end
  end.

End WriteNwb.

(* ===================================================================== *)
(** ** Example data                                                       *)
(* ===================================================================== *)

Module Examples.

(** Four frames of one pixel with two channels. *)
Definition four_frames : list (@Hdf5ImagingExtractor.FrameC nat) :=
  [ [[ [10; 11]%nat ]]; [[ [20; 21]%nat ]]; [[ [30; 31]%nat ]]; [[ [40; 41]%nat ]] ].

Definition four_frame_extractor : @Hdf5ImagingExtractor.extractor nat :=
  Hdf5ImagingExtractor.mkExtractor (Hdf5ImagingExtractor.Video4 four_frames) 4 None.

(** An extractor state with the given masks, pixel rows and ROI ids and
    nothing else. *)
Definition segmentation (raw_images : Np.array3 Q) (pixel_rows : Np.array2 Q)
    (roi_ids : list Z) : NwbSegmentationExtractor.t :=
  NwbSegmentationExtractor.mk "" raw_images raw_images
    (NwbSegmentationExtractor.PixelRows pixel_rows)
    ((Np.shape3 raw_images).1.1, (Np.shape3 raw_images).1.2) 0 [] [] []
    None 0%Q roi_ids None None None.

(** One ROI on a 2 x 1 image whose two pixels tie at the maximum. *)
Definition tied_rows : NwbSegmentationExtractor.t :=
  segmentation [ [[1%Q]]; [[1%Q]] ] [] [0].

(** Two ROIs with the ids 5 and 7 on a 1 x 2 image, one pixel each. *)
Definition two_rois : NwbSegmentationExtractor.t :=
  segmentation [ [[1%Q; 0%Q]; [0%Q; 1%Q]] ]
    [ [0%Q; 0%Q; 1%Q; 5%Q]; [0%Q; 1%Q; 1%Q; 7%Q] ] [5; 7].

(** A container with one processing module and a response series, and no
    ROI table. *)
Definition series_of (data : Np.array2 Np.float) : NWB.roi_response_series :=
  NWB.mkRoiResponseSeries data [0%nat] 0%Q (Some 30%Q).

Definition file_without_roi_table : NWB.file :=
  [ NWB.mkNode "root" None NWB.NWBFileRoot;
    NWB.mkNode "Ophys" None NWB.ProcessingModule;
    NWB.mkNode "Fluorescence" (Some 1%nat) NWB.Fluorescence;
    NWB.mkNode "NeuronTimeSeriesData" (Some 2%nat)
      (NWB.RoiResponseSeries (series_of [[Np.Fin 1%Q]; [Np.Fin 2%Q]])) ].

(** A segmentation to be written: one ROI on a 1 x 2 image, two frames. *)
Definition one_roi_segmentation : NwbSegmentationExtractor.segmentation_extractor :=
  NwbSegmentationExtractor.mkSegmentation (Some 30%Q) (Some "movie.tif") (Some ["channel_0"])
    [0] [[1%Q]; [0%Q]] [[0%Q; 0%Q; 1%Q; 0%Q]] [1; 2]%nat None None
    [[Np.Fin 1%Q; Np.Fin 2%Q]] [] [[Np.Fin 0%Q; Np.Fin 0%Q]].

(** The default arguments with a named optical channel and an empty list
    of extra properties. *)
Definition named_channel_arguments : NwbSegmentationExtractor.arguments :=
  NwbSegmentationExtractor.mkArguments (Some []) 0%Q "MyDevice" (Some "OpticalChannel")
    "MyImagingPlane" "MyTwoPhotonSeries" "Ophys"
    "NeuronTimeSeriesData" "BackgroundTimeSeriesData".


(** A file that holds a device under the default name. *)
Definition file_with_device : NWB.file :=
  [ NWB.mkNode "root" None NWB.NWBFileRoot;
    NWB.mkNode "MyDevice" None NWB.Device ].



(** A file with a device and one imaging plane of two optical channels. *)
Definition file_with_two_channels : NWB.file :=
  [ NWB.mkNode "root" None NWB.NWBFileRoot;
    NWB.mkNode "Scope" None NWB.Device;
    NWB.mkNode "MyImagingPlane" None (NWB.ImagingPlane [3; 4]%nat 1);
    NWB.mkNode "green" (Some 2%nat) NWB.OpticalChannel;
    NWB.mkNode "red" (Some 2%nat) NWB.OpticalChannel ].

(** A container with a processing module, its two interfaces and an
    empty ROI table. *)
Definition file_with_interfaces : NWB.file :=
  [ NWB.mkNode "root" None NWB.NWBFileRoot;
    NWB.mkNode "Ophys" None NWB.ProcessingModule;
    NWB.mkNode "ImageSegmentation" (Some 1%nat) NWB.ImageSegmentation;
    NWB.mkNode "Fluorescence" (Some 1%nat) NWB.Fluorescence;
    NWB.mkNode "PlaneSegmentation" (Some 2%nat) (NWB.PlaneSegmentation WriteNwb.empty_table) ].

(** The same container once two ROIs are in its table, the frame of
    [write_nwb] at that point with its variables bound to the module,
    the interfaces and the table, and a segmentation of one ROI and one
    background component on a 1 x 2 image, with two frames. *)
Definition two_roi_table : NWB.plane_segmentation :=
  NWB.mkPlaneSegmentation [0; 1] (Some [ [[1%Q; 0%Q]]; [[0%Q; 1%Q]] ])
    (Some [ [[0%Q; 0%Q; 1%Q; 0%Q]]; [[0%Q; 1%Q; 1%Q; 1%Q]] ]) [].

Definition file_with_two_rois : NWB.file :=
  take 4 file_with_interfaces
  ++ [ NWB.mkNode "PlaneSegmentation" (Some 2%nat) (NWB.PlaneSegmentation two_roi_table) ].

Definition frame_with_two_rois : NwbSegmentationExtractor.frame :=
  NwbSegmentationExtractor.mkFrame file_with_two_rois
    (Some (NWB.children_name file_with_two_rois)) None None None None None
    (Some 1%nat) (Some 2%nat) (Some 3%nat) (Some 4%nat).

Definition segmentation_with_background : NwbSegmentationExtractor.segmentation_extractor :=
  NwbSegmentationExtractor.mkSegmentation (Some 30%Q) (Some "movie.tif") (Some ["channel_0"])
    [0] [[1%Q]; [0%Q]] [[0%Q; 0%Q; 1%Q; 0%Q]] [1; 2]%nat None None
    [[Np.Fin 1%Q; Np.Fin 2%Q]] [[Np.Fin 5%Q; Np.Fin 6%Q]] [[Np.Fin 0%Q; Np.Fin 0%Q]].

(** A helper for the HDF5 writer that stores one dataset, and the shape
    that is read from it: one channel, four frames of one pixel. *)
Definition one_dataset (field : string)
    (f : gmap string (@Hdf5ImagingExtractor.dataset nat nat))
  : gmap string (@Hdf5ImagingExtractor.dataset nat nat) * option Py.error :=
  (<[field := Hdf5ImagingExtractor.mkDataset 4%nat ∅]> f, None).

Definition shape_of_dataset (frames : nat) : Py.result (nat * nat * nat * nat) :=
  Py.ok (1, frames, 1, 1)%nat.

End Examples.

(* ===================================================================== *)
(** * Properties                                                          *)
(* ===================================================================== *)

(** ** VideoStructure *)

Lemma in_range_cases (a : Z) :
  VideoStructure.in_range a = true -> a = 0 \/ a = 1 \/ a = 2 \/ a = 3.
Proof.
  unfold VideoStructure.in_range. intros H.
  apply andb_true_iff in H as [H1 H2].
  apply Z.leb_le in H1. apply Z.leb_le in H2. lia.
Qed.

Lemma valid_axes_inv (a b c d : Z) :
  VideoStructure.valid_axes [a; b; c; d] = true ->
  (a = 0 \/ a = 1 \/ a = 2 \/ a = 3) /\ (b = 0 \/ b = 1 \/ b = 2 \/ b = 3) /\
  (c = 0 \/ c = 1 \/ c = 2 \/ c = 3) /\ (d = 0 \/ d = 1 \/ d = 2 \/ d = 3) /\
  NoDup [a; b; c; d].
Proof.
  unfold VideoStructure.valid_axes. intros H.
  apply andb_true_iff in H as [Hr Hn].
  apply bool_decide_eq_true in Hn.
  cbn in Hr. repeat (apply andb_true_iff in Hr as [?%in_range_cases Hr]).
  tauto.
Qed.

(** The bodies of the tests of test_extraction_tools.py, on the model. *)
Example test_basic_parameters :
  exists v, VideoStructure.make 10 5 3 1 2 3 0 = inr v /\
    VideoStructure.frame_shape v = [Some 10; Some 5; Some 3] /\
    VideoStructure.number_of_pixels_per_frame v = 10 * 5 * 3 /\
    VideoStructure.build_video_shape v 20 = [Some 20; Some 10; Some 5; Some 3].
Proof. eexists. split; [reflexivity|]. repeat split. Qed.

Example test_axis_permutation_1 :
  exists v, VideoStructure.make 10 5 3 2 1 0 3 = inr v /\
    VideoStructure.frame_shape v = [Some 3; Some 5; Some 10] /\
    VideoStructure.number_of_pixels_per_frame v = 10 * 5 * 3 /\
    VideoStructure.build_video_shape v 20 = [Some 3; Some 5; Some 10; Some 20].
Proof. eexists. split; [reflexivity|]. repeat split. Qed.

Example test_axis_permutation_2 :
  exists v, VideoStructure.make 10 5 3 0 1 3 2 = inr v /\
    VideoStructure.frame_shape v = [Some 10; Some 5; Some 3] /\
    VideoStructure.number_of_pixels_per_frame v = 10 * 5 * 3 /\
    VideoStructure.build_video_shape v 20 = [Some 10; Some 5; Some 20; Some 3].
Proof. eexists. split; [reflexivity|]. repeat split. Qed.

Example test_invalid_structure_with_repeated_axis :
  VideoStructure.make 10 5 3 1 2 3 3
  = inl (VideoStructure.ConfigurationError [1; 2; 3; 3]).
Proof. reflexivity. Qed.

Example test_invalid_structure_with_values_out_of_range :
  VideoStructure.make 10 5 3 1 2 3 10
  = inl (VideoStructure.ConfigurationError [1; 2; 3; 10]).
Proof. reflexivity. Qed.

(** The validation accepts exactly the permutations of 0, 1, 2, 3. *)
Lemma valid_axes_permutation (a b c d : Z) :
  VideoStructure.valid_axes [a; b; c; d] = true <-> [a; b; c; d] ≡ₚ [0; 1; 2; 3].
Proof.
  split.
  - intros Hv. pose proof (valid_axes_inv a b c d Hv) as (Ha & Hb & Hc & Hd & _).
    destruct Ha as [-> | [-> | [-> | ->]]], Hb as [-> | [-> | [-> | ->]]],
      Hc as [-> | [-> | [-> | ->]]], Hd as [-> | [-> | [-> | ->]]];
      try (vm_compute in Hv; discriminate Hv); compute_done.
  - intros Hp. unfold VideoStructure.valid_axes.
    apply andb_true_iff. split.
    + apply forallb_forall. intros x Hx.
      apply (Permutation_in x) in Hp; [|exact Hx].
      cbn in Hp. unfold VideoStructure.in_range.
      destruct Hp as [<- | [<- | [<- | [<- | []]]]]; reflexivity.
    + apply bool_decide_eq_true. rewrite Hp. compute_done.
Qed.

(** C9. For every assignment of the four axes that is a permutation of
    0, 1, 2, 3, construction succeeds, [build_video_shape n] has four
    entries with [n] at [frame_axis] and rows, columns and num_channels at
    their own axes, and [number_of_pixels_per_frame] is
    rows * columns * num_channels; for every assignment that is not such a
    permutation, construction fails with the configuration error that
    carries the four offending values. *)
Theorem video_structure_shape_and_validation
  (rows columns num_channels frame_axis rows_axis columns_axis num_channels_axis n : Z) :
  ([frame_axis; rows_axis; columns_axis; num_channels_axis] ≡ₚ [0; 1; 2; 3] ->
   exists v,
     VideoStructure.make rows columns num_channels
       rows_axis columns_axis num_channels_axis frame_axis = inr v /\
     length (VideoStructure.build_video_shape v n) = 4%nat /\
     VideoStructure.build_video_shape v n !! Z.to_nat frame_axis = Some (Some n) /\
     VideoStructure.build_video_shape v n !! Z.to_nat rows_axis = Some (Some rows) /\
     VideoStructure.build_video_shape v n !! Z.to_nat columns_axis = Some (Some columns) /\
     VideoStructure.build_video_shape v n !! Z.to_nat num_channels_axis
       = Some (Some num_channels) /\
     VideoStructure.number_of_pixels_per_frame v = rows * columns * num_channels) /\
  (~ [frame_axis; rows_axis; columns_axis; num_channels_axis] ≡ₚ [0; 1; 2; 3] ->
   VideoStructure.make rows columns num_channels
     rows_axis columns_axis num_channels_axis frame_axis
   = inl (VideoStructure.ConfigurationError
            [rows_axis; columns_axis; num_channels_axis; frame_axis])).
Proof.
  assert (Hswap : [rows_axis; columns_axis; num_channels_axis; frame_axis]
                    ≡ₚ [frame_axis; rows_axis; columns_axis; num_channels_axis]).
  { change ([rows_axis; columns_axis; num_channels_axis] ++ [frame_axis]
              ≡ₚ [frame_axis] ++ [rows_axis; columns_axis; num_channels_axis]).
    apply Permutation_app_comm. }
  split.
  - intros Hp. rewrite <- Hswap in Hp.
    apply valid_axes_permutation in Hp as Hv.
    pose proof (valid_axes_inv _ _ _ _ Hv) as (Ha & Hb & Hc & Hd & _).
    unfold VideoStructure.make, VideoStructure.axes. cbn [VideoStructure.rows_axis
      VideoStructure.columns_axis VideoStructure.num_channels_axis VideoStructure.frame_axis].
    rewrite Hv. eexists. split; [reflexivity|].
    unfold VideoStructure.number_of_pixels_per_frame, VideoStructure.frame_shape,
      VideoStructure.build_video_shape, VideoStructure.place.
    cbn [VideoStructure.rows VideoStructure.columns VideoStructure.num_channels
         VideoStructure.rows_axis VideoStructure.columns_axis
         VideoStructure.num_channels_axis VideoStructure.frame_axis].
    destruct Ha as [-> | [-> | [-> | ->]]], Hb as [-> | [-> | [-> | ->]]],
      Hc as [-> | [-> | [-> | ->]]], Hd as [-> | [-> | [-> | ->]]];
      try (vm_compute in Hv; discriminate Hv);
      (repeat split; try reflexivity;
       change (Z.to_nat 0) with 0%nat; change (Z.to_nat 1) with 1%nat;
       change (Z.to_nat 2) with 2%nat; change (Z.to_nat 3) with 3%nat;
       unfold VideoStructure.shape_product; cbn; lia).
  - intros Hn. unfold VideoStructure.make, VideoStructure.axes. cbn.
    destruct (VideoStructure.valid_axes
                [rows_axis; columns_axis; num_channels_axis; frame_axis]) eqn:Hv;
      [|reflexivity].
    exfalso. apply Hn. rewrite <- Hswap. apply valid_axes_permutation. exact Hv.
Qed.

(** The second permutation of the tests (frame axis last), as an instance. *)
Lemma video_structure_shape_and_validation_witness :
  [3; 2; 1; 0] ≡ₚ [0; 1; 2; 3] /\
  exists v,
    VideoStructure.make 10 5 3 2 1 0 3 = inr v /\
    length (VideoStructure.build_video_shape v 20) = 4%nat /\
    VideoStructure.build_video_shape v 20 !! Z.to_nat 3 = Some (Some 20) /\
    VideoStructure.build_video_shape v 20 !! Z.to_nat 2 = Some (Some 10) /\
    VideoStructure.build_video_shape v 20 !! Z.to_nat 1 = Some (Some 5) /\
    VideoStructure.build_video_shape v 20 !! Z.to_nat 0 = Some (Some 3) /\
    VideoStructure.number_of_pixels_per_frame v = 10 * 5 * 3.
Proof.
  assert (Hp : [3; 2; 1; 0] ≡ₚ [0; 1; 2; 3]) by compute_done.
  split; [exact Hp|].
  exact (proj1 (video_structure_shape_and_validation 10 5 3 3 2 1 0 20) Hp).
Defined.

(** All 24 permutations are accepted. *)
Lemma all_axis_permutations_valid :
  length VideoStructure.all_axis_permutations = 24%nat /\
  forallb VideoStructure.valid_axes VideoStructure.all_axis_permutations = true.
Proof. split; vm_compute; reflexivity. Qed.

(** ** Hdf5ImagingExtractor.get_frames *)

Lemma np_min_spec (l : list nat) (lo : nat) :
  lo ∈ l -> (forall i, i ∈ l -> (lo <= i)%nat) ->
  Hdf5ImagingExtractor.np_min l = inr lo.
Proof.
  destruct l as [|x r]; [intros H; inversion H|].
  intros Hin Hle. unfold Hdf5ImagingExtractor.np_min, Py.ok. f_equal.
  assert (Hm : forall (r : list nat) x,
             foldr Nat.min x r ∈ x :: r /\
             forall i, i ∈ x :: r -> (foldr Nat.min x r <= i)%nat).
  { clear. induction r as [|y r IH]; intros x; cbn [foldr].
    - split; [left|]. intros i Hi. apply list_elem_of_singleton in Hi. lia.
    - destruct (IH x) as [Hmem Hall]. split.
      + destruct (Nat.min_spec y (foldr Nat.min x r)) as [[_ ->] | [_ ->]].
        * right. left.
        * apply elem_of_cons in Hmem as [-> | Hmem]; [left | right; right; exact Hmem].
      + intros i Hi. apply elem_of_cons in Hi as [-> | Hi].
        * specialize (Hall x ltac:(left)). lia.
        * apply elem_of_cons in Hi as [-> | Hi]; [lia|].
          specialize (Hall i ltac:(right; exact Hi)). lia. }
  destruct (Hm r x) as [Hmem Hall].
  specialize (Hle _ Hmem). specialize (Hall _ Hin). lia.
Qed.

Lemma np_max_spec (l : list nat) (hi : nat) :
  hi ∈ l -> (forall i, i ∈ l -> (i <= hi)%nat) ->
  Hdf5ImagingExtractor.np_max l = inr hi.
Proof.
  destruct l as [|x r]; [intros H; inversion H|].
  intros Hin Hle. unfold Hdf5ImagingExtractor.np_max, Py.ok. f_equal.
  assert (Hm : forall (r : list nat) x,
             foldr Nat.max x r ∈ x :: r /\
             forall i, i ∈ x :: r -> (i <= foldr Nat.max x r)%nat).
  { clear. induction r as [|y r IH]; intros x; cbn [foldr].
    - split; [left|]. intros i Hi. apply list_elem_of_singleton in Hi. lia.
    - destruct (IH x) as [Hmem Hall]. split.
      + destruct (Nat.max_spec y (foldr Nat.max x r)) as [[_ ->] | [_ ->]].
        * apply elem_of_cons in Hmem as [-> | Hmem]; [left | right; right; exact Hmem].
        * right. left.
      + intros i Hi. apply elem_of_cons in Hi as [-> | Hi].
        * specialize (Hall x ltac:(left)). lia.
        * apply elem_of_cons in Hi as [-> | Hi]; [lia|].
          specialize (Hall i ltac:(right; exact Hi)). lia. }
  destruct (Hm r x) as [Hmem Hall].
  specialize (Hle _ Hmem). specialize (Hall _ Hin). lia.
Qed.

(** Entry [k] of [l[start:stop]] is entry [start + k] of [l]. *)
Lemma slice_lookup {A} (start stop : nat) (l : list A) (k : nat) :
  Hdf5ImagingExtractor.slice start stop l !! k
  = if decide (k < stop - start)%nat then l !! (start + k)%nat else None.
Proof.
  unfold Hdf5ImagingExtractor.slice. destruct (decide (k < stop - start)%nat).
  - rewrite lookup_take_lt by assumption. apply lookup_drop.
  - apply lookup_take_ge. lia.
Qed.





(** Without the attribute of the third branch, every call on a video
    without channel axis raises. *)
Lemma get_frames_without_channel_axis_attribute {Pixel : Type}
    (frames : list (@Hdf5ImagingExtractor.Frame Pixel)) (n : nat)
    (frame_idxs : list nat) (channel : option nat) :
  frame_idxs <> [] ->
  Hdf5ImagingExtractor.get_frames
    (Hdf5ImagingExtractor.mkExtractor (Hdf5ImagingExtractor.Video3 frames) n None)
    (Some frame_idxs) channel
  = inl (Py.AttributeError "data_has_channel_axis").
Proof.
  intros Hne. destruct frame_idxs as [|x r]; [congruence|]. reflexivity.
Qed.

(** ** Hdf5ImagingExtractor.write_imaging *)

Section WriteImaging.

Context {Imaging Data Attr : Type}.
Context (get_sampling_frequency : Imaging -> Attr).
Context (write_to_h5_dataset_format :
           Imaging -> string -> gmap string (@Hdf5ImagingExtractor.dataset Data Attr) ->
           gmap string (@Hdf5ImagingExtractor.dataset Data Attr) * option Py.error).

Abbreviation write_imaging :=
  (Hdf5ImagingExtractor.write_imaging get_sampling_frequency write_to_h5_dataset_format).

(** Whatever the suffix of an existing file, a call without [overwrite]
    raises and leaves the file system as it was. *)
Lemma write_imaging_existing_no_write fs imaging save_path mov_field :
  Hdf5ImagingExtractor.is_file fs save_path = true ->
  exists e, write_imaging fs imaging save_path false mov_field = (fs, inl e).
Proof.
  intros Hf. unfold Hdf5ImagingExtractor.write_imaging.
  destruct (Hdf5ImagingExtractor.hdf5_suffix save_path); cbn [negb].
  - rewrite Hf. cbn. eexists. reflexivity.
  - eexists. reflexivity.
Qed.

Lemma write_imaging_check fs imaging save_path mov_field :
  Hdf5ImagingExtractor.hdf5_suffix save_path = true ->
  Hdf5ImagingExtractor.is_file fs save_path = true ->
  write_imaging fs imaging save_path false mov_field
  = (fs, inl (Py.FileExistsError
                "The specified path exists! Use overwrite=True to overwrite it.")).
Proof.
  intros Hs Hf. unfold Hdf5ImagingExtractor.write_imaging.
  rewrite Hs, Hf. reflexivity.
Qed.

(** C2. When the target is an existing file (with the .h5 or .hdf5 suffix
    that the writer asserts of every target), [write_imaging] with
    [overwrite = False] raises [FileExistsError] and the file system after
    the call is the file system before it: nothing was written. *)
Theorem write_imaging_existing_target_fails fs imaging save_path mov_field :
  Hdf5ImagingExtractor.hdf5_suffix save_path = true ->
  Hdf5ImagingExtractor.is_file fs save_path = true ->
  write_imaging fs imaging save_path false mov_field
  = (fs, inl (Py.FileExistsError
                "The specified path exists! Use overwrite=True to overwrite it.")).
Proof. exact (write_imaging_check fs imaging save_path mov_field). Qed.

(** Every call that gets past the two checks leaves a file at the target,
    also when it raises on the way. *)
Lemma write_imaging_leaves_file fs imaging save_path overwrite mov_field :
  Hdf5ImagingExtractor.hdf5_suffix save_path = true ->
  (Hdf5ImagingExtractor.is_file fs save_path && negb overwrite)%bool = false ->
  Hdf5ImagingExtractor.is_file
    (write_imaging fs imaging save_path overwrite mov_field).1 save_path = true.
Proof.
  intros Hs Hc. unfold Hdf5ImagingExtractor.write_imaging.
  rewrite Hs, Hc. cbn [negb].
  destruct (write_to_h5_dataset_format imaging mov_field ∅) as [f [e|]];
    [|destruct (f !! mov_field)]; cbn [fst];
    unfold Hdf5ImagingExtractor.is_file; apply bool_decide_eq_true;
    rewrite lookup_insert_eq; eexists; reflexivity.
Qed.

(** X5. Writing twice to a path that held no file: the second call
    without [overwrite] raises [FileExistsError] and leaves what the first
    call produced, whether the first call returned or raised after it had
    created the file. *)
Lemma write_imaging_twice fs imaging imaging' save_path mov_field :
  Hdf5ImagingExtractor.hdf5_suffix save_path = true ->
  Hdf5ImagingExtractor.is_file fs save_path = false ->
  let fs1 := (write_imaging fs imaging save_path false mov_field).1 in
  write_imaging fs1 imaging' save_path false mov_field
  = (fs1, inl (Py.FileExistsError
                 "The specified path exists! Use overwrite=True to overwrite it.")).
Proof.
  intros Hs Hf fs1. apply write_imaging_check; [exact Hs|].
  apply write_imaging_leaves_file; [exact Hs|]. rewrite Hf. reflexivity.
Qed.

End WriteImaging.

Lemma write_imaging_twice_witness :
  let fs1 := (Hdf5ImagingExtractor.write_imaging (fun _ : unit => 30%nat)
                (fun _ => Examples.one_dataset) ∅ tt "movie.h5" false "mov").1 in
  Hdf5ImagingExtractor.write_imaging (fun _ : unit => 30%nat) (fun _ => Examples.one_dataset)
    fs1 tt "movie.h5" false "mov"
  = (fs1, inl (Py.FileExistsError
                 "The specified path exists! Use overwrite=True to overwrite it.")).
Proof.
  refine (write_imaging_twice (fun _ : unit => 30%nat) (fun _ => Examples.one_dataset)
            ∅ tt tt "movie.h5" "mov" _ _).
  - vm_compute. reflexivity.
  - apply bool_decide_eq_false. rewrite lookup_empty. intros [? ?]. discriminate.
Defined.

(** A file system holding one movie file, and a helper that writes one
    dataset. *)
Lemma write_imaging_existing_target_fails_witness :
  let fs : gmap string (gmap string (@Hdf5ImagingExtractor.dataset nat nat)) :=
    {[ "movie.h5" := ∅ ]} in
  Hdf5ImagingExtractor.write_imaging (fun _ : unit => 30%nat)
    (fun _ field f => (<[field := Hdf5ImagingExtractor.mkDataset 7%nat ∅]> f, None))
    fs tt "movie.h5" false "mov"
  = (fs, inl (Py.FileExistsError
                "The specified path exists! Use overwrite=True to overwrite it.")).
Proof.
  intros fs.
  refine (write_imaging_existing_target_fails _ _ fs tt "movie.h5" "mov" _ _).
  - vm_compute. reflexivity.
  - apply bool_decide_eq_true. unfold fs. rewrite lookup_singleton_eq. eexists. reflexivity.
Defined.

(** ** set_dynamic_table_property *)

Lemma list_index_Some (x : Z) (l : list Z) (i : nat) :
  DynamicTable.list_index x l = Some i -> l !! i = Some x.
Proof.
  revert i. induction l as [|y r IH]; intros i; cbn; [discriminate|].
  destruct (decide (y = x)) as [-> | Hne].
  - intros [= <-]. reflexivity.
  - destruct (DynamicTable.list_index x r) as [j|]; cbn; [|discriminate].
    intros [= <-]. cbn. apply IH. reflexivity.
Qed.

Lemma list_index_elem (x : Z) (l : list Z) :
  x ∈ l -> exists i, DynamicTable.list_index x l = Some i.
Proof.
  induction l as [|y r IH]; intros Hin; [inversion Hin|]. cbn.
  destruct (decide (y = x)) as [-> | Hne]; [eexists; reflexivity|].
  apply elem_of_cons in Hin as [-> | Hin]; [congruence|].
  destruct (IH Hin) as [i ->]. eexists. reflexivity.
Qed.

Section TableFacts.

Context {V : Type}.
Implicit Types (data : list V) (pairs : list (Z * V)).

(** The assignment loop over known row ids and a column as long as the
    id column: it does not raise, keeps the length, and leaves every row
    whose id is not among the supplied ones as it was. *)
Lemma assign_frame ids pairs : forall data,
  (forall r, r ∈ pairs.*1 -> r ∈ ids) ->
  length data = length ids ->
  exists data',
    DynamicTable.assign ids data pairs = (data', None) /\
    length data' = length data /\
    (forall p r, ids !! p = Some r -> r ∉ pairs.*1 -> data' !! p = data !! p).
Proof.
  induction pairs as [|[row_id value] rest IH]; intros data Hin Hlen.
  - exists data. repeat split.
  - cbn [DynamicTable.assign].
    destruct (list_index_elem row_id ids) as [i Hi]; [apply Hin; cbn; left|].
    rewrite Hi. pose proof (list_index_Some _ _ _ Hi) as Hrow.
    pose proof (lookup_lt_Some _ _ _ Hrow) as Hlt.
    destruct (decide (i < length data)%nat) as [_|]; [|lia].
    destruct (IH (<[i := value]> data)) as (data' & Hrun & Hl & Hframe).
    + intros r Hr. apply Hin. cbn. right. exact Hr.
    + rewrite length_insert. exact Hlen.
    + exists data'. split; [exact Hrun|]. split.
      * rewrite Hl. apply length_insert.
      * intros p r Hp Hnot. cbn in Hnot. apply not_elem_of_cons in Hnot as [Hne Hnot].
        rewrite (Hframe p r Hp Hnot). apply list_lookup_insert_ne.
        intros ->. congruence.
Qed.

(** With distinct table ids and distinct supplied ids, every supplied row
    holds its value after the loop. *)
Lemma assign_updates ids pairs : forall data,
  NoDup ids -> NoDup pairs.*1 ->
  (forall r, r ∈ pairs.*1 -> r ∈ ids) ->
  length data = length ids ->
  forall p r v, ids !! p = Some r -> (r, v) ∈ pairs ->
    (DynamicTable.assign ids data pairs).1 !! p = Some v.
Proof.
  intros data Hnd. revert data.
  induction pairs as [|[row_id value] rest IH]; intros data Hndp Hin Hlen p r v Hp Hmem.
  - inversion Hmem.
  - cbn [DynamicTable.assign].
    destruct (list_index_elem row_id ids) as [i Hi]; [apply Hin; cbn; left|].
    rewrite Hi. pose proof (list_index_Some _ _ _ Hi) as Hrow.
    pose proof (lookup_lt_Some _ _ _ Hrow) as Hlt.
    destruct (decide (i < length data)%nat) as [_|]; [|lia].
    cbn in Hndp. apply NoDup_cons in Hndp as [Hfresh Hndp].
    assert (Hin' : forall r0, r0 ∈ rest.*1 -> r0 ∈ ids).
    { intros r0 Hr0. apply Hin. cbn. right. exact Hr0. }
    assert (Hlen' : length (<[i := value]> data) = length ids).
    { rewrite length_insert. exact Hlen. }
    apply elem_of_cons in Hmem as [[= -> ->] | Hmem].
    + destruct (assign_frame ids rest (<[i := value]> data) Hin' Hlen')
        as (data' & Hrun & _ & Hframe).
      rewrite Hrun. cbn [fst]. rewrite (Hframe p row_id Hp Hfresh).
      assert (p = i) as -> by exact (NoDup_lookup _ _ _ _ Hnd Hp Hrow).
      apply list_lookup_insert_eq. lia.
    + apply (IH _ Hndp Hin' Hlen' p r v Hp Hmem).
Qed.

(** C8. [set_dynamic_table_property] (scalar cells, [index = False]):
    a row id that is not in the id column makes the call raise the
    validation error with the table untouched, for either value of
    [index]; with known ids and as many values as ids, an existing column
    keeps the cell of every row whose id was not supplied, a new column
    holds the default in every such row, and in both cases the id column
    and the other columns are the old ones. *)
Theorem set_dynamic_table_property_changes_only_supplied_rows
    (tbl : @DynamicTable.t V) (row_ids : list Z) (property_name : string)
    (values : list V) (default_value : V) :
  ((exists r, r ∈ row_ids /\ r ∉ DynamicTable.id tbl) ->
   forall index,
     DynamicTable.set_dynamic_table_property tbl row_ids property_name values
       index default_value
     = (tbl, inl (Py.ValueError
                    "'ids' contains values outside the range of existing ids"))) /\
  ((forall r, r ∈ row_ids -> r ∈ DynamicTable.id tbl) ->
   length row_ids = length values ->
   (forall data,
      DynamicTable.columns tbl !! property_name = Some data ->
      length data = length (DynamicTable.id tbl) ->
      exists data',
        DynamicTable.set_dynamic_table_property tbl row_ids property_name values
          false default_value
        = (DynamicTable.mk (DynamicTable.id tbl)
             (<[property_name := data']> (DynamicTable.columns tbl)), inr tt) /\
        length data' = length data /\
        forall p r, DynamicTable.id tbl !! p = Some r -> r ∉ row_ids ->
                    data' !! p = data !! p) /\
   (DynamicTable.columns tbl !! property_name = None ->
      exists data',
        DynamicTable.set_dynamic_table_property tbl row_ids property_name values
          false default_value
        = (DynamicTable.mk (DynamicTable.id tbl)
             (<[property_name := data']> (DynamicTable.columns tbl)), inr tt) /\
        length data' = length (DynamicTable.id tbl) /\
        forall p r, DynamicTable.id tbl !! p = Some r -> r ∉ row_ids ->
                    data' !! p = Some default_value)).
Proof.
  split.
  - intros (r & Hr & Hnot) index. unfold DynamicTable.set_dynamic_table_property.
    replace (existsb _ row_ids) with true; [reflexivity|].
    symmetry. apply existsb_exists. exists r. split.
    + apply list_elem_of_In. exact Hr.
    + apply negb_true_iff, bool_decide_eq_false. exact Hnot.
  - intros Hknown Hlen.
    assert (Hcheck : existsb (fun i => negb (bool_decide (i ∈ DynamicTable.id tbl))) row_ids
                     = false).
    { apply not_true_is_false. intros (r & Hr & Hb)%existsb_exists.
      apply negb_true_iff, bool_decide_eq_false in Hb. apply Hb, Hknown.
      apply list_elem_of_In. exact Hr. }
    assert (Hfst : (zip row_ids values).*1 = row_ids).
    { apply fst_zip. lia. }
    unfold DynamicTable.set_dynamic_table_property.
    rewrite Hcheck, Hlen, Nat.eqb_refl. cbn [negb andb].
    split.
    + intros data Hcol Hdata. rewrite Hcol.
      destruct (assign_frame (DynamicTable.id tbl) (zip row_ids values) data)
        as (data' & Hrun & Hl & Hframe); [rewrite Hfst; exact Hknown | exact Hdata |].
      rewrite Hrun. exists data'. split; [reflexivity|]. split; [exact Hl|].
      intros p r Hp Hr. apply (Hframe p r Hp). rewrite Hfst. exact Hr.
    + intros Hcol. rewrite Hcol.
      destruct (assign_frame (DynamicTable.id tbl) (zip row_ids values)
                  (replicate (length (DynamicTable.id tbl)) default_value))
        as (data' & Hrun & Hl & Hframe);
        [rewrite Hfst; exact Hknown | apply length_replicate |].
      rewrite Hrun. exists data'. split; [reflexivity|].
      split; [rewrite Hl; apply length_replicate|].
      intros p r Hp Hr. rewrite (Hframe p r Hp) by (rewrite Hfst; exact Hr).
      apply lookup_replicate_2. eapply lookup_lt_Some. exact Hp.
Qed.

(** With distinct ids on both sides, a supplied row holds its value after
    the call (existing or new column). *)
Lemma set_dynamic_table_property_updates
    (tbl : @DynamicTable.t V) (row_ids : list Z) (property_name : string)
    (values : list V) (default_value : V) (p k : nat) (r : Z) (v : V) :
  NoDup (DynamicTable.id tbl) -> NoDup row_ids ->
  (forall r, r ∈ row_ids -> r ∈ DynamicTable.id tbl) ->
  length row_ids = length values ->
  (forall data, DynamicTable.columns tbl !! property_name = Some data ->
                length data = length (DynamicTable.id tbl)) ->
  DynamicTable.id tbl !! p = Some r -> row_ids !! k = Some r -> values !! k = Some v ->
  exists data',
    DynamicTable.columns
      (DynamicTable.set_dynamic_table_property tbl row_ids property_name values
         false default_value).1 !! property_name = Some data' /\
    data' !! p = Some v.
Proof.
  intros Hnd Hndr Hknown Hlen Hwf Hp Hk Hv.
  assert (Hcheck : existsb (fun i => negb (bool_decide (i ∈ DynamicTable.id tbl))) row_ids
                   = false).
  { apply not_true_is_false. intros (r0 & Hr & Hb)%existsb_exists.
    apply negb_true_iff, bool_decide_eq_false in Hb. apply Hb, Hknown.
    apply list_elem_of_In. exact Hr. }
  assert (Hfst : (zip row_ids values).*1 = row_ids) by (apply fst_zip; lia).
  assert (Hmem : (r, v) ∈ zip row_ids values).
  { apply list_elem_of_lookup. exists k. apply lookup_zip_with_Some.
    exists r, v. repeat split; assumption. }
  unfold DynamicTable.set_dynamic_table_property.
  rewrite Hcheck, Hlen, Nat.eqb_refl. cbn [negb andb].
  destruct (DynamicTable.columns tbl !! property_name) as [data|] eqn:Hcol.
  - pose proof (assign_updates (DynamicTable.id tbl) (zip row_ids values) data Hnd
                  ltac:(rewrite Hfst; exact Hndr) ltac:(rewrite Hfst; exact Hknown)
                  (Hwf data eq_refl) p r v Hp Hmem) as Hup.
    destruct (DynamicTable.assign _ data _) as [data' err]. cbn [fst] in *.
    exists data'. split; [|exact Hup]. cbn. apply lookup_insert_eq.
  - pose proof (assign_updates (DynamicTable.id tbl) (zip row_ids values)
                  (replicate (length (DynamicTable.id tbl)) default_value) Hnd
                  ltac:(rewrite Hfst; exact Hndr) ltac:(rewrite Hfst; exact Hknown)
                  ltac:(apply length_replicate) p r v Hp Hmem) as Hup.
    destruct (assign_frame (DynamicTable.id tbl) (zip row_ids values)
                (replicate (length (DynamicTable.id tbl)) default_value))
      as (data' & Hrun & _); [rewrite Hfst; exact Hknown | apply length_replicate |].
    rewrite Hrun in *. cbn [fst] in *.
    exists data'. split; [|exact Hup]. cbn. apply lookup_insert_eq.
Qed.

End TableFacts.

Lemma set_dynamic_table_property_changes_only_supplied_rows_witness :
  let tbl : @DynamicTable.t Z :=
    DynamicTable.mk [10; 20; 30] {[ "score" := [1; 2; 3] ]} in
  exists data',
    DynamicTable.set_dynamic_table_property tbl [20] "score" [99] false 0
    = (DynamicTable.mk [10; 20; 30] (<["score" := data']> {[ "score" := [1; 2; 3] ]}),
       inr tt) /\
    length data' = 3%nat /\
    forall p r, [10; 20; 30] !! p = Some r -> r ∉ [20] -> data' !! p = [1; 2; 3] !! p.
Proof.
  intros tbl.
  refine (proj1 (proj2 (set_dynamic_table_property_changes_only_supplied_rows
                          tbl [20] "score" [99] 0) _ _) [1; 2; 3] _ _).
  - intros r Hr. apply list_elem_of_singleton in Hr as ->. right. left.
  - reflexivity.
  - apply lookup_singleton_eq.
  - reflexivity.
Defined.

Example set_dynamic_table_property_unknown_id :
  let tbl : @DynamicTable.t Z :=
    DynamicTable.mk [10; 20; 30] {[ "score" := [1; 2; 3] ]} in
  DynamicTable.set_dynamic_table_property tbl [20; 40] "score" [99; 98] false 0
  = (tbl, inl (Py.ValueError "'ids' contains values outside the range of existing ids")).
Proof. reflexivity. Qed.

(** ** Accepted and rejected ROIs *)

(** C5. For every state of the extractor: every index below [no_rois] is
    in the accepted or in the rejected list (no gaps), no index is in both
    (no overlap), the rejected list holds only indices below [no_rois],
    and when no classification has been set the accepted list is
    [range(no_rois)] and the rejected list is empty.  When the stored
    accepted list is duplicate-free and within range, the two lists
    together are a rearrangement of [range(no_rois)]. *)
Theorem accepted_rejected_partition (self : NwbSegmentationExtractor.t) :
  (forall i, (i < NwbSegmentationExtractor.no_rois self)%nat ->
             i ∈ NwbSegmentationExtractor.accepted_list self \/
             i ∈ NwbSegmentationExtractor.rejected_list self) /\
  (forall i, ~ (i ∈ NwbSegmentationExtractor.accepted_list self /\
                i ∈ NwbSegmentationExtractor.rejected_list self)) /\
  (forall i, i ∈ NwbSegmentationExtractor.rejected_list self ->
             (i < NwbSegmentationExtractor.no_rois self)%nat) /\
  (NwbSegmentationExtractor._accepted_list self = None ->
     NwbSegmentationExtractor.accepted_list self
       = NwbSegmentationExtractor.range (NwbSegmentationExtractor.no_rois self) /\
     NwbSegmentationExtractor.rejected_list self = []) /\
  (NoDup (NwbSegmentationExtractor.accepted_list self) ->
   (forall i, i ∈ NwbSegmentationExtractor.accepted_list self ->
              (i < NwbSegmentationExtractor.no_rois self)%nat) ->
   (NwbSegmentationExtractor.accepted_list self ++ NwbSegmentationExtractor.rejected_list self)
     ≡ₚ NwbSegmentationExtractor.range (NwbSegmentationExtractor.no_rois self)).
Proof.
  assert (Hrej : ∀ i, i ∈ NwbSegmentationExtractor.rejected_list self ↔
                   (i ∉ NwbSegmentationExtractor.accepted_list self) ∧
                   (i < NwbSegmentationExtractor.no_rois self)%nat).
  { intros i. unfold NwbSegmentationExtractor.rejected_list, NwbSegmentationExtractor.range.
    rewrite list_elem_of_filter, elem_of_seq. split; intros [? ?]; split; auto; lia. }
  split; [|split; [|split; [|split]]].
  - intros i Hi.
    destruct (decide (i ∈ NwbSegmentationExtractor.accepted_list self)); [left; assumption|].
    right. apply Hrej. split; assumption.
  - intros i [Ha Hr]. apply Hrej in Hr as [Hn _]. exact (Hn Ha).
  - intros i Hr. apply Hrej in Hr as [_ Hlt]. exact Hlt.
  - intros Hunset. split.
    + unfold NwbSegmentationExtractor.accepted_list. rewrite Hunset. reflexivity.
    + apply elem_of_nil_inv. intros i Hr. apply Hrej in Hr as [Hn Hlt].
      apply Hn. unfold NwbSegmentationExtractor.accepted_list. rewrite Hunset.
      unfold NwbSegmentationExtractor.range. apply elem_of_seq. lia.
  - intros Hnd Hin. apply NoDup_Permutation.
    + apply NoDup_app. split; [exact Hnd|]. split.
      * intros i Ha Hr. apply Hrej in Hr as [Hn _]. exact (Hn Ha).
      * unfold NwbSegmentationExtractor.rejected_list. apply NoDup_filter, NoDup_seq.
    + apply NoDup_seq.
    + intros i. rewrite elem_of_app, Hrej.
      unfold NwbSegmentationExtractor.range. rewrite elem_of_seq. split.
      * intros [Ha | [_ Hlt]]; [apply Hin in Ha|]; lia.
      * intros [_ Hlt].
        destruct (decide (i ∈ NwbSegmentationExtractor.accepted_list self)); [left|right]; auto.
Qed.

(** The three accepted subsets of the parameterized test, on 20 ROIs. *)
Example accepted_list_of_twenty :
  let with_accepted acc :=
    NwbSegmentationExtractor.mk "" [] [] (NwbSegmentationExtractor.PixelRows []) (0, 0)%nat
      0 [] [] [] None 0%Q (seqZ 0 20) None None acc in
  NwbSegmentationExtractor.rejected_list (with_accepted (Some [4; 6; 12; 18]%nat))
    = [0; 1; 2; 3; 5; 7; 8; 9; 10; 11; 13; 14; 15; 16; 17; 19]%nat /\
  NwbSegmentationExtractor.rejected_list (with_accepted (Some []))
    = NwbSegmentationExtractor.range 20 /\
  NwbSegmentationExtractor.rejected_list (with_accepted (Some (NwbSegmentationExtractor.range 20)))
    = [] /\
  NwbSegmentationExtractor.accepted_list (with_accepted None)
    = NwbSegmentationExtractor.range 20.
Proof. repeat split. Qed.

(** ** Requested ROI ids *)

Lemma head_where_from1 (x : Z) (l : list Z) (k : nat) :
  head (Np.where_from1 k x l) = (fun i => (k + i)%nat) <$> DynamicTable.list_index x l.
Proof.
  revert k. induction l as [|y r IH]; intros k; cbn; [reflexivity|].
  destruct (decide (y = x)); cbn.
  - f_equal. lia.
  - rewrite IH. destruct (DynamicTable.list_index x r); cbn; [f_equal; lia | reflexivity].
Qed.

Lemma where_from1_nil (x : Z) (l : list Z) (k : nat) :
  Np.where_from1 k x l = [] <-> x ∉ l.
Proof.
  revert k. induction l as [|y r IH]; intros k; cbn.
  - split; [intros _ H; inversion H | reflexivity].
  - rewrite not_elem_of_cons. destruct (decide (y = x)) as [-> | Hne]; cbn.
    + split; [discriminate | intros [H _]; congruence].
    + rewrite IH. split; [intros H; split; [congruence | exact H] | intros [_ H]; exact H].
Qed.

Lemma omap_id_imap {A B} (f : nat -> A -> option B) (g : A -> option B) (l : list A) :
  (forall i x, l !! i = Some x -> f i x = g x) ->
  omap id (imap f l) = omap g l.
Proof.
  revert f. induction l as [|x l IH]; intros f Hfg; cbn; [reflexivity|].
  rewrite (Hfg 0%nat x eq_refl), (IH (f ∘ S)); [reflexivity|].
  intros i y Hy. apply (Hfg (S i)). exact Hy.
Qed.

(** What [resolve_roi_ids] computes: the requests are taken in order, a
    request that is one of the ROI ids yields the position of its first
    occurrence, and any other request yields nothing. *)
Lemma resolve_roi_ids_spec (self : NwbSegmentationExtractor.t) (ROI_ids : list Z) :
  NwbSegmentationExtractor.resolve_roi_ids self ROI_ids
  = omap (fun i => DynamicTable.list_index i (NwbSegmentationExtractor.get_roi_ids self))
         ROI_ids.
Proof.
  unfold NwbSegmentationExtractor.resolve_roi_ids, NwbSegmentationExtractor.get_roi_ids.
  set (ROI_idx := map _ ROI_ids).
  rewrite (omap_id_imap _ head).
  - subst ROI_idx. induction ROI_ids as [|x r IH]; cbn; [reflexivity|].
    unfold Np.where_eq1 at 1. rewrite head_where_from1.
    destruct (DynamicTable.list_index x _); cbn; rewrite IH; reflexivity.
  - intros i j Hj. destruct (decide (i ∈ _)) as [Hin|]; [|reflexivity].
    apply list_elem_of_omap in Hin as (o & Ho & Hid). cbn in Hid. subst o.
    apply elem_of_lookup_imap in Ho as (i' & j' & Heq & Hj').
    destruct j' as [|? ?]; [|discriminate]. injection Heq as ->.
    rewrite Hj in Hj'. injection Hj' as ->. reflexivity.
Qed.

(** Every position returned for a request is a position of that id, and
    a request that is no ROI id is dropped without an error. *)
Lemma resolve_roi_ids_unknown (self : NwbSegmentationExtractor.t) (before after : list Z)
    (x : Z) :
  x ∉ NwbSegmentationExtractor.get_roi_ids self ->
  NwbSegmentationExtractor.resolve_roi_ids self (before ++ x :: after)
  = NwbSegmentationExtractor.resolve_roi_ids self (before ++ after).
Proof.
  intros Hx. rewrite !resolve_roi_ids_spec, !omap_app. f_equal. cbn.
  destruct (DynamicTable.list_index x _) as [i|] eqn:Hi; [|reflexivity].
  exfalso. apply Hx. eapply list_elem_of_lookup_2, list_index_Some. exact Hi.
Qed.

Lemma resolve_roi_ids_in_range (self : NwbSegmentationExtractor.t) (ROI_ids : list Z) (p : nat) :
  p ∈ NwbSegmentationExtractor.resolve_roi_ids self ROI_ids ->
  exists x, x ∈ ROI_ids /\ NwbSegmentationExtractor.get_roi_ids self !! p = Some x.
Proof.
  rewrite resolve_roi_ids_spec. intros (x & Hx & Hp)%list_elem_of_omap.
  exists x. split; [exact Hx|]. apply list_index_Some. exact Hp.
Qed.

(** X30. A request that is no ROI id changes the result of none of the
    four accessors: it is dropped and nothing is raised for it. *)
Lemma accessors_drop_unknown_ids (self : NwbSegmentationExtractor.t)
    (before after : list Z) (x : Z) (start_frame end_frame : option nat) :
  x ∉ NwbSegmentationExtractor.get_roi_ids self →
  NwbSegmentationExtractor.get_image_masks self (Some (before ++ x :: after))
    = NwbSegmentationExtractor.get_image_masks self (Some (before ++ after)) ∧
  NwbSegmentationExtractor.get_pixel_masks self (Some (before ++ x :: after))
    = NwbSegmentationExtractor.get_pixel_masks self (Some (before ++ after)) ∧
  NwbSegmentationExtractor.get_traces self (Some (before ++ x :: after)) start_frame end_frame
    = NwbSegmentationExtractor.get_traces self (Some (before ++ after)) start_frame end_frame ∧
  NwbSegmentationExtractor.get_roi_locations self (Some (before ++ x :: after))
    = NwbSegmentationExtractor.get_roi_locations self (Some (before ++ after)).
Proof.
  intros Hx.
  unfold NwbSegmentationExtractor.get_image_masks, NwbSegmentationExtractor.get_pixel_masks,
    NwbSegmentationExtractor.get_traces, NwbSegmentationExtractor.get_roi_locations.
  rewrite (resolve_roi_ids_unknown self before after x Hx). repeat split.
Qed.

(** The unknown id 9 between the ids 5 and 7. *)
Lemma accessors_drop_unknown_ids_witness :
  NwbSegmentationExtractor.get_image_masks Examples.two_rois (Some ([5] ++ 9 :: [7]))
    = NwbSegmentationExtractor.get_image_masks Examples.two_rois (Some ([5] ++ [7])) ∧
  NwbSegmentationExtractor.get_pixel_masks Examples.two_rois (Some ([5] ++ 9 :: [7]))
    = NwbSegmentationExtractor.get_pixel_masks Examples.two_rois (Some ([5] ++ [7])) ∧
  NwbSegmentationExtractor.get_traces Examples.two_rois (Some ([5] ++ 9 :: [7])) None None
    = NwbSegmentationExtractor.get_traces Examples.two_rois (Some ([5] ++ [7])) None None ∧
  NwbSegmentationExtractor.get_roi_locations Examples.two_rois (Some ([5] ++ 9 :: [7]))
    = NwbSegmentationExtractor.get_roi_locations Examples.two_rois (Some ([5] ++ [7])).
Proof.
  refine (accessors_drop_unknown_ids Examples.two_rois [5] [7] 9 None None _).
  compute_done.
Defined.

(** The traces of requested ids: row [k] of the result is the row of
    [roi_response] at the first position of the [k]-th request that is a
    ROI id, cut to the frame range. *)
Lemma get_traces_rows (self : NwbSegmentationExtractor.t) (ROI_ids : list Z)
    (start_frame end_frame : nat) (rows : Np.array2 Np.float) :
  NwbSegmentationExtractor.get_traces self (Some ROI_ids) (Some start_frame) (Some end_frame)
    = inr rows →
  Forall2 (fun p row => ∃ full, NwbSegmentationExtractor.roi_response self !! p = Some full ∧
                          row = NwbSegmentationExtractor.slice start_frame end_frame full)
    (omap (fun i => DynamicTable.list_index i (NwbSegmentationExtractor.get_roi_ids self))
          ROI_ids)
    rows.
Proof.
  unfold NwbSegmentationExtractor.get_traces, NwbSegmentationExtractor.take_positions.
  rewrite resolve_roi_ids_spec. cbn [default].
  destruct (mapM _ _) as [sel|] eqn:Hsel; [|discriminate].
  cbn. intros [= <-]. apply mapM_Some_1 in Hsel.
  apply Forall2_fmap_r. eapply Forall2_impl; [exact Hsel|].
  intros p full Hp. exists full. split; [exact Hp | reflexivity].
Qed.

(** C6 at two ROIs with the ids 5 and 7: the image masks of the request
    [5; 9] are those of ROI 5, and the unknown id 9 is dropped; the pixel
    masks of the request [5] are empty although the table holds a row of
    ROI 5, because the rows are compared with the position 0 of the id;
    without a request the rows of both ROIs come back. *)
Theorem get_pixel_masks_compares_positions_with_ids :
  NwbSegmentationExtractor.get_roi_ids Examples.two_rois = [5; 7] ∧
  NwbSegmentationExtractor.get_image_masks Examples.two_rois (Some [5; 9])
    = inr [ [[1%Q]; [0%Q]] ] ∧
  NwbSegmentationExtractor.rows_with_id
    (NwbSegmentationExtractor.pixel_masks Examples.two_rois) 5
    = inr [ [0%Q; 0%Q; 1%Q; 5%Q] ] ∧
  NwbSegmentationExtractor.get_pixel_masks Examples.two_rois (Some [5]) = inr [] ∧
  NwbSegmentationExtractor.get_pixel_masks Examples.two_rois (Some [7]) = inr [] ∧
  NwbSegmentationExtractor.get_pixel_masks Examples.two_rois None
    = inr [ [0%Q; 0%Q; 1%Q; 5%Q]; [0%Q; 1%Q; 1%Q; 7%Q] ].
Proof. repeat split. Qed.

(** ** ROI locations *)

Lemma entry2_concat {A} (a : Np.array2 A) (w : A) :
  w ∈ concat a ↔ ∃ r c, Np.entry2 a r c = Some w.
Proof.
  unfold Np.entry2. induction a as [|row rest IH]; cbn.
  - split; [intros H; inversion H | intros (r & c & H); discriminate].
  - rewrite elem_of_app, IH, list_elem_of_lookup. split.
    + intros [[c Hc] | (r & c & Hrc)].
      * exists 0%nat, c. exact Hc.
      * exists (S r), c. exact Hrc.
    + intros ([|r] & c & Hrc); [left | right].
      * exists c. exact Hrc.
      * exists r, c. exact Hrc.
Qed.

Lemma foldr_qmax (ws : list Q) (w : Q) :
  foldr Np.qmax w ws ∈ w :: ws ∧ ∀ x, x ∈ w :: ws → (x <= foldr Np.qmax w ws)%Q.
Proof.
  induction ws as [|y ws [IHin IHle]]; cbn [foldr].
  - split; [left|]. intros x Hx. apply list_elem_of_singleton in Hx as ->. apply Qle_refl.
  - unfold Np.qmax at 1 3. destruct (Qle_bool y (foldr Np.qmax w ws)) eqn:Hb.
    + apply Qle_bool_iff in Hb. split.
      * apply elem_of_cons in IHin as [-> | IHin]; [left | right; right; exact IHin].
      * intros x Hx. apply elem_of_cons in Hx as [-> | Hx]; [apply IHle; left|].
        apply elem_of_cons in Hx as [-> | Hx]; [exact Hb | apply IHle; right; exact Hx].
    + assert (Hlt : (foldr Np.qmax w ws <= y)%Q).
      { apply Qlt_le_weak, Qnot_le_lt. intros Hle. apply Qle_bool_iff in Hle. congruence. }
      split; [right; left|].
      intros x Hx. apply elem_of_cons in Hx as [-> | Hx].
      * eapply Qle_trans; [apply IHle; left | exact Hlt].
      * apply elem_of_cons in Hx as [-> | Hx]; [apply Qle_refl|].
        eapply Qle_trans; [apply IHle; right; exact Hx | exact Hlt].
Qed.

Lemma elem_of_where_row (r c : nat) (m : Q) (row : list Q) (r' c' : nat) :
  (r', c') ∈ Np.where_row r c m row ↔
  r' = r ∧ ∃ k w, c' = (c + k)%nat ∧ row !! k = Some w ∧ Qeq_bool w m = true.
Proof.
  revert c. induction row as [|w ws IH]; intros c; cbn [Np.where_row].
  - split; [intros H; inversion H | intros (_ & k & w & _ & H & _); discriminate].
  - rewrite elem_of_app, IH. split.
    + intros [Hhd | (-> & k & x & -> & Hk & Hx)].
      * destruct (Qeq_bool w m) eqn:Hw; [|inversion Hhd].
        apply list_elem_of_singleton in Hhd as [= -> ->].
        split; [reflexivity|]. exists 0%nat, w. split; [lia|]. split; [reflexivity | exact Hw].
      * split; [reflexivity|]. exists (S k), x. split; [lia|]. split; assumption.
    + intros (-> & [|k] & x & -> & Hk & Hx).
      * left. cbn in Hk. injection Hk as ->. rewrite Hx.
        replace (c + 0)%nat with c by lia. left.
      * right. split; [reflexivity|]. exists k, x. split; [lia|]. split; assumption.
Qed.

Lemma NoDup_where_row (r c : nat) (m : Q) (row : list Q) : NoDup (Np.where_row r c m row).
Proof.
  revert c. induction row as [|w ws IH]; intros c; cbn [Np.where_row]; [constructor|].
  apply NoDup_app. split; [|split; [|apply IH]].
  - destruct (Qeq_bool w m); [apply NoDup_singleton | constructor].
  - intros [r' c'] Hhd Htl. destruct (Qeq_bool w m); [|inversion Hhd].
    apply list_elem_of_singleton in Hhd as [= -> ->].
    apply elem_of_where_row in Htl as (_ & k & x & Hc & _). lia.
Qed.

Lemma elem_of_where_from2 (r : nat) (m : Q) (a : Np.array2 Q) (r' c' : nat) :
  (r', c') ∈ Np.where_from2 r m a ↔
  ∃ k w, r' = (r + k)%nat ∧ Np.entry2 a k c' = Some w ∧ Qeq_bool w m = true.
Proof.
  unfold Np.entry2. revert r. induction a as [|row rest IH]; intros r; cbn [Np.where_from2].
  - split; [intros H; inversion H | intros (k & w & _ & H & _); discriminate].
  - rewrite elem_of_app, IH, elem_of_where_row. split.
    + intros [(-> & k & w & Hc & Hk & Hw) | (k & w & -> & Hk & Hw)].
      * exists 0%nat, w. split; [lia|]. cbn. replace c' with k by lia. split; assumption.
      * exists (S k), w. split; [lia|]. split; assumption.
    + intros ([|k] & w & -> & Hk & Hw).
      * left. split; [lia|]. exists c', w. split; [lia|]. split; assumption.
      * right. exists k, w. split; [lia|]. split; assumption.
Qed.

Lemma NoDup_where_from2 (r : nat) (m : Q) (a : Np.array2 Q) : NoDup (Np.where_from2 r m a).
Proof.
  revert r. induction a as [|row rest IH]; intros r; cbn [Np.where_from2]; [constructor|].
  apply NoDup_app. split; [apply NoDup_where_row|]. split; [|apply IH].
  intros [r' c'] Hhd Htl. apply elem_of_where_row in Hhd as [-> _].
  apply elem_of_where_from2 in Htl as (k & w & Hr & _). lia.
Qed.

(** [np.median] is defined on every non-empty list. *)
Lemma median_defined (l : list Z) : l ≠ [] → ∃ q, Np.median l = Some q.
Proof.
  intros Hne. unfold Np.median.
  pose proof (Permutation_length (merge_sort_Permutation Z.le l)) as Hlen.
  set (s := merge_sort Z.le l) in *.
  assert (Hpos : (0 < length s)%nat).
  { rewrite Hlen. destruct l; [congruence | cbn; lia]. }
  destruct (Nat.eqb_spec (length s) 0) as [H0|_]; [lia|].
  destruct (Nat.odd (length s)) eqn:Hodd.
  - destruct (lookup_lt_is_Some_2 s (length s / 2)%nat) as [x Hx].
    { apply Nat.div_lt; lia. }
    rewrite Hx. eexists. reflexivity.
  - assert (H2 : (2 <= length s)%nat).
    { destruct (length s) as [|[|n]] eqn:E; [lia | discriminate Hodd | lia]. }
    destruct (lookup_lt_is_Some_2 s (length s / 2)%nat) as [b Hb].
    { apply Nat.div_lt; lia. }
    destruct (lookup_lt_is_Some_2 s (length s / 2 - 1)%nat) as [a Ha].
    { pose proof (Nat.div_lt (length s) 2). lia. }
    rewrite Ha, Hb. eexists. reflexivity.
Qed.

(** [np.median] does not depend on the order of the values. *)
Lemma median_Permutation (l k : list Z) : l ≡ₚ k → Np.median l = Np.median k.
Proof.
  intros Hp. unfold Np.median.
  replace (merge_sort Z.le k) with (merge_sort Z.le l); [reflexivity|].
  apply (Sorted_unique Z.le).
  - apply Sorted_merge_sort. intros x y. lia.
  - apply Sorted_merge_sort. intros x y. lia.
  - rewrite !merge_sort_Permutation. exact Hp.
Qed.

Lemma roi_locs_loop_lookup (raw : Np.array3 Q) (l : list nat) :
  ∀ locs, NwbSegmentationExtractor.roi_locs_loop raw l = inr locs →
  ∀ k i, l !! k = Some i →
  ∃ loc, NwbSegmentationExtractor.roi_loc raw i = inr loc ∧ locs !! k = Some loc.
Proof.
  induction l as [|j r IH]; intros locs Hrun k i Hk; [discriminate|].
  cbn [NwbSegmentationExtractor.roi_locs_loop] in Hrun.
  destruct (NwbSegmentationExtractor.roi_loc raw j) as [e|loc] eqn:Hloc; [discriminate|].
  destruct (NwbSegmentationExtractor.roi_locs_loop raw r) as [e|rest] eqn:Hrest; [discriminate|].
  cbn in Hrun. injection Hrun as <-.
  destruct k as [|k]; cbn in Hk.
  - injection Hk as <-. exists loc. split; [exact Hloc | reflexivity].
  - destruct (IH rest eq_refl k i Hk) as (loc' & H1 & H2). exists loc'. split; assumption.
Qed.

(** C7 (as amended). For a ROI whose mask [raw_images[:, :, i]] has at
    least one pixel: let [top] be the largest weight of the mask and
    [tied] the pixels whose weight equals [top], each once.  The location
    computed for the ROI is the pair (median of the rows of [tied], median
    of the columns of [tied]), each median truncated to an integer, and it
    is column [i] of what [get_roi_locations()] returns. *)
Theorem roi_location_truncated_median_of_tied_pixels
    (self : NwbSegmentationExtractor.t) (i : nat) (mask : Np.array2 Q) :
  Np.last_axis_at i (NwbSegmentationExtractor.raw_images self) = Some mask →
  concat mask ≠ [] →
  ∃ (top : Q) (tied : list (nat * nat)) (med_r med_c : Q),
    (∃ r c, Np.entry2 mask r c = Some top) ∧
    (∀ r c w, Np.entry2 mask r c = Some w → (w <= top)%Q) ∧
    NoDup tied ∧
    (∀ r c, (r, c) ∈ tied ↔ ∃ w, Np.entry2 mask r c = Some w ∧ (w == top)%Q) ∧
    Np.median (Z.of_nat <$> tied.*1) = Some med_r ∧
    Np.median (Z.of_nat <$> tied.*2) = Some med_c ∧
    NwbSegmentationExtractor.roi_loc (NwbSegmentationExtractor.raw_images self) i
      = inr (Np.to_int med_r, Np.to_int med_c) ∧
    ∀ locs, (i < NwbSegmentationExtractor.no_rois self)%nat →
            NwbSegmentationExtractor.get_roi_locations self None = inr locs →
            locs !! i = Some (Np.to_int med_r, Np.to_int med_c).
Proof.
  intros Hmask Hne.
  destruct (concat mask) as [|w ws] eqn:Hc; [congruence|].
  set (top := foldr Np.qmax w ws).
  destruct (foldr_qmax ws w) as [Htop_in Htop_le]. fold top in Htop_in, Htop_le.
  rewrite <- Hc in Htop_in, Htop_le.
  set (tied := Np.where_eq2 top mask).
  assert (Htied : ∀ r c, (r, c) ∈ tied ↔ ∃ x, Np.entry2 mask r c = Some x ∧ (x == top)%Q).
  { intros r c. subst tied. unfold Np.where_eq2. rewrite elem_of_where_from2. split.
    - intros (k & x & -> & Hk & Hx). exists x. split; [exact Hk|].
      apply Qeq_bool_iff. exact Hx.
    - intros (x & Hk & Hx). exists r, x. split; [lia|]. split; [exact Hk|].
      apply Qeq_bool_iff. exact Hx. }
  apply entry2_concat in Htop_in as (r0 & c0 & Hentry).
  assert (Hmem : (r0, c0) ∈ tied).
  { apply Htied. exists top. split; [exact Hentry | apply Qeq_refl]. }
  destruct (median_defined (Z.of_nat <$> tied.*1)) as [med_r Hr].
  { destruct tied; [inversion Hmem | discriminate]. }
  destruct (median_defined (Z.of_nat <$> tied.*2)) as [med_c Hcm].
  { destruct tied; [inversion Hmem | discriminate]. }
  assert (Hloc : NwbSegmentationExtractor.roi_loc (NwbSegmentationExtractor.raw_images self) i
                 = inr (Np.to_int med_r, Np.to_int med_c)).
  { unfold NwbSegmentationExtractor.roi_loc. rewrite Hmask. unfold Np.amax. rewrite Hc.
    cbn [Py.bind Py.ok]. fold top. fold tied. rewrite Hr, Hcm. reflexivity. }
  exists top, tied, med_r, med_c.
  split; [exists r0, c0; exact Hentry|].
  split; [intros r c x Hx; apply Htop_le, entry2_concat; exists r, c; exact Hx|].
  split; [apply NoDup_where_from2|].
  split; [exact Htied|].
  split; [exact Hr|]. split; [exact Hcm|]. split; [exact Hloc|].
  intros locs Hi Hlocs. cbn [NwbSegmentationExtractor.get_roi_locations] in Hlocs.
  unfold NwbSegmentationExtractor.roi_locs, NwbSegmentationExtractor.range in Hlocs.
  destruct (roi_locs_loop_lookup _ _ _ Hlocs i i) as (loc & Hloc' & Hlook).
  { apply lookup_seq_lt. exact Hi. }
  rewrite Hloc in Hloc'. injection Hloc' as <-. exact Hlook.
Qed.

Lemma roi_location_truncated_median_of_tied_pixels_witness :
  ∃ (top : Q) (tied : list (nat * nat)) (med_r med_c : Q),
    (∃ r c, Np.entry2 [[1%Q]; [1%Q]] r c = Some top) ∧
    (∀ r c w, Np.entry2 [[1%Q]; [1%Q]] r c = Some w → (w <= top)%Q) ∧
    NoDup tied ∧
    (∀ r c, (r, c) ∈ tied ↔ ∃ w, Np.entry2 [[1%Q]; [1%Q]] r c = Some w ∧ (w == top)%Q) ∧
    Np.median (Z.of_nat <$> tied.*1) = Some med_r ∧
    Np.median (Z.of_nat <$> tied.*2) = Some med_c ∧
    NwbSegmentationExtractor.roi_loc (NwbSegmentationExtractor.raw_images Examples.tied_rows) 0
      = inr (Np.to_int med_r, Np.to_int med_c) ∧
    ∀ locs, (0 < NwbSegmentationExtractor.no_rois Examples.tied_rows)%nat →
            NwbSegmentationExtractor.get_roi_locations Examples.tied_rows None = inr locs →
            locs !! 0%nat = Some (Np.to_int med_r, Np.to_int med_c).
Proof.
  refine (roi_location_truncated_median_of_tied_pixels Examples.tied_rows 0
            [[1%Q]; [1%Q]] _ _).
  - reflexivity.
  - discriminate.
Defined.

(** Two pixels in the rows 0 and 1 tie at the maximum: the median of the
    tied rows is 1/2, and the location returned is row 0. *)
Lemma roi_location_of_tied_rows :
  Np.last_axis_at 0 (NwbSegmentationExtractor.raw_images Examples.tied_rows)
    = Some [[1%Q]; [1%Q]] ∧
  Np.where_eq2 1%Q [[1%Q]; [1%Q]] = [(0, 0); (1, 0)]%nat ∧
  Np.median [0; 1] = Some (1 # 2)%Q ∧
  NwbSegmentationExtractor.get_roi_locations Examples.tied_rows None = inr [(0, 0)] ∧
  ¬ (inject_Z 0 == 1 # 2)%Q.
Proof.
  split; [reflexivity|]. split; [reflexivity|]. split; [reflexivity|].
  split; [reflexivity|]. intros H. discriminate H.
Qed.

(** ** The constructor of NwbSegmentationExtractor *)

Lemma positions_from_nil (x : string) (l : list string) (k : nat) :
  NWB.positions_from k x l = [] ↔ x ∉ l.
Proof.
  revert k. induction l as [|e r IH]; intros k; cbn.
  - split; [intros _ H; inversion H | reflexivity].
  - rewrite not_elem_of_cons. destruct (decide (e = x)) as [-> | Hne]; cbn.
    + split; [discriminate | intros [H _]; congruence].
    + rewrite IH. split; [intros H; split; [congruence | exact H] | intros [_ H]; exact H].
Qed.

Lemma head_positions_from (x : string) (l : list string) (k i : nat) :
  head (NWB.positions_from k x l) = Some i → ∃ j, i = (k + j)%nat ∧ l !! j = Some x.
Proof.
  revert k. induction l as [|e r IH]; intros k; cbn; [discriminate|].
  destruct (decide (e = x)) as [-> | Hne]; cbn.
  - intros [= <-]. exists 0%nat. split; [lia | reflexivity].
  - intros H. destruct (IH _ H) as (j & -> & Hj). exists (S j). split; [lia | exact Hj].
Qed.

(** A file without a node named 'PlaneSegmentation' and with a processing
    module: the constructor prints its notice and then reads the local
    [ps], which no statement has bound. *)
Lemma read_without_plane_segmentation (f : NWB.file) (filepath : string) (n : nat) :
  "PlaneSegmentation" ∉ NWB.children_name f →
  NWB.processing f ≠ [] →
  ∃ printed,
    NwbSegmentationExtractor.read_nwbfile f filepath n
    = (printed ++ ["could not find a plane segmentation to contain image mask"],
       inl (Py.UnboundLocalError "ps")).
Proof.
  intros Hname Hmod. unfold NwbSegmentationExtractor.read_nwbfile,
    NwbSegmentationExtractor.select_module.
  apply (positions_from_nil _ _ 0) in Hname. unfold NWB.positions. rewrite Hname.
  destruct (NWB.processing f) as [|m [|m' ms]]; [congruence| |]; eexists; reflexivity.
Qed.

(** The statements on the tables never complete: once the ROI table and
    its 'image_mask' column are read, three axes of the one-dimensional
    data of the 'pixel_mask' column are to be moved. *)
Lemma read_tables_raises (f : NWB.file) (n : nat)
    (pmod : NwbSegmentationExtractor.module_handle) (ps : option nat) :
  Py.is_ok (NwbSegmentationExtractor.read_tables f n pmod ps) = false.
Proof.
  unfold NwbSegmentationExtractor.read_tables.
  destruct (NwbSegmentationExtractor.ps_table f ps) as [?|table]; [reflexivity|].
  cbn [Py.bind].
  destruct (NwbSegmentationExtractor.ps_column "image_mask" _) as [?|im]; [reflexivity|].
  cbn [Py.bind]. destruct (Np.moveaxis_first_to_last im) as [?|ims]; [reflexivity|].
  cbn [Py.bind].
  destruct (NwbSegmentationExtractor.ps_column "pixel_mask" _) as [?|pm]; reflexivity.
Qed.

(** The lookup of a response series never completes either: the method
    is subscripted. *)
Lemma get_roi_response_series_raises (f : NWB.file)
    (pmod : NwbSegmentationExtractor.module_handle) (series_name : string) :
  Py.is_ok (NwbSegmentationExtractor.get_roi_response_series f pmod series_name) = false.
Proof.
  unfold NwbSegmentationExtractor.get_roi_response_series.
  destruct (NwbSegmentationExtractor.mod_getitem f pmod "Fluorescence") as [?|x];
    [reflexivity|].
  cbn [Py.bind]. destruct (NWB.content <$> f !! x) as [[]|]; reflexivity.
Qed.

Lemma read_nwbfile_raises (f : NWB.file) (filepath : string) (n : nat) :
  Py.is_ok (NwbSegmentationExtractor.read_nwbfile f filepath n).2 = false.
Proof.
  unfold NwbSegmentationExtractor.read_nwbfile.
  destruct (NwbSegmentationExtractor.select_module f) as [printed [e|pmod]]; [reflexivity|].
  cbn [snd].
  pose proof (read_tables_raises f n pmod
                (head (NWB.positions "PlaneSegmentation" (NWB.children_name f)))) as Ht.
  destruct (NwbSegmentationExtractor.read_tables f n pmod _); [reflexivity | discriminate Ht].
Qed.

(** A file without a node of type ImagingPlane: the statements on the
    imaging plane assign [None]. *)
Lemma read_channel_names_without_imaging_plane (f : NWB.file) :
  "ImagingPlane" ∉ NWB.children_type f →
  NwbSegmentationExtractor.read_channel_names f = inr None.
Proof.
  intros Htype. unfold NwbSegmentationExtractor.read_channel_names.
  apply (positions_from_nil _ _ 0) in Htype. unfold NWB.positions. rewrite Htype.
  reflexivity.
Qed.

(** C4. On a file with a processing module and a response series and no
    ROI table, the constructor prints that it could not find a plane
    segmentation and then fails on the unbound local [ps]: no exception
    about the missing table is raised.  And no file makes the constructor
    return an instance, with or without an imaging plane: the statements
    on the ROI table raise before those on the response series and on the
    imaging plane are reached. *)
Theorem init_without_roi_table_reads_unbound_local :
  NwbSegmentationExtractor.__init__
    {[ "f.nwb" := NWB.Container Examples.file_without_roi_table ]} "f.nwb" 0
  = (["could not find a plane segmentation to contain image mask"],
     inl (Py.UnboundLocalError "ps")) ∧
  ∀ (fs : gmap string NWB.disk_file) (filepath : string) (no_background_comps : nat),
    Py.is_ok (NwbSegmentationExtractor.__init__ fs filepath no_background_comps).2 = false.
Proof.
  split; [reflexivity|].
  intros fs filepath n. unfold NwbSegmentationExtractor.__init__.
  destruct (fs !! filepath) as [[|f]|]; [reflexivity| |reflexivity].
  apply read_nwbfile_raises.
Qed.

(** ** write_nwb: the entity checks against an existing file *)

Section EntitySteps.

Import NwbSegmentationExtractor.

Context (args : arguments) (s : frame) (names : list string).
Context (Hnames : _nwbchildren_name s = Some names).









End EntitySteps.

(** The only position found for a name is a position of that name. *)
Lemma positions_singleton (x : string) (names : list string) (i : nat) :
  NWB.positions x names = [i] → names !! i = Some x.
Proof.
  intros H. destruct (head_positions_from x names 0 i) as (j & -> & Hj);
    [unfold NWB.positions in H; rewrite H; reflexivity | exact Hj].
Qed.




(** ** write_nwb into a new file *)

Lemma then_ok {A B} (m : NwbSegmentationExtractor.run A)
    (k : A → NwbSegmentationExtractor.run B) (s s' : NwbSegmentationExtractor.frame) (a : A) :
  m s = (inr a, s') → NwbSegmentationExtractor.then_ m k s = k a s'.
Proof. intros H. unfold NwbSegmentationExtractor.then_. rewrite H. reflexivity. Qed.

Lemma then_raises {A B} (m : NwbSegmentationExtractor.run A)
    (k : A → NwbSegmentationExtractor.run B) (s s' : NwbSegmentationExtractor.frame)
    (e : Py.error) :
  m s = (inl e, s') → NwbSegmentationExtractor.then_ m k s = (inl e, s').
Proof. intros H. unfold NwbSegmentationExtractor.then_. rewrite H. reflexivity. Qed.

(** The branch for a new file raises in every frame in which [device] is
    unbound. *)
Lemma new_file_branch_raises (args : NwbSegmentationExtractor.arguments)
    (location : option string) (rate : option Q) (s : NwbSegmentationExtractor.frame) :
  NwbSegmentationExtractor.device s = None →
  ∃ s',
    WriteNwb.new_file_branch args location rate s
    = (inl (match NwbSegmentationExtractor.optical_channel_name args with
            | Some _ => Py.UnboundLocalError "device"
            | None => Py.TypeError "OpticalChannel.__init__: incorrect type for 'name'"
            end), s').
Proof.
  intros Hdev. unfold WriteNwb.new_file_branch.
  erewrite then_ok by reflexivity.
  erewrite then_ok by reflexivity.
  destruct (NwbSegmentationExtractor.optical_channel_name args) as [n|].
  - erewrite then_ok by reflexivity.
    erewrite then_ok by reflexivity.
    erewrite then_ok by reflexivity.
    eexists. apply then_raises.
    unfold NwbSegmentationExtractor.read_local.
    cbn [NwbSegmentationExtractor.device NwbSegmentationExtractor.set_optical_channel
         NwbSegmentationExtractor.set_nwbfile].
    rewrite Hdev. reflexivity.
  - eexists. apply then_raises. reflexivity.
Qed.

(** X29. Writing to a path that holds no file never ends normally, and
    never leaves a container at that path, for every extractor, file name
    and list of arguments. *)
Lemma write_nwb_new_file_never_succeeds (fs : gmap string NWB.disk_file)
    (seg : NwbSegmentationExtractor.segmentation_extractor) (filename : string)
    (args : NwbSegmentationExtractor.arguments) :
  fs !! filename = None →
  (∃ e, (WriteNwb.write_nwb fs seg filename args).2 = inl e) ∧
  ∀ f, (WriteNwb.write_nwb fs seg filename args).1 !! filename ≠ Some (NWB.Container f).
Proof.
  intros Hfs. unfold WriteNwb.write_nwb.
  destruct (WriteNwb.channel_names_argument seg args) as [e|names].
  { cbn. split; [eexists; reflexivity | intros f; rewrite Hfs; discriminate]. }
  destruct (negb _).
  { cbn. split; [eexists; reflexivity | intros f; rewrite Hfs; discriminate]. }
  rewrite Hfs. cbv zeta.
  destruct (new_file_branch_raises args (NwbSegmentationExtractor.seg_movie_location seg)
              (NwbSegmentationExtractor.seg_sampling_frequency seg)
              (NwbSegmentationExtractor.new_frame []) eq_refl) as [s' Hs'].
  rewrite (then_raises _ _ _ _ _ Hs').
  cbn [fst snd]. split; [eexists; reflexivity|].
  intros f. rewrite lookup_insert_eq. discriminate.
Qed.

Lemma write_nwb_new_file_never_succeeds_witness :
  (∃ e, (WriteNwb.write_nwb ∅ Examples.one_roi_segmentation "out.nwb"
           Examples.named_channel_arguments).2 = inl e) ∧
  ∀ f, (WriteNwb.write_nwb ∅ Examples.one_roi_segmentation "out.nwb"
          Examples.named_channel_arguments).1 !! "out.nwb" ≠ Some (NWB.Container f).
Proof.
  exact (write_nwb_new_file_never_succeeds ∅ Examples.one_roi_segmentation "out.nwb"
           Examples.named_channel_arguments (lookup_empty _)).
Defined.

(** C1 at a segmentation of one ROI, written with a named optical channel
    and an empty property list to the new path "out.nwb": [write_nwb]
    raises on the unbound local [device] before [io.write], the path then
    holds a file without NWB content, and the constructor cannot read it
    back. *)
Theorem write_nwb_to_new_file_raises :
  WriteNwb.write_nwb ∅ Examples.one_roi_segmentation "out.nwb"
    Examples.named_channel_arguments
  = ({[ "out.nwb" := NWB.Blank ]}, inl (Py.UnboundLocalError "device")) ∧
  NwbSegmentationExtractor.__init__ {[ "out.nwb" := NWB.Blank ]} "out.nwb" 0
  = ([], inl (Py.OSError "Unable to open file (file signature not found)")).
Proof. split; reflexivity. Qed.

(* ===================================================================== *)
(** * Further properties of the code                                   *)
(* ===================================================================== *)

(** ** Hdf5ImagingExtractor.get_frames: one channel, and data without channel axis *)

(** The frame that [select_channel] returns has the rows and columns of
    its argument, and holds entry [c] of every pixel. *)
Lemma select_channel_lookup {Pixel : Type} (c : nat)
    (f : @Hdf5ImagingExtractor.FrameC Pixel) (f' : @Hdf5ImagingExtractor.Frame Pixel) :
  Hdf5ImagingExtractor.select_channel c f = Some f' →
  ∀ r line col px, f !! r = Some line → line !! col = Some px →
    ∃ line' v, f' !! r = Some line' ∧ line' !! col = Some v ∧ px !! c = Some v.
Proof.
  unfold Hdf5ImagingExtractor.select_channel. intros Hsel r line col px Hr Hcol.
  apply mapM_Some_1 in Hsel.
  destruct (Forall2_lookup_l _ _ _ _ _ Hsel Hr) as (line' & Hr' & Hline).
  apply mapM_Some_1 in Hline.
  destruct (Forall2_lookup_l _ _ _ _ _ Hline Hcol) as (v & Hv & Hpx).
  exists line', v. repeat split; assumption.
Qed.

Lemma select_channel_defined {Pixel : Type} (c : nat)
    (f : @Hdf5ImagingExtractor.FrameC Pixel) :
  (∀ r line col px, f !! r = Some line → line !! col = Some px → is_Some (px !! c)) →
  is_Some (Hdf5ImagingExtractor.select_channel c f).
Proof.
  intros Hall. unfold Hdf5ImagingExtractor.select_channel.
  apply mapM_is_Some. apply Forall_lookup. intros r line Hr.
  apply mapM_is_Some. apply Forall_lookup. intros col px Hcol.
  exact (Hall r line col px Hr Hcol).
Qed.

(** X1. On a video with a channel axis, [get_frames] with a channel
    returns, for a list of frame indices with minimum [lo] and maximum
    [hi], the frames from [lo] up to [min (hi + 1) num_frames] reduced to
    that channel: pixel (k, r, col) of the block is entry [channel] of
    pixel (lo + k, r, col) of the video.  The call returns when those
    frames hold a pixel and every pixel of them has that channel, and
    raises IndexError when one of them has not. *)
Theorem get_frames_of_one_channel {Pixel : Type}
    (ex : @Hdf5ImagingExtractor.extractor Pixel)
    (frames : list (@Hdf5ImagingExtractor.FrameC Pixel))
    (frame_idxs : list nat) (channel lo hi : nat) :
  Hdf5ImagingExtractor._standard_video ex = Hdf5ImagingExtractor.Video4 frames →
  lo ∈ frame_idxs → (∀ i, i ∈ frame_idxs → (lo <= i)%nat) →
  hi ∈ frame_idxs → (∀ i, i ∈ frame_idxs → (i <= hi)%nat) →
  let stop := Nat.min (hi + 1) (Hdf5ImagingExtractor.get_num_frames ex) in
  (∀ b, Hdf5ImagingExtractor.get_frames ex (Some frame_idxs) (Some channel) = inr b →
     ∃ fs, b = Hdf5ImagingExtractor.Block3 fs ∧
       ∀ k frame r line col px,
         (k < stop - lo)%nat → frames !! (lo + k)%nat = Some frame →
         frame !! r = Some line → line !! col = Some px →
         ∃ f' line' v, fs !! k = Some f' ∧ f' !! r = Some line' ∧ line' !! col = Some v ∧
                       px !! channel = Some v) ∧
  ((∃ k frame r line col px,
      (k < stop - lo)%nat ∧ frames !! (lo + k)%nat = Some frame ∧
      frame !! r = Some line ∧ line !! col = Some px) →
   (∀ k frame r line col px,
      (k < stop - lo)%nat → frames !! (lo + k)%nat = Some frame →
      frame !! r = Some line → line !! col = Some px → is_Some (px !! channel)) →
   ∃ fs, Hdf5ImagingExtractor.get_frames ex (Some frame_idxs) (Some channel)
         = inr (Hdf5ImagingExtractor.Block3 fs)) ∧
  ((∃ k frame r line col px,
      (k < stop - lo)%nat ∧ frames !! (lo + k)%nat = Some frame ∧
      frame !! r = Some line ∧ line !! col = Some px ∧ px !! channel = None) →
   Hdf5ImagingExtractor.get_frames ex (Some frame_idxs) (Some channel)
   = inl (Py.IndexError "index out of bounds for the channel axis")).
Proof.
  intros Hv Hlo1 Hlo2 Hhi1 Hhi2 stop.
  pose proof (np_min_spec _ _ Hlo1 Hlo2) as Hmin.
  pose proof (np_max_spec _ _ Hhi1 Hhi2) as Hmax.
  assert (Hrun : Hdf5ImagingExtractor.get_frames ex (Some frame_idxs) (Some channel)
                 = match mapM (Hdf5ImagingExtractor.select_channel channel)
                           (Hdf5ImagingExtractor.slice lo stop frames) with
                   | Some fs => inr (Hdf5ImagingExtractor.Block3 fs)
                   | None => inl (Py.IndexError "index out of bounds for the channel axis")
                   end).
  { unfold Hdf5ImagingExtractor.get_frames. rewrite Hmin, Hmax, Hv. reflexivity. }
  assert (Hslice : ∀ k frame, (k < stop - lo)%nat → frames !! (lo + k)%nat = Some frame →
                     Hdf5ImagingExtractor.slice lo stop frames !! k = Some frame).
  { intros k frame Hk Hf. rewrite slice_lookup. destruct (decide _); [exact Hf | lia]. }
  rewrite Hrun. split; [|split].
  - intros b Hb.
    destruct (mapM _ _) as [fs|] eqn:Hm; [|discriminate]. injection Hb as <-.
    exists fs. split; [reflexivity|].
    intros k frame r line col px Hk Hf Hr Hc.
    apply mapM_Some_1 in Hm.
    destruct (Forall2_lookup_l _ _ _ _ _ Hm (Hslice k frame Hk Hf)) as (f' & Hf' & Hsel).
    destruct (select_channel_lookup _ _ _ Hsel r line col px Hr Hc) as (line' & v & H1 & H2 & H3).
    exists f', line', v. repeat split; assumption.
  - intros _ Hall.
    assert (Hd : is_Some (mapM (Hdf5ImagingExtractor.select_channel channel)
                            (Hdf5ImagingExtractor.slice lo stop frames))).
    { apply mapM_is_Some. apply Forall_lookup. intros k frame Hk.
      apply select_channel_defined. intros r line col px Hr Hc.
      rewrite slice_lookup in Hk. destruct (decide _) as [Hlt|]; [|discriminate].
      exact (Hall k frame r line col px Hlt Hk Hr Hc). }
    destruct Hd as [fs ->]. exists fs. reflexivity.
  - intros (k & frame & r & line & col & px & Hk & Hf & Hr & Hc & Hnone).
    destruct (mapM _ _) as [fs|] eqn:Hm; [|reflexivity]. exfalso.
    apply mapM_Some_1 in Hm.
    destruct (Forall2_lookup_l _ _ _ _ _ Hm (Hslice k frame Hk Hf)) as (f' & Hf' & Hsel).
    destruct (select_channel_lookup _ _ _ Hsel r line col px Hr Hc) as (line' & v & _ & _ & H3).
    congruence.
Qed.

(** Channel 1 of the frames 1 to 2 of the four example frames. *)
Lemma get_frames_of_one_channel_witness :
  ∃ fs, Hdf5ImagingExtractor.get_frames Examples.four_frame_extractor (Some [2; 1]%nat)
          (Some 1%nat) = inr (Hdf5ImagingExtractor.Block3 fs).
Proof.
  refine (proj1 (proj2 (get_frames_of_one_channel Examples.four_frame_extractor
                          Examples.four_frames [2; 1]%nat 1 1 2 eq_refl _ _ _ _)) _ _).
  - right. left.
  - intros i Hi. repeat (apply elem_of_cons in Hi as [-> | Hi]; [lia|]). inversion Hi.
  - left.
  - intros i Hi. repeat (apply elem_of_cons in Hi as [-> | Hi]; [lia|]). inversion Hi.
  - exists 0%nat, [[ [20; 21]%nat ]], 0%nat, [ [20; 21]%nat ], 0%nat, [20; 21]%nat.
    cbn. repeat split. lia.
  - intros k frame r line col px Hk Hf Hr Hc. cbn in Hk.
    destruct k as [|[|k]]; [| |lia]; cbn in Hf; injection Hf as <-;
      (destruct r as [|r]; [|discriminate]); cbn in Hr; injection Hr as <-;
      (destruct col as [|col]; [|discriminate]); cbn in Hc; injection Hc as <-;
      eexists; reflexivity.
Defined.

(** X2. On a video without channel axis, [get_frames] reads the
    attribute [data_has_channel_axis].  An extractor without that
    attribute never gets a block: the call raises AttributeError, or the
    ValueError of an empty list of indices.  With the attribute and
    without indices, the call returns all frames, each wrapped in an axis
    of length one when the attribute is false and no channel is given. *)
Theorem get_frames_without_channel_axis {Pixel : Type}
    (frames : list (@Hdf5ImagingExtractor.Frame Pixel)) (n : nat) :
  (∀ frame_idxs channel,
     let r := Hdf5ImagingExtractor.get_frames
                (Hdf5ImagingExtractor.mkExtractor (Hdf5ImagingExtractor.Video3 frames) n None)
                frame_idxs channel in
     r = inl (Py.AttributeError "data_has_channel_axis") ∨
     (frame_idxs = Some [] ∧ ∃ msg, r = inl (Py.ValueError msg))) ∧
  (∀ a channel,
     Hdf5ImagingExtractor.get_frames
       (Hdf5ImagingExtractor.mkExtractor (Hdf5ImagingExtractor.Video3 frames) n (Some a))
       None channel
     = inr (if negb a && negb (bool_decide (is_Some channel))
            then Hdf5ImagingExtractor.BlockNewaxis
                   (map (fun f => [f]) (Hdf5ImagingExtractor.slice 0 n frames))
            else Hdf5ImagingExtractor.Block3 (Hdf5ImagingExtractor.slice 0 n frames))).
Proof.
  split.
  - intros [[|x r]|] channel; cbn.
    + right. split; [reflexivity|]. eexists. reflexivity.
    + left. reflexivity.
    + left. reflexivity.
  - intros a channel. unfold Hdf5ImagingExtractor.get_frames. cbn.
    destruct (negb a && negb (bool_decide (is_Some channel))); reflexivity.
Qed.

(** ** Hdf5ImagingExtractor: what write_imaging leaves, and reading it back *)

Section WriteAndRead.

Context {Imaging Data Attr : Type}.
Context (get_sampling_frequency : Imaging -> Attr).
Context (write_to_h5_dataset_format :
           Imaging -> string -> gmap string (@Hdf5ImagingExtractor.dataset Data Attr) ->
           gmap string (@Hdf5ImagingExtractor.dataset Data Attr) * option Py.error).
Context (get_video_shape : Data -> Py.result (nat * nat * nat * nat)).
Context (ndim : Data -> nat).

Abbreviation write_imaging' :=
  (Hdf5ImagingExtractor.write_imaging get_sampling_frequency write_to_h5_dataset_format).
Abbreviation init :=
  (Hdf5ImagingExtractor.Init.__init__ get_video_shape ndim).

(** X3. [write_imaging] never touches a path other than its target,
    whatever its arguments and its outcome. *)
Theorem write_imaging_other_paths fs imaging save_path overwrite mov_field (p : string) :
  p ≠ save_path →
  (Hdf5ImagingExtractor.write_imaging get_sampling_frequency write_to_h5_dataset_format
     fs imaging save_path overwrite mov_field).1 !! p
  = fs !! p.
Proof.
  intros Hp. unfold Hdf5ImagingExtractor.write_imaging.
  destruct (negb (Hdf5ImagingExtractor.hdf5_suffix save_path)); [reflexivity|].
  destruct (Hdf5ImagingExtractor.is_file fs save_path && negb overwrite)%bool; [reflexivity|].
  assert (Hfs1 : (if Hdf5ImagingExtractor.is_file fs save_path then delete save_path fs else fs)
                   !! p = fs !! p).
  { destruct (Hdf5ImagingExtractor.is_file fs save_path); [|reflexivity].
    apply lookup_delete_ne. congruence. }
  destruct (write_to_h5_dataset_format imaging mov_field ∅) as [f [e|]];
    [|destruct (f !! mov_field)]; cbn [fst];
    (rewrite lookup_insert_ne by congruence); exact Hfs1.
Qed.

(** What a call that returns has done. *)
Lemma write_imaging_returns fs fs' imaging save_path overwrite mov_field :
  write_imaging' fs imaging save_path overwrite mov_field = (fs', inr tt) →
  ∃ f dset,
    write_to_h5_dataset_format imaging mov_field ∅ = (f, None) ∧
    f !! mov_field = Some dset ∧
    Hdf5ImagingExtractor.hdf5_suffix save_path = true ∧
    (Hdf5ImagingExtractor.is_file fs save_path = true → overwrite = true) ∧
    fs' !! save_path
    = Some (<[mov_field := Hdf5ImagingExtractor.mkDataset (Hdf5ImagingExtractor.ds_data dset)
                             (<["fr" := get_sampling_frequency imaging]>
                                (Hdf5ImagingExtractor.ds_attrs dset))]> f).
Proof.
  unfold Hdf5ImagingExtractor.write_imaging.
  destruct (Hdf5ImagingExtractor.hdf5_suffix save_path); cbn [negb]; [|discriminate].
  destruct (Hdf5ImagingExtractor.is_file fs save_path) eqn:Hfile;
    destruct overwrite; cbn [negb andb]; try discriminate;
    (destruct (write_to_h5_dataset_format imaging mov_field ∅) as [f [e|]]; [discriminate|]);
    (destruct (f !! mov_field) as [dset|] eqn:Hd; [|discriminate]);
    intros [= <-]; exists f, dset; repeat split; try assumption; try discriminate;
    apply lookup_insert_eq.
Qed.

(** X4. When [write_imaging] returns, the target holds what the helper
    wrote into an empty file, with the attribute "fr" of the dataset at
    [mov_field] set to the sampling frequency of the extractor: no dataset
    of a file that was there before remains. *)
Theorem write_imaging_result fs fs' imaging save_path overwrite mov_field :
  write_imaging' fs imaging save_path overwrite mov_field = (fs', inr tt) →
  ∃ f dset,
    write_to_h5_dataset_format imaging mov_field ∅ = (f, None) ∧
    f !! mov_field = Some dset ∧
    Hdf5ImagingExtractor.hdf5_suffix save_path = true ∧
    (Hdf5ImagingExtractor.is_file fs save_path = true → overwrite = true) ∧
    fs' !! save_path
    = Some (<[mov_field := Hdf5ImagingExtractor.mkDataset (Hdf5ImagingExtractor.ds_data dset)
                             (<["fr" := get_sampling_frequency imaging]>
                                (Hdf5ImagingExtractor.ds_attrs dset))]> f).
Proof. exact (write_imaging_returns fs fs' imaging save_path overwrite mov_field). Qed.

(** X6. The constructor tests the file for the key "mov", whatever
    [mov_field] is: a file that holds the dataset under another name is
    refused with the generic exception although that name is given, and a
    file that holds "mov" but not [mov_field] fails at the lookup. *)
Theorem init_tests_the_key_mov
    (fs : gmap string (gmap string (@Hdf5ImagingExtractor.dataset Data Attr)))
    file_path mov_field file sampling_frequency start_time metadata channel_names :
  Hdf5ImagingExtractor.hdf5_suffix file_path = true →
  fs !! file_path = Some file →
  (file !! "mov" = None →
   init fs file_path mov_field sampling_frequency start_time metadata channel_names
   = inl (Py.Exception (file_path ++ " does not contain the 'mov' dataset")%string)) ∧
  (is_Some (file !! "mov") → file !! mov_field = None →
   init fs file_path mov_field sampling_frequency start_time metadata channel_names
   = inl (Py.KeyError mov_field)).
Proof.
  intros Hs Hf. unfold Hdf5ImagingExtractor.Init.__init__. rewrite Hs, Hf. cbn [negb].
  split.
  - intros Hmov. rewrite Hmov.
    rewrite bool_decide_eq_false_2 by (intros [? ?]; discriminate). reflexivity.
  - intros Hmov Hfield. rewrite bool_decide_eq_true_2 by exact Hmov. cbn [negb].
    rewrite Hfield. reflexivity.
Qed.

(** X7. Reading back what was written under the default name: after
    [write_imaging] returned for [mov_field = "mov"], the constructor
    called on the target without a sampling frequency returns an instance
    as soon as [get_video_shape] accepts the dataset, and the sampling
    frequency of the instance is the one of the extractor that was
    written. *)
Theorem write_imaging_then_init fs fs' imaging save_path overwrite :
  write_imaging' fs imaging save_path overwrite "mov" = (fs', inr tt) →
  ∃ dset,
    (fs' !! save_path ≫= (.!! "mov")) = Some dset ∧
    Hdf5ImagingExtractor.ds_attrs dset !! "fr" = Some (get_sampling_frequency imaging) ∧
    (∀ start_time metadata channel_names self,
       init fs' save_path "mov" None start_time metadata channel_names = inr self →
       Hdf5ImagingExtractor.Init.get_sampling_frequency self
       = get_sampling_frequency imaging) ∧
    (∀ shape, get_video_shape (Hdf5ImagingExtractor.ds_data dset) = inr shape →
       ∃ self,
         init fs' save_path "mov" None None None None = inr self ∧
         Hdf5ImagingExtractor.Init.get_sampling_frequency self
         = get_sampling_frequency imaging ∧
         Hdf5ImagingExtractor.Init.get_num_channels self = shape.1.1.1 ∧
         Hdf5ImagingExtractor.Init.get_num_frames self = shape.1.1.2 ∧
         Hdf5ImagingExtractor.Init.get_image_size self = (shape.1.2, shape.2)).
Proof.
  intros Hw.
  destruct (write_imaging_returns _ _ _ _ _ _ Hw) as (f & dset & _ & _ & Hs & _ & Hfs').
  set (dset' := Hdf5ImagingExtractor.mkDataset (Hdf5ImagingExtractor.ds_data dset)
                  (<["fr" := get_sampling_frequency imaging]>
                     (Hdf5ImagingExtractor.ds_attrs dset))) in *.
  exists dset'.
  assert (Hmov : (<["mov" := dset']> f : gmap string _) !! "mov" = Some dset')
    by apply lookup_insert_eq.
  assert (Hfr : Hdf5ImagingExtractor.ds_attrs dset' !! "fr"
                = Some (get_sampling_frequency imaging)) by apply lookup_insert_eq.
  assert (Hinit : ∀ start_time metadata channel_names,
            init fs' save_path "mov" None start_time metadata channel_names
            = Py.bind (get_video_shape (Hdf5ImagingExtractor.ds_data dset'))
                (fun shape =>
                   let '(num_channels, num_frames, rows, columns) := shape in
                   Py.bind
                     (match channel_names with
                      | Some l =>
                          if Nat.eqb (length l) num_channels then Py.ok l
                          else Py.raise (Py.AssertionError
                                 "'channel_names' length is different than number of channels")
                      | None => Py.ok (Hdf5ImagingExtractor.Init.default_channel_names
                                         num_channels)
                      end)
                     (fun names =>
                        Py.ok (Hdf5ImagingExtractor.Init.mkInstance save_path
                                 (get_sampling_frequency imaging) "mov" names
                                 (Hdf5ImagingExtractor.ds_data dset')
                                 (match start_time with
                                  | None => Hdf5ImagingExtractor.ds_attrs dset' !! "start_time"
                                  | Some a => Some a
                                  end)
                                 (match metadata with
                                  | None => Hdf5ImagingExtractor.ds_attrs dset' !! "metadata"
                                  | Some a => Some a
                                  end)
                                 num_channels num_frames rows columns
                                 (Nat.ltb 3 (ndim (Hdf5ImagingExtractor.ds_data dset'))))))).
  { intros start_time metadata channel_names.
    unfold Hdf5ImagingExtractor.Init.__init__. rewrite Hs, Hfs'. cbn [negb].
    rewrite Hmov. rewrite bool_decide_eq_true_2 by (eexists; reflexivity). cbn [negb].
    rewrite Hfr. reflexivity. }
  split; [rewrite Hfs'; exact Hmov|]. split; [exact Hfr|]. split.
  - intros start_time metadata channel_names self. rewrite Hinit.
    destruct (get_video_shape _) as [e|[[[nc nf] rows] cols]]; [discriminate|].
    cbn [Py.bind]. destruct channel_names as [l|].
    + destruct (Nat.eqb (length l) nc); [|discriminate]. intros [= <-]. reflexivity.
    + intros [= <-]. reflexivity.
  - intros [[[nc nf] rows] cols] Hshape. rewrite Hinit.
    rewrite Hshape. cbn [Py.bind Py.ok]. eexists. split; [reflexivity|]. repeat split.
Qed.

(** X8. The channel names of an instance: the names given, when there are
    as many as channels; the names channel_0, channel_1, ... when none are
    given; and an assertion error when the number of names given differs
    from the number of channels. *)
Theorem init_channel_names
    (fs : gmap string (gmap string (@Hdf5ImagingExtractor.dataset Data Attr)))
    file_path mov_field sampling_frequency start_time metadata channel_names :
  (∀ self, init fs file_path mov_field sampling_frequency start_time metadata channel_names
           = inr self →
     length (Hdf5ImagingExtractor.Init.get_channel_names self)
     = Hdf5ImagingExtractor.Init.get_num_channels self ∧
     match channel_names with
     | Some l => Hdf5ImagingExtractor.Init.get_channel_names self = l
     | None =>
         ∀ ch, (ch < Hdf5ImagingExtractor.Init.get_num_channels self)%nat →
           Hdf5ImagingExtractor.Init.get_channel_names self !! ch
           = Some ("channel_" ++ pretty ch)%string
     end) ∧
  (∀ self l, init fs file_path mov_field sampling_frequency start_time metadata None
             = inr self →
     length l ≠ Hdf5ImagingExtractor.Init.get_num_channels self →
     init fs file_path mov_field sampling_frequency start_time metadata (Some l)
     = inl (Py.AssertionError
              "'channel_names' length is different than number of channels")).
Proof.
  unfold Hdf5ImagingExtractor.Init.__init__.
  destruct (negb (Hdf5ImagingExtractor.hdf5_suffix file_path));
    [split; intros; discriminate|].
  destruct (fs !! file_path) as [file|]; [|split; intros; discriminate].
  destruct (negb (bool_decide (is_Some (file !! "mov")))); [split; intros; discriminate|].
  destruct (file !! mov_field) as [dset|]; [|split; intros; discriminate].
  destruct (match sampling_frequency with Some a => _ | None => _ end) as [e|fr];
    [split; intros; discriminate|].
  cbn [Py.bind].
  destruct (get_video_shape _) as [e|[[[nc nf] rows] cols]]; [split; intros; discriminate|].
  cbn [Py.bind]. split.
  - intros self. destruct channel_names as [l|].
    + destruct (Nat.eqb (length l) nc) eqn:Hl; [|discriminate].
      intros [= <-]. cbn. split; [apply Nat.eqb_eq; exact Hl | reflexivity].
    + intros [= <-]. cbn. unfold Hdf5ImagingExtractor.Init.default_channel_names.
      split; [rewrite length_map, length_seq; reflexivity|].
      intros ch Hch. rewrite list_lookup_fmap, lookup_seq_lt by exact Hch. reflexivity.
  - intros self l [= <-] Hne. cbn in Hne.
    apply Nat.eqb_neq in Hne. rewrite Hne. reflexivity.
Qed.

End WriteAndRead.

(** The target is written beside another file. *)
Lemma write_imaging_other_paths_witness :
  let fs : gmap string (gmap string (@Hdf5ImagingExtractor.dataset nat nat)) :=
    {[ "other.h5" := ∅ ]} in
  (Hdf5ImagingExtractor.write_imaging (fun _ : unit => 30%nat) (fun _ => Examples.one_dataset)
     fs tt "movie.h5" true "mov").1 !! "other.h5"
  = fs !! "other.h5".
Proof.
  intros fs.
  refine (write_imaging_other_paths _ _ fs tt "movie.h5" true "mov" "other.h5" _).
  discriminate.
Defined.

Lemma write_imaging_result_witness :
  ∃ dset,
    (Hdf5ImagingExtractor.write_imaging (fun _ : unit => 30%nat) (fun _ => Examples.one_dataset)
       ∅ tt "movie.h5" false "mov").1 !! "movie.h5"
    = Some (<["mov" := Hdf5ImagingExtractor.mkDataset (Hdf5ImagingExtractor.ds_data dset)
                         (<["fr" := 30%nat]> (Hdf5ImagingExtractor.ds_attrs dset))]>
              (Examples.one_dataset "mov" ∅).1).
Proof.
  assert (Hw : Hdf5ImagingExtractor.write_imaging (fun _ : unit => 30%nat)
                 (fun _ => Examples.one_dataset) ∅ tt "movie.h5" false "mov"
               = ((Hdf5ImagingExtractor.write_imaging (fun _ : unit => 30%nat)
                     (fun _ => Examples.one_dataset) ∅ tt "movie.h5" false "mov").1, inr tt))
    by (vm_compute; reflexivity).
  destruct (write_imaging_result (fun _ : unit => 30%nat) (fun _ => Examples.one_dataset)
              ∅ _ tt "movie.h5" false "mov" Hw) as (f & dset & Hf & _ & _ & _ & Hfs).
  exists dset. rewrite Hfs. injection Hf as <-. reflexivity.
Defined.

(** A file whose only dataset is named "data". *)
Lemma init_tests_the_key_mov_witness :
  Hdf5ImagingExtractor.Init.__init__ Examples.shape_of_dataset (fun _ => 3%nat)
    {[ "movie.h5" := {[ "data" := Hdf5ImagingExtractor.mkDataset 4%nat (∅ : gmap string nat) ]} ]}
    "movie.h5" "data" None None None None
  = inl (Py.Exception "movie.h5 does not contain the 'mov' dataset").
Proof.
  refine (proj1 (init_tests_the_key_mov Examples.shape_of_dataset (fun _ => 3%nat)
                   {[ "movie.h5" := {[ "data" := Hdf5ImagingExtractor.mkDataset 4%nat ∅ ]} ]}
                   "movie.h5" "data" {[ "data" := Hdf5ImagingExtractor.mkDataset 4%nat ∅ ]}
                   None None None None _ _) _).
  - vm_compute. reflexivity.
  - apply lookup_singleton_eq.
  - apply lookup_singleton_ne. discriminate.
Defined.

Lemma write_imaging_then_init_witness :
  ∃ self,
    Hdf5ImagingExtractor.Init.__init__ Examples.shape_of_dataset (fun _ => 3%nat)
      (Hdf5ImagingExtractor.write_imaging (fun _ : unit => 30%nat)
         (fun _ => Examples.one_dataset) ∅ tt "movie.h5" false "mov").1
      "movie.h5" "mov" None None None None = inr self ∧
    Hdf5ImagingExtractor.Init.get_sampling_frequency self = 30%nat ∧
    Hdf5ImagingExtractor.Init.get_num_frames self = 4%nat.
Proof.
  assert (Hw : Hdf5ImagingExtractor.write_imaging (fun _ : unit => 30%nat)
                 (fun _ => Examples.one_dataset) ∅ tt "movie.h5" false "mov"
               = ((Hdf5ImagingExtractor.write_imaging (fun _ : unit => 30%nat)
                     (fun _ => Examples.one_dataset) ∅ tt "movie.h5" false "mov").1, inr tt))
    by (vm_compute; reflexivity).
  destruct (write_imaging_then_init (fun _ : unit => 30%nat) (fun _ => Examples.one_dataset)
              Examples.shape_of_dataset (fun _ => 3%nat)
              ∅ _ tt "movie.h5" false Hw) as (dset & Hd & _ & _ & Hinit).
  assert (Hdata : Hdf5ImagingExtractor.ds_data dset = 4%nat).
  { vm_compute in Hd. injection Hd as <-. reflexivity. }
  destruct (Hinit (1, 4, 1, 1)%nat) as (self & Hself & Hfr & _ & Hnf & _).
  { rewrite Hdata. reflexivity. }
  exists self. split; [exact Hself|]. split; [exact Hfr | exact Hnf].
Defined.

(** ** MemmapImagingExtractor *)

(** X9. The constructor assigns nothing: on the object it builds, every
    accessor that reads an attribute raises AttributeError, whatever the
    arguments were, and [get_channel_names] returns None. *)
Theorem memmap_constructor_assigns_nothing {A Rate Imaging : Type}
    (imaging_extractor : Imaging) (save_path : option string) (verbose : bool)
    (frame_idxs : option (list Z)) :
  let self := @MemmapImagingExtractor.__init__ A Rate Imaging imaging_extractor save_path
                verbose in
  MemmapImagingExtractor.get_num_frames self = inl (Py.AttributeError "_num_frames") ∧
  MemmapImagingExtractor.get_image_size self = inl (Py.AttributeError "_rows") ∧
  MemmapImagingExtractor.get_sampling_frequency self
    = inl (Py.AttributeError "_sampling_frequency") ∧
  MemmapImagingExtractor.get_num_channels self = inl (Py.AttributeError "_num_channels") ∧
  MemmapImagingExtractor.get_channel_names self = None ∧
  MemmapImagingExtractor.get_frames self frame_idxs
    = inl (Py.AttributeError (match frame_idxs with
                              | None => "_num_frames"
                              | Some _ => "_video"
                              end)).
Proof. destruct frame_idxs; repeat split. Qed.

Lemma for_each_inr {B C} (f : B → Py.result C) (l : list B) (ys : list C) :
  MemmapImagingExtractor.for_each f l = inr ys ↔ Forall2 (fun x y => f x = inr y) l ys.
Proof.
  revert ys. induction l as [|x r IH]; intros ys; cbn.
  - split; [intros [= <-]; constructor | intros H; inversion H; reflexivity].
  - destruct (f x) as [e|y] eqn:Hx; cbn.
    + split; [discriminate|]. intros H. inversion H as [|? ? ? ? Hy Hrest]; subst.
      cbn in Hy. rewrite Hx in Hy. discriminate.
    + destruct (MemmapImagingExtractor.for_each f r) as [e|ys'] eqn:Hr; cbn.
      * split; [discriminate|]. intros H. inversion H as [|? ? ? ? Hy Hrest]; subst.
        apply IH in Hrest. discriminate.
      * split.
        -- intros [= <-]. constructor; [exact Hx | apply IH; reflexivity].
        -- intros H. inversion H as [|? y' ? ys'' Hy Hrest]; subst.
           apply IH in Hrest. cbn in Hy. rewrite Hx in Hy.
           injection Hy as <-. injection Hrest as <-. reflexivity.
Qed.

(** What [take] does at the axis: below every path of [k] positions the
    array holds a list, and the result holds there the entries picked
    from that list. *)
Lemma take_item {A} (k : nat) (idxs : list Z) :
  ∀ (v b : MemmapImagingExtractor.ndarray A) (path : list nat),
    MemmapImagingExtractor.take k idxs v = inr b → length path = k →
    match MemmapImagingExtractor.item path v with
    | Some x =>
        ∃ l picked, x = MemmapImagingExtractor.Arr l ∧
          MemmapImagingExtractor.item path b = Some (MemmapImagingExtractor.Arr picked) ∧
          MemmapImagingExtractor.for_each (MemmapImagingExtractor.entry l) idxs = inr picked
    | None => MemmapImagingExtractor.item path b = None
    end.
Proof.
  induction k as [|k IH]; intros v b path Htake Hlen.
  - destruct path; [|discriminate]. cbn. destruct v as [x|l]; [discriminate|].
    cbn in Htake.
    destruct (MemmapImagingExtractor.for_each _ idxs) as [e|picked] eqn:Hp; [discriminate|].
    injection Htake as <-. exists l, picked. repeat split. exact Hp.
  - destruct path as [|p path]; [discriminate|]. injection Hlen as Hlen.
    destruct v as [x|l]; [discriminate|]. cbn in Htake.
    destruct (MemmapImagingExtractor.for_each _ l) as [e|inner] eqn:Hin; [discriminate|].
    injection Htake as <-. apply for_each_inr in Hin.
    cbn [MemmapImagingExtractor.item].
    destruct (l !! p) as [x|] eqn:Hx; cbn.
    + destruct (Forall2_lookup_l _ _ _ _ _ Hin Hx) as (y & Hy & Hxy).
      rewrite Hy. cbn. exact (IH x y path Hxy Hlen).
    + assert (inner !! p = None) as ->; [|reflexivity].
      apply lookup_ge_None. rewrite <- (Forall2_length _ _ _ Hin).
      apply lookup_ge_None. exact Hx.
Qed.

(** X10. [get_frames] with a list of indices returns, along the frame
    axis, exactly the requested entries in the order of the request: at
    every position of the leading axes the result has as many entries as
    indices were given, and its entry [j] is the entry of the video at
    the [j]-th index, a negative index counting from the end. *)
Theorem memmap_get_frames_takes_requested {A Rate : Type}
    (self : @MemmapImagingExtractor.t A Rate) (video b : MemmapImagingExtractor.ndarray A)
    (axis : nat) (frame_idxs : list Z) :
  MemmapImagingExtractor._video self = Some video →
  MemmapImagingExtractor.frame_axis self = Some axis →
  MemmapImagingExtractor.get_frames self (Some frame_idxs) = inr b →
  ∀ path l, length path = axis →
    MemmapImagingExtractor.item path video = Some (MemmapImagingExtractor.Arr l) →
    ∃ picked,
      MemmapImagingExtractor.item path b = Some (MemmapImagingExtractor.Arr picked) ∧
      length picked = length frame_idxs ∧
      ∀ j i, frame_idxs !! j = Some i →
        ∃ pos x, MemmapImagingExtractor.position (length l) i = Some pos ∧
                 l !! pos = Some x ∧ picked !! j = Some x.
Proof.
  intros Hv Ha. unfold MemmapImagingExtractor.get_frames. rewrite Hv, Ha. cbn.
  intros Htake path l Hlen Hitem.
  pose proof (take_item axis frame_idxs video b path Htake Hlen) as H.
  rewrite Hitem in H. destruct H as (l' & picked & [= <-] & Hb & Hp).
  exists picked. split; [exact Hb|]. apply for_each_inr in Hp.
  split; [symmetry; exact (Forall2_length _ _ _ Hp)|].
  intros j i Hj. destruct (Forall2_lookup_l _ _ _ _ _ Hp Hj) as (x & Hx & Hentry).
  unfold MemmapImagingExtractor.entry in Hentry.
  destruct (MemmapImagingExtractor.position (length l) i) as [pos|]; [|discriminate].
  destruct (l !! pos) as [x'|] eqn:Hpos; [|discriminate].
  injection Hentry as ->. exists pos, x. repeat split; assumption.
Qed.

Lemma memmap_get_frames_takes_requested_witness :
  let video := MemmapImagingExtractor.Arr
                 [MemmapImagingExtractor.Item 10%nat; MemmapImagingExtractor.Item 20%nat;
                  MemmapImagingExtractor.Item 30%nat] in
  let self := @MemmapImagingExtractor.mk nat Q (Some video) (Some 0%nat) (Some 3%nat)
                None None None None in
  ∃ picked,
    MemmapImagingExtractor.item [] (MemmapImagingExtractor.Arr
       [MemmapImagingExtractor.Item 30%nat; MemmapImagingExtractor.Item 10%nat;
        MemmapImagingExtractor.Item 10%nat])
    = Some (MemmapImagingExtractor.Arr picked) ∧
    length picked = length [-1; 0; 0] ∧
    ∀ j i, [-1; 0; 0] !! j = Some i →
      ∃ pos x, MemmapImagingExtractor.position
                 (length [MemmapImagingExtractor.Item 10%nat; MemmapImagingExtractor.Item 20%nat;
                          MemmapImagingExtractor.Item 30%nat]) i = Some pos ∧
               [MemmapImagingExtractor.Item 10%nat; MemmapImagingExtractor.Item 20%nat;
                MemmapImagingExtractor.Item 30%nat] !! pos = Some x ∧ picked !! j = Some x.
Proof.
  intros video self.
  exact (memmap_get_frames_takes_requested self video _ 0 [-1; 0; 0]
           eq_refl eq_refl eq_refl [] _ eq_refl eq_refl).
Defined.

Lemma entry_of_nat {B} (l : list B) (i : nat) (x : B) :
  l !! i = Some x → MemmapImagingExtractor.entry l (Z.of_nat i) = inr x.
Proof.
  intros Hx. pose proof (lookup_lt_Some _ _ _ Hx) as Hlt.
  unfold MemmapImagingExtractor.entry, MemmapImagingExtractor.position.
  destruct (0 <=? Z.of_nat i) eqn:H0; [|apply Z.leb_gt in H0; lia].
  destruct (Z.of_nat i <? Z.of_nat (length l)) eqn:H1; [|apply Z.ltb_ge in H1; lia].
  cbn. rewrite Nat2Z.id, Hx. reflexivity.
Qed.

(** X11. [get_frames()] without indices returns the whole video, when
    the frames are the entries of the first axis and [_num_frames] is
    their number. *)
Theorem memmap_get_frames_all {A Rate : Type} (self : @MemmapImagingExtractor.t A Rate)
    (frames : list (MemmapImagingExtractor.ndarray A)) :
  MemmapImagingExtractor._video self = Some (MemmapImagingExtractor.Arr frames) →
  MemmapImagingExtractor.frame_axis self = Some 0%nat →
  MemmapImagingExtractor._num_frames self = Some (length frames) →
  MemmapImagingExtractor.get_frames self None = inr (MemmapImagingExtractor.Arr frames).
Proof.
  intros Hv Ha Hn. unfold MemmapImagingExtractor.get_frames, MemmapImagingExtractor.get_num_frames.
  rewrite Hv, Ha, Hn. cbn.
  assert (Hall : MemmapImagingExtractor.for_each (MemmapImagingExtractor.entry frames)
                   (Z.of_nat <$> seq 0 (length frames)) = inr frames).
  { apply for_each_inr. apply Forall2_same_length_lookup_2.
    - rewrite length_fmap, length_seq. reflexivity.
    - intros i z x Hz Hx. rewrite list_lookup_fmap in Hz.
      rewrite lookup_seq_lt in Hz by (eapply lookup_lt_Some; exact Hx).
      cbn in Hz. injection Hz as <-. apply entry_of_nat. exact Hx. }
  rewrite Hall. reflexivity.
Qed.

Lemma memmap_get_frames_all_witness :
  let frames := [MemmapImagingExtractor.Item 10%nat; MemmapImagingExtractor.Item 20%nat] in
  MemmapImagingExtractor.get_frames
    (@MemmapImagingExtractor.mk nat Q (Some (MemmapImagingExtractor.Arr frames)) (Some 0%nat)
       (Some 2%nat) None None None None) None
  = inr (MemmapImagingExtractor.Arr frames).
Proof.
  intros frames.
  exact (memmap_get_frames_all
           (@MemmapImagingExtractor.mk nat Q (Some (MemmapImagingExtractor.Arr frames))
              (Some 0%nat) (Some 2%nat) None None None None) frames eq_refl eq_refl eq_refl).
Defined.

(** ** MemmapImagingExtractor.write_imaging *)

Section MemmapWriting.

Context {Imaging Plane : Type}.
Context (get_num_frames get_num_channels : Imaging -> nat).
Context (get_image_size : Imaging -> nat * nat).
Context (get_frames : Imaging -> nat -> nat -> Py.result Plane).
Context (broadcasts : Plane -> nat * nat -> bool).
Context (empty_mapping : option Py.error).
Context (imaging : Imaging).

Abbreviation shaped := (@MemmapImagingExtractor.shaped Plane).
Abbreviation setitem := (MemmapImagingExtractor.setitem broadcasts).
Abbreviation frames_loop := (MemmapImagingExtractor.frames_loop get_frames broadcasts imaging).
Abbreviation channels_loop :=
  (MemmapImagingExtractor.channels_loop get_num_frames get_frames broadcasts).
Abbreviation memmap_write_imaging :=
  (MemmapImagingExtractor.write_imaging get_num_frames get_num_channels get_image_size
     get_frames broadcasts empty_mapping).

Lemma shaped_zeros (n c : nat) : shaped n c (replicate n (replicate c None)).
Proof.
  split; [apply length_replicate|]. intros a row Ha.
  apply lookup_replicate in Ha as [-> _]. apply length_replicate.
Qed.

Lemma setitem_inv (a b : nat) (plane : Plane) (size : nat * nat) m m' :
  setitem a b plane size m = inr m' →
  ∃ row, m !! a = Some row ∧ (b < length row)%nat ∧ broadcasts plane size = true ∧
         m' = <[a := <[b := Some plane]> row]> m.
Proof.
  unfold MemmapImagingExtractor.setitem.
  destruct (m !! a) as [row|]; [|discriminate].
  destruct (decide (b < length row)%nat) as [Hb|]; [|discriminate].
  destruct (broadcasts plane size) eqn:Hbr; [|discriminate].
  intros [= <-]. exists row. repeat split; assumption.
Qed.

Lemma setitem_shaped (n c a b : nat) plane size m m' :
  setitem a b plane size m = inr m' → shaped n c m → shaped n c m'.
Proof.
  intros (row & Hrow & Hb & _ & ->)%setitem_inv [Hn Hc]. split.
  - rewrite length_insert. exact Hn.
  - intros a' row' Ha'. destruct (decide (a' = a)) as [-> | Hne].
    + rewrite list_lookup_insert_eq in Ha' by (eapply lookup_lt_Some; exact Hrow).
      injection Ha' as <-. rewrite length_insert. exact (Hc a row Hrow).
    + rewrite list_lookup_insert_ne in Ha' by congruence. exact (Hc a' row' Ha').
Qed.

Lemma frames_loop_shaped (n c : nat) size ch frames : ∀ m m' e,
  frames_loop size ch frames m = (m', e) → shaped n c m → shaped n c m'.
Proof.
  induction frames as [|i r IH]; intros m m' e; cbn.
  - intros [= <- _]. auto.
  - destruct (get_frames imaging i ch) as [err|plane]; [intros [= <- _]; auto|].
    destruct (setitem ch i plane size m) as [err|m1] eqn:Hset; [intros [= <- _]; auto|].
    intros Hrun Hm. eapply IH; [exact Hrun|]. eapply setitem_shaped; eassumption.
Qed.

(** A frame index beyond the second axis stops the loop. *)
Lemma frames_loop_beyond_axis_1 (n c : nat) size ch frames : ∀ m,
  shaped n c m → (∃ i, i ∈ frames ∧ (c <= i)%nat) →
  ∃ m' e, frames_loop size ch frames m = (m', Some e).
Proof.
  induction frames as [|i r IH]; intros m Hm (j & Hj & Hc); [inversion Hj|]. cbn.
  destruct (get_frames imaging i ch) as [err|plane]; [eexists _, _; reflexivity|].
  destruct (setitem ch i plane size m) as [err|m1] eqn:Hset; [eexists _, _; reflexivity|].
  apply elem_of_cons in Hj as [-> | Hj].
  - exfalso. apply setitem_inv in Hset as (row & Hrow & Hb & _).
    rewrite (proj2 Hm _ _ Hrow) in Hb. lia.
  - apply IH; [eapply setitem_shaped; eassumption | exists j; split; assumption].
Qed.

(** A channel index beyond the first axis stops the loop at its first
    frame. *)
Lemma frames_loop_beyond_axis_0 (n c : nat) size ch frames m :
  shaped n c m → (n <= ch)%nat → frames ≠ [] →
  ∃ m' e, frames_loop size ch frames m = (m', Some e).
Proof.
  intros Hm Hch Hne. destruct frames as [|i r]; [congruence|]. cbn.
  destruct (get_frames imaging i ch) as [err|plane]; [eexists _, _; reflexivity|].
  destruct (setitem ch i plane size m) as [err|m1] eqn:Hset; [eexists _, _; reflexivity|].
  exfalso. apply setitem_inv in Hset as (row & Hrow & _).
  apply lookup_lt_Some in Hrow. rewrite (proj1 Hm) in Hrow. lia.
Qed.

Lemma channels_loop_shaped (n c : nat) verbose size channels : ∀ m printed m' e,
  channels_loop verbose imaging size channels m = (printed, m', e) →
  shaped n c m → shaped n c m'.
Proof.
  induction channels as [|ch r IH]; intros m printed m' e; cbn.
  - intros [= _ <- _]. auto.
  - destruct (frames_loop size ch _ m) as [m1 [err|]] eqn:Hfr.
    + intros [= _ <- _] Hm. eapply frames_loop_shaped; eassumption.
    + destruct (channels_loop verbose imaging size r m1) as [[more m2] e2] eqn:Hch.
      intros [= _ <- _] Hm. eapply IH; [exact Hch|]. eapply frames_loop_shaped; eassumption.
Qed.

Lemma channels_loop_stops (n c : nat) verbose size channels (bad : nat) : ∀ m,
  shaped n c m → bad ∈ channels →
  (∀ m, shaped n c m →
     ∃ m' e, frames_loop size bad (seq 0 (get_num_frames imaging)) m = (m', Some e)) →
  ∃ printed m' e, channels_loop verbose imaging size channels m = (printed, m', Some e).
Proof.
  induction channels as [|ch r IH]; intros m Hm Hbad Hstop; [inversion Hbad|]. cbn.
  destruct (frames_loop size ch _ m) as [m1 [err|]] eqn:Hfr; [eexists _, _, _; reflexivity|].
  apply elem_of_cons in Hbad as [-> | Hbad].
  - destruct (Hstop m Hm) as (m' & e & Hrun). rewrite Hrun in Hfr. discriminate.
  - destruct (IH m1) as (printed & m' & e & Hrun);
      [eapply frames_loop_shaped; eassumption | exact Hbad | exact Hstop |].
    rewrite Hrun. eexists _, _, _. reflexivity.
Qed.

(** When every plane can be read and assigned, the loops stop only at an
    index that is out of bounds. *)
Lemma frames_loop_index_error size ch frames : ∀ m m' e,
  (∀ i c, ∃ p, get_frames imaging i c = inr p ∧ broadcasts p size = true) →
  frames_loop size ch frames m = (m', Some e) → ∃ msg, e = Py.IndexError msg.
Proof.
  induction frames as [|i r IH]; intros m m' e Hok; cbn; [discriminate|].
  destruct (Hok i ch) as (p & -> & Hbr).
  unfold MemmapImagingExtractor.setitem at 1.
  destruct (m !! ch) as [row|]; [|intros [= _ <-]; eexists; reflexivity].
  destruct (decide (i < length row)%nat); [|intros [= _ <-]; eexists; reflexivity].
  rewrite Hbr. apply IH. exact Hok.
Qed.

Lemma channels_loop_index_error verbose size channels : ∀ m printed m' e,
  (∀ i c, ∃ p, get_frames imaging i c = inr p ∧ broadcasts p size = true) →
  channels_loop verbose imaging size channels m = (printed, m', Some e) →
  ∃ msg, e = Py.IndexError msg.
Proof.
  induction channels as [|ch r IH]; intros m printed m' e Hok; cbn; [discriminate|].
  destruct (frames_loop size ch _ m) as [m1 [err|]] eqn:Hfr.
  - intros [= _ _ <-]. eapply frames_loop_index_error; eassumption.
  - destruct (channels_loop verbose imaging size r m1) as [[more m2] e2] eqn:Hch.
    intros [= _ _ ->]. eapply IH; eassumption.
Qed.

(** X12. The mapped array has the shape (frames, channels, rows,
    columns) and is filled at [[ch, i]], channel first.  For an extractor
    with at least one frame and one channel and a number of channels that
    differs from the number of frames, [write_imaging] never returns; when
    the image is not empty and every plane can be read and assigned, the
    exception is an IndexError. *)
Theorem memmap_write_imaging_swapped_axes fs save_path verbose :
  (0 < get_num_frames imaging)%nat → (0 < get_num_channels imaging)%nat →
  get_num_frames imaging ≠ get_num_channels imaging →
  (∃ e, (memmap_write_imaging fs imaging save_path verbose).2 = inl e) ∧
  ((0 < (get_image_size imaging).1)%nat → (0 < (get_image_size imaging).2)%nat →
   (∀ i c, ∃ p, get_frames imaging i c = inr p ∧
                broadcasts p (get_image_size imaging) = true) →
   ∃ msg, (memmap_write_imaging fs imaging save_path verbose).2 = inl (Py.IndexError msg)).
Proof.
  intros Hf Hc Hne.
  set (F := get_num_frames imaging) in *. set (C := get_num_channels imaging) in *.
  assert (Hloop : ∃ printed m' e,
            channels_loop verbose imaging (get_image_size imaging) (seq 0 C)
              (replicate F (replicate C None)) = (printed, m', Some e)).
  { destruct (decide (C < F)%nat) as [Hlt|Hge].
    - apply (channels_loop_stops F C _ _ _ 0%nat); [apply shaped_zeros | apply elem_of_seq; lia |].
      intros m Hm. apply (frames_loop_beyond_axis_1 F C); [exact Hm|].
      exists C. split; [apply elem_of_seq; fold F; lia | lia].
    - apply (channels_loop_stops F C _ _ _ F); [apply shaped_zeros | apply elem_of_seq; lia |].
      intros m Hm. apply (frames_loop_beyond_axis_0 F C); [exact Hm | lia |].
      fold F. destruct F; [lia | discriminate]. }
  destruct Hloop as (printed & m' & e & Hloop).
  unfold MemmapImagingExtractor.write_imaging. fold F C. cbv zeta. split.
  - destruct (if Nat.eqb _ 0 then empty_mapping else None) as [e0|];
      [eexists; reflexivity|].
    rewrite Hloop. eexists. reflexivity.
  - intros Hr Hcol Hok.
    assert (Hsize : Nat.eqb (F * C * (get_image_size imaging).1 * (get_image_size imaging).2) 0
                    = false) by (apply Nat.eqb_neq; nia).
    rewrite Hsize, Hloop. cbn [snd].
    destruct (channels_loop_index_error _ _ _ _ _ _ _ Hok Hloop) as [msg ->].
    exists msg. reflexivity.
Qed.

(** The loop over the frames of a channel within bounds: it ends
    normally, changes only the slots of that channel at the frames of
    the list, and every such slot holds the plane read for it. *)
Lemma frames_loop_fills (n : nat) size ch frames : ∀ m,
  (∀ i c, (i < n)%nat → (c < n)%nat →
     ∃ p, get_frames imaging i c = inr p ∧ broadcasts p size = true) →
  shaped n n m → (ch < n)%nat → (∀ i, i ∈ frames → (i < n)%nat) →
  ∃ m', frames_loop size ch frames m = (m', None) ∧ shaped n n m' ∧
    (∀ a b, a ≠ ch ∨ b ∉ frames → m' !! a ≫= (.!! b) = m !! a ≫= (.!! b)) ∧
    (∀ b, b ∈ frames →
       ∃ p, get_frames imaging b ch = inr p ∧ m' !! ch ≫= (.!! b) = Some (Some p)).
Proof.
  intros m Hok. revert m.
  induction frames as [|i r IH]; intros m Hm Hch Hin.
  - exists m. split; [reflexivity|]. split; [exact Hm|]. split; [reflexivity|].
    intros b Hb. inversion Hb.
  - cbn. destruct (Hok i ch) as (p & Hp & Hbr); [apply Hin; left | exact Hch|].
    rewrite Hp. unfold MemmapImagingExtractor.setitem.
    destruct (lookup_lt_is_Some_2 m ch) as [row Hrow]; [rewrite (proj1 Hm); exact Hch|].
    rewrite Hrow. pose proof (proj2 Hm _ _ Hrow) as Hlen.
    destruct (decide (i < length row)%nat) as [Hi|Hi];
      [|exfalso; apply Hi; rewrite Hlen; apply Hin; left].
    rewrite Hbr.
    set (m1 := <[ch := <[i := Some p]> row]> m).
    assert (Hm1 : shaped n n m1).
    { apply (setitem_shaped n n ch i p size m).
      - unfold MemmapImagingExtractor.setitem. rewrite Hrow.
        destruct (decide (i < length row)%nat); [|lia]. rewrite Hbr. reflexivity.
      - exact Hm. }
    destruct (IH m1 Hm1 Hch) as (m' & Hrun & Hm' & Hframe & Hfill).
    { intros j Hj. apply Hin. right. exact Hj. }
    assert (Hat : m1 !! ch ≫= (.!! i) = Some (Some p)).
    { subst m1. rewrite list_lookup_insert_eq by (eapply lookup_lt_Some; exact Hrow).
      cbn. apply list_lookup_insert_eq. exact Hi. }
    assert (Hother : ∀ a b, a ≠ ch ∨ b ≠ i → m1 !! a ≫= (.!! b) = m !! a ≫= (.!! b)).
    { intros a b Hab. subst m1. destruct (decide (a = ch)) as [-> | Ha].
      - rewrite list_lookup_insert_eq by (eapply lookup_lt_Some; exact Hrow).
        rewrite Hrow. cbn. apply list_lookup_insert_ne. destruct Hab; congruence.
      - rewrite list_lookup_insert_ne by congruence. reflexivity. }
    exists m'. split; [exact Hrun|]. split; [exact Hm'|]. split.
    + intros a b Hab. rewrite Hframe.
      * apply Hother. destruct Hab as [Ha | Hb]; [left; exact Ha|].
        right. intros ->. apply Hb. left.
      * destruct Hab as [Ha | Hb]; [left; exact Ha|].
        right. intros Hbr'. apply Hb. right. exact Hbr'.
    + intros b Hb. destruct (decide (b ∈ r)) as [Hbr'|Hbr'].
      * exact (Hfill b Hbr').
      * apply elem_of_cons in Hb as [-> | Hb]; [|contradiction].
        exists p. split; [exact Hp|]. rewrite Hframe by (right; exact Hbr'). exact Hat.
Qed.

Lemma channels_loop_fills (n : nat) verbose size channels : ∀ m,
  get_num_frames imaging = n →
  (∀ i c, (i < n)%nat → (c < n)%nat →
     ∃ p, get_frames imaging i c = inr p ∧ broadcasts p size = true) →
  shaped n n m → (∀ c, c ∈ channels → (c < n)%nat) →
  ∃ printed m', channels_loop verbose imaging size channels m = (printed, m', None) ∧
    shaped n n m' ∧
    (∀ a b, a ∉ channels → m' !! a ≫= (.!! b) = m !! a ≫= (.!! b)) ∧
    (∀ a b, a ∈ channels → (b < n)%nat →
       ∃ p, get_frames imaging b a = inr p ∧ m' !! a ≫= (.!! b) = Some (Some p)).
Proof.
  intros m Hn Hok. revert m.
  induction channels as [|ch r IH]; intros m Hm Hin.
  - exists [], m. split; [reflexivity|]. split; [exact Hm|]. split; [reflexivity|].
    intros a b Ha. inversion Ha.
  - cbn. rewrite Hn.
    destruct (frames_loop_fills n size ch (seq 0 n) m Hok Hm) as (m1 & Hrun & Hm1 & Hfr & Hfill).
    { apply Hin. left. }
    { intros i Hi. apply elem_of_seq in Hi. lia. }
    rewrite Hrun.
    destruct (IH m1 Hm1) as (more & m' & Hrest & Hm' & Hframe & Hfill').
    { intros c Hc. apply Hin. right. exact Hc. }
    rewrite Hrest. eexists _, m'. split; [reflexivity|]. split; [exact Hm'|]. split.
    + intros a b Ha. apply not_elem_of_cons in Ha as [Hne Ha].
      rewrite (Hframe a b Ha). apply Hfr. left. exact Hne.
    + intros a b Ha Hb. destruct (decide (a ∈ r)) as [Har|Har].
      * exact (Hfill' a b Har Hb).
      * apply elem_of_cons in Ha as [-> | Ha]; [|contradiction].
        destruct (Hfill b) as (p & Hp & Hat); [apply elem_of_seq; lia|].
        exists p. split; [exact Hp|]. rewrite (Hframe ch b Har). exact Hat.
Qed.

(** X13. With as many channels as frames and planes that can be read and
    assigned, [write_imaging] returns and leaves at the target an array in
    which the slot at position [a] of the frame axis and [b] of the
    channel axis holds the plane of frame [b] and channel [a] of the
    extractor. *)
Theorem memmap_write_imaging_square fs save_path verbose (n : nat) :
  get_num_frames imaging = n → get_num_channels imaging = n →
  (0 < n)%nat → (0 < (get_image_size imaging).1)%nat → (0 < (get_image_size imaging).2)%nat →
  (∀ i c, (i < n)%nat → (c < n)%nat →
     ∃ p, get_frames imaging i c = inr p ∧ broadcasts p (get_image_size imaging) = true) →
  (memmap_write_imaging fs imaging save_path verbose).2 = inr tt ∧
  ∃ file,
    (memmap_write_imaging fs imaging save_path verbose).1.1 !! save_path = Some file ∧
    MemmapImagingExtractor.shape file
    = (n, n, (get_image_size imaging).1, (get_image_size imaging).2) ∧
    ∀ a b, (a < n)%nat → (b < n)%nat →
      ∃ p row, get_frames imaging b a = inr p ∧
               MemmapImagingExtractor.slots file !! a = Some row ∧
               row !! b = Some (Some p).
Proof.
  intros HF HC Hn Hr Hcol Hok.
  unfold MemmapImagingExtractor.write_imaging. rewrite HF, HC. cbv zeta.
  assert (Hsize : Nat.eqb (n * n * (get_image_size imaging).1 * (get_image_size imaging).2) 0
                  = false) by (apply Nat.eqb_neq; nia).
  rewrite Hsize.
  destruct (channels_loop_fills n verbose (get_image_size imaging) (seq 0 n)
              (replicate n (replicate n None)) HF Hok (shaped_zeros n n))
    as (printed & m' & Hrun & Hm' & _ & Hfill).
  { intros c Hc. apply elem_of_seq in Hc. lia. }
  rewrite Hrun. cbn [fst snd]. split; [reflexivity|].
  eexists. split; [apply lookup_insert_eq|]. split; [reflexivity|].
  intros a b Ha Hb. cbn [MemmapImagingExtractor.slots].
  destruct (Hfill a b) as (p & Hp & Hat); [apply elem_of_seq; lia | exact Hb|].
  destruct (m' !! a) as [row|]; [|discriminate]. cbn in Hat.
  exists p, row. repeat split; assumption.
Qed.

Lemma channels_loop_quiet size channels : ∀ m printed m' e,
  channels_loop true imaging size channels m = (printed, m', e) →
  channels_loop false imaging size channels m = ([], m', e).
Proof.
  induction channels as [|ch r IH]; intros m printed m' e; cbn.
  - intros [= _ <- <-]. reflexivity.
  - destruct (frames_loop size ch _ m) as [m1 [err|]]; [intros [= _ <- <-]; reflexivity|].
    destruct (channels_loop true imaging size r m1) as [[more m2] e2] eqn:Hch.
    intros [= _ <- <-]. rewrite (IH _ _ _ _ Hch). reflexivity.
Qed.

(** X14. [verbose] only adds output: with and without it the call leaves
    the same file system and has the same outcome, and without it nothing
    is printed. *)
Theorem memmap_write_imaging_verbose fs save_path :
  let write_imaging :=
    MemmapImagingExtractor.write_imaging get_num_frames get_num_channels get_image_size
      get_frames broadcasts empty_mapping fs imaging save_path in
  (write_imaging true).1.1 = (write_imaging false).1.1 ∧
  (write_imaging true).2 = (write_imaging false).2 ∧
  (write_imaging false).1.2 = [].
Proof.
  intros write_imaging. subst write_imaging.
  unfold MemmapImagingExtractor.write_imaging. cbv zeta.
  destruct (if Nat.eqb _ 0 then empty_mapping else None) as [e0|]; [repeat split|].
  destruct (channels_loop true imaging _ _ _) as [[printed m'] e] eqn:Hrun.
  rewrite (channels_loop_quiet _ _ _ _ _ _ Hrun). repeat split.
Qed.

End MemmapWriting.

(** A movie of two frames and one channel: the second frame has no slot
    along the channel axis. *)
Lemma memmap_write_imaging_swapped_axes_witness :
  ∃ e, (MemmapImagingExtractor.write_imaging (fun _ : unit => 2%nat) (fun _ => 1%nat)
          (fun _ => (1, 1)%nat) (fun _ i ch => inr (i, ch)) (fun _ _ => true) None
          ∅ tt "movie.dat" false).2 = inl e.
Proof.
  refine (proj1 (memmap_write_imaging_swapped_axes (fun _ : unit => 2%nat) (fun _ => 1%nat)
                   (fun _ => (1, 1)%nat) (fun _ i ch => inr (i, ch)) (fun _ _ => true) None
                   tt ∅ "movie.dat" false _ _ _)); cbn; lia.
Defined.

(** Two frames of two channels. *)
Lemma memmap_write_imaging_square_witness :
  (MemmapImagingExtractor.write_imaging (fun _ : unit => 2%nat) (fun _ => 2%nat)
     (fun _ => (1, 1)%nat) (fun _ i ch => inr (i, ch)) (fun _ _ => true) None
     ∅ tt "movie.dat" false).2 = inr tt.
Proof.
  refine (proj1 (memmap_write_imaging_square (fun _ : unit => 2%nat) (fun _ => 2%nat)
                   (fun _ => (1, 1)%nat) (fun _ i ch => inr (i, ch)) (fun _ _ => true) None
                   tt ∅ "movie.dat" false 2 eq_refl eq_refl _ _ _ _)); cbn; try lia.
  intros i c _ _. eexists. split; reflexivity.
Defined.

(** ** The checks of testing.py *)

Lemma assert_iterable_shape_spec (ar_shape : list nat) (shape : list (option Z)) :
  Testing._assert_iterable_shape ar_shape shape = inr tt ↔
  ∀ k a n, ar_shape !! k = Some a → shape !! k = Some (Some n) → Z.of_nat a = n.
Proof.
  revert shape. induction ar_shape as [|a ar IH]; intros [|given gs]; cbn.
  - split; [intros _ k a n H; discriminate | reflexivity].
  - split; [intros _ k a n H; discriminate | reflexivity].
  - split; [intros _ k a' n _ H; discriminate | reflexivity].
  - destruct given as [n|].
    + destruct (decide (Z.of_nat a = n)) as [Heq|Hne].
      * rewrite IH. split.
        -- intros H [|k] a' n' Ha Hn; cbn in *; [congruence | eapply H; eassumption].
        -- intros H k a' n' Ha Hn. exact (H (S k) a' n' Ha Hn).
      * split; [discriminate|]. intros H. exfalso. apply Hne. exact (H 0%nat a n eq_refl eq_refl).
    + rewrite IH. split.
      * intros H [|k] a' n' Ha Hn; cbn in *; [congruence | eapply H; eassumption].
      * intros H k a' n' Ha Hn. exact (H (S k) a' n' Ha Hn).
Qed.

Lemma assert_iterable_shape_max_spec (ar_shape : list nat) (shape_max : list (option Z)) :
  Testing._assert_iterable_shape_max ar_shape shape_max = inr tt ↔
  ∀ k a n, ar_shape !! k = Some a → shape_max !! k = Some (Some n) → Z.of_nat a <= n.
Proof.
  revert shape_max. induction ar_shape as [|a ar IH]; intros [|given gs]; cbn.
  - split; [intros _ k a n H; discriminate | reflexivity].
  - split; [intros _ k a n H; discriminate | reflexivity].
  - split; [intros _ k a' n _ H; discriminate | reflexivity].
  - destruct given as [n|].
    + destruct (decide (Z.of_nat a <= n)) as [Heq|Hne].
      * rewrite IH. split.
        -- intros H [|k] a' n' Ha Hn; cbn in *; [congruence | eapply H; eassumption].
        -- intros H k a' n' Ha Hn. exact (H (S k) a' n' Ha Hn).
      * split; [discriminate|]. intros H. exfalso. apply Hne. exact (H 0%nat a n eq_refl eq_refl).
    + rewrite IH. split.
      * intros H [|k] a' n' Ha Hn; cbn in *; [congruence | eapply H; eassumption].
      * intros H k a' n' Ha Hn. exact (H (S k) a' n' Ha Hn).
Qed.

Lemma assert_iterable_shape_more_axes (ar_shape more : list nat) (shape : list (option Z)) :
  (length shape <= length ar_shape)%nat →
  Testing._assert_iterable_shape (ar_shape ++ more) shape
  = Testing._assert_iterable_shape ar_shape shape.
Proof.
  revert shape. induction ar_shape as [|a ar IH]; intros [|given gs] Hlen.
  - cbn. destruct more; reflexivity.
  - cbn in Hlen. lia.
  - reflexivity.
  - cbn in Hlen. cbn.
    destruct given as [n|]; [destruct (decide _); [|reflexivity]|]; apply IH; lia.
Qed.

Lemma assert_iterable_shape_more_entries (ar_shape : list nat) (shape more : list (option Z)) :
  (length ar_shape <= length shape)%nat →
  Testing._assert_iterable_shape ar_shape (shape ++ more)
  = Testing._assert_iterable_shape ar_shape shape.
Proof.
  revert shape. induction ar_shape as [|a ar IH]; intros [|given gs] Hlen.
  - cbn. destruct more; reflexivity.
  - reflexivity.
  - cbn in Hlen. lia.
  - cbn in Hlen. cbn.
    destruct given as [n|]; [destruct (decide _); [|reflexivity]|]; apply IH; lia.
Qed.

(** X15. The two shape checks compare the array with the expected shape
    only at the axes that both have and only where the expected entry is
    an int: [_assert_iterable_shape] passes exactly when those axes have
    the expected lengths, [_assert_iterable_shape_max] exactly when their
    lengths do not exceed them.  Every array that passes the first check
    passes the second; further axes of the array and further entries of
    the expected shape change nothing. *)
Theorem shape_checks_compare_common_axes (ar_shape : list nat) (shape : list (option Z)) :
  (Testing._assert_iterable_shape ar_shape shape = inr tt ↔
   ∀ k a n, ar_shape !! k = Some a → shape !! k = Some (Some n) → Z.of_nat a = n) ∧
  (Testing._assert_iterable_shape_max ar_shape shape = inr tt ↔
   ∀ k a n, ar_shape !! k = Some a → shape !! k = Some (Some n) → Z.of_nat a <= n) ∧
  (Testing._assert_iterable_shape ar_shape shape = inr tt →
   Testing._assert_iterable_shape_max ar_shape shape = inr tt) ∧
  (∀ more_axes, (length shape <= length ar_shape)%nat →
     Testing._assert_iterable_shape (ar_shape ++ more_axes) shape
     = Testing._assert_iterable_shape ar_shape shape) ∧
  (∀ more_entries, (length ar_shape <= length shape)%nat →
     Testing._assert_iterable_shape ar_shape (shape ++ more_entries)
     = Testing._assert_iterable_shape ar_shape shape).
Proof.
  split; [apply assert_iterable_shape_spec|].
  split; [apply assert_iterable_shape_max_spec|]. split; [|split].
  - rewrite assert_iterable_shape_spec, assert_iterable_shape_max_spec.
    intros H k a n Ha Hn. rewrite (H k a n Ha Hn). lia.
  - intros more. apply assert_iterable_shape_more_axes.
  - intros more. apply assert_iterable_shape_more_entries.
Qed.

Section ElementChecks.

Context {Obj Dtypes : Type}.
Context (isinstance : Obj -> Dtypes -> bool).
Context (repr : Dtypes -> string).

Abbreviation check_elements := (Testing._assert_iterable_element_dtypes isinstance repr).

(** Induction on the depth of nesting. *)
Lemma value_induction (P : @Testing.value Obj → Prop) :
  (∀ o, P (Testing.Atom o)) →
  (∀ items, Forall P items → P (Testing.Iter items)) →
  ∀ v, P v.
Proof.
  intros Hatom Hiter.
  fix IH 1. intros [o|items]; [apply Hatom|]. apply Hiter.
  induction items as [|x r IHr]; constructor; [apply IH | exact IHr].
Qed.

(** X16. [_assert_iterable_element_dtypes] passes exactly when every
    object found at a leaf of the nested iterable (a string counts as a
    leaf) is an instance of the given types; an iterable without leaves,
    such as an empty list, passes for every tuple of types. *)
Theorem element_check_passes_iff_leaves_pass (v : @Testing.value Obj) (dtypes : Dtypes) :
  (check_elements v dtypes = inr tt ↔
   Forall (fun o => isinstance o dtypes = true) (Testing.atoms v)) ∧
  (check_elements v dtypes ≠ inr tt →
   check_elements v dtypes
   = inl (Py.AssertionError ("array is none of the types " ++ repr dtypes)%string)) ∧
  (Testing.atoms v = [] → check_elements v dtypes = inr tt).
Proof.
  assert (Hspec : ∀ v : @Testing.value Obj,
            (check_elements v dtypes = inr tt ∧
             Forall (fun o => isinstance o dtypes = true) (Testing.atoms v)) ∨
            (check_elements v dtypes
             = inl (Py.AssertionError ("array is none of the types " ++ repr dtypes)%string) ∧
             ¬ Forall (fun o => isinstance o dtypes = true) (Testing.atoms v))).
  { clear v. apply value_induction.
    - intros o. cbn. destruct (isinstance o dtypes) eqn:Ho.
      + left. split; [reflexivity|]. constructor; [exact Ho | constructor].
      + right. split; [reflexivity|]. intros H. inversion H. congruence.
    - intros items Hitems. cbn [Testing._assert_iterable_element_dtypes Testing.atoms].
      induction Hitems as [|x r Hx Hr IH].
      + left. split; [reflexivity | constructor].
      + cbn [map concat]. destruct Hx as [[Hok Hall] | [Herr Hnot]].
        * rewrite Hok. cbn [Py.bind]. destruct IH as [[Hok' Hall'] | [Herr' Hnot']].
          -- left. split; [exact Hok' | apply Forall_app; split; assumption].
          -- right. split; [exact Herr'|]. intros H. apply Forall_app in H as [_ H].
             exact (Hnot' H).
        * rewrite Herr. cbn [Py.bind]. right. split; [reflexivity|].
          intros H. apply Forall_app in H as [H _]. exact (Hnot H). }
  destruct (Hspec v) as [[Hok Hall] | [Herr Hnot]].
  - rewrite Hok. split; [split; auto|]. split; [congruence | reflexivity].
  - rewrite Herr. split; [split; [discriminate | intros H; contradiction]|].
    split; [reflexivity|]. intros Hnil. exfalso. apply Hnot. rewrite Hnil. constructor.
Qed.

End ElementChecks.

(** ** get_dynamic_table_property *)

Lemma list_index_NoDup (l : list Z) (i : nat) (x : Z) :
  NoDup l → l !! i = Some x → DynamicTable.list_index x l = Some i.
Proof.
  intros Hnd Hi.
  destruct (list_index_elem x l) as [j Hj]; [eapply list_elem_of_lookup_2; exact Hi|].
  rewrite Hj. f_equal. apply list_index_Some in Hj.
  exact (NoDup_lookup _ _ _ _ Hnd Hj Hi).
Qed.

Section TableReading.

Context {V : Type}.

(** The comprehension returns the cells found for the requested ids. *)
Lemma cells_found (tbl : @DynamicTable.t V) (ids : list Z) (property_name : string)
    (data : list V) (row_ids : list Z) (found : list V) :
  DynamicTable.columns tbl !! property_name = Some data →
  Forall2 (fun r v => ∃ p, DynamicTable.list_index r ids = Some p ∧ data !! p = Some v)
    row_ids found →
  DynamicTable.cells tbl ids property_name row_ids = inr found.
Proof.
  intros Hcol H. induction H as [|r v rs vs (p & Hp & Hv) _ IH]; [reflexivity|].
  cbn. rewrite Hcol, Hp, Hv, IH. reflexivity.
Qed.

Lemma set_dynamic_table_property_id (tbl : @DynamicTable.t V) row_ids property_name values
    index default_value :
  DynamicTable.id
    (DynamicTable.set_dynamic_table_property tbl row_ids property_name values index
       default_value).1
  = DynamicTable.id tbl.
Proof.
  unfold DynamicTable.set_dynamic_table_property.
  destruct (existsb _ row_ids); [reflexivity|].
  destruct (negb (Nat.eqb _ _) && negb index)%bool; [reflexivity|].
  destruct (negb index).
  - destruct (DynamicTable.columns tbl !! property_name) as [data|].
    + destruct (DynamicTable.assign _ data _) as [data' err]. reflexivity.
    + destruct (DynamicTable.assign _ _ _) as [data' [e|]]; reflexivity.
  - destruct (DynamicTable.columns tbl !! property_name); reflexivity.
Qed.

(** X17. Writing a property and reading it back: on a table with
    distinct ids, for distinct known row ids and as many values,
    [set_dynamic_table_property] returns, and
    [get_dynamic_table_property] for the same row ids then returns the
    values that were given, in their order, whether the column existed
    before or not. *)
Theorem set_then_get_dynamic_table_property
    (tbl : @DynamicTable.t V) (row_ids : list Z) (property_name : string)
    (values : list V) (default_value : V) :
  NoDup (DynamicTable.id tbl) → NoDup row_ids →
  (∀ r, r ∈ row_ids → r ∈ DynamicTable.id tbl) →
  length row_ids = length values →
  (∀ data, DynamicTable.columns tbl !! property_name = Some data →
           length data = length (DynamicTable.id tbl)) →
  let after := DynamicTable.set_dynamic_table_property tbl row_ids property_name values
                 false default_value in
  after.2 = inr tt ∧
  DynamicTable.get_dynamic_table_property after.1 (Some row_ids) property_name = inr values.
Proof.
  intros Hnd Hndr Hknown Hlen Hwf after.
  assert (Hcheck : existsb (fun i => negb (bool_decide (i ∈ DynamicTable.id tbl))) row_ids
                   = false).
  { apply not_true_is_false. intros (r0 & Hr & Hb)%existsb_exists.
    apply negb_true_iff, bool_decide_eq_false in Hb. apply Hb, Hknown.
    apply list_elem_of_In. exact Hr. }
  assert (Hfst : (zip row_ids values).*1 = row_ids) by (apply fst_zip; lia).
  set (start := match DynamicTable.columns tbl !! property_name with
                | Some data => data
                | None => replicate (length (DynamicTable.id tbl)) default_value
                end).
  assert (Hstart : length start = length (DynamicTable.id tbl)).
  { subst start. destruct (DynamicTable.columns tbl !! property_name) as [data|] eqn:Hcol;
      [exact (Hwf data eq_refl) | apply length_replicate]. }
  destruct (assign_frame (DynamicTable.id tbl) (zip row_ids values) start)
    as (data' & Hrun & _ & _); [rewrite Hfst; exact Hknown | exact Hstart |].
  assert (Hafter : after = (DynamicTable.add_column property_name data' tbl, inr tt)).
  { subst after start. unfold DynamicTable.set_dynamic_table_property.
    rewrite Hcheck, Hlen, Nat.eqb_refl. cbn [negb andb].
    destruct (DynamicTable.columns tbl !! property_name) as [data|]; rewrite Hrun; reflexivity. }
  rewrite Hafter. cbn [fst snd]. split; [reflexivity|].
  unfold DynamicTable.get_dynamic_table_property. cbn [default DynamicTable.id
    DynamicTable.add_column].
  apply (cells_found _ _ _ data'); [cbn; apply lookup_insert_eq|].
  apply Forall2_same_length_lookup_2; [exact Hlen|].
  intros k r v Hr Hv.
  destruct (list_index_elem r (DynamicTable.id tbl)) as [p Hp];
    [apply Hknown; eapply list_elem_of_lookup_2; exact Hr|].
  exists p. split; [exact Hp|].
  pose proof (assign_updates (DynamicTable.id tbl) (zip row_ids values) start Hnd
                ltac:(rewrite Hfst; exact Hndr) ltac:(rewrite Hfst; exact Hknown) Hstart
                p r v (list_index_Some _ _ _ Hp)) as Hup.
  rewrite Hrun in Hup. apply Hup.
  apply list_elem_of_lookup. exists k. apply lookup_zip_with_Some.
  exists r, v. repeat split; assumption.
Qed.

(** X18. Without row ids, [get_dynamic_table_property] returns the whole
    column in the order of the rows, on a table with distinct ids whose
    column has one cell for every row. *)
Theorem get_dynamic_table_property_whole_column
    (tbl : @DynamicTable.t V) (property_name : string) (data : list V) :
  NoDup (DynamicTable.id tbl) →
  DynamicTable.columns tbl !! property_name = Some data →
  length data = length (DynamicTable.id tbl) →
  DynamicTable.get_dynamic_table_property tbl None property_name = inr data.
Proof.
  intros Hnd Hcol Hlen. unfold DynamicTable.get_dynamic_table_property. cbn [default].
  apply (cells_found _ _ _ data); [exact Hcol|].
  apply Forall2_same_length_lookup_2; [symmetry; exact Hlen|].
  intros i r v Hr Hv. exists i. split; [apply list_index_NoDup; assumption | exact Hv].
Qed.

(** X19. What [get_dynamic_table_property] raises: a row id that is not
    in the table, requested after ids that are, gives the ValueError of
    [list.index] that names it; a column that does not exist gives
    KeyError as soon as one row is requested, and nothing when no row is
    requested. *)
Theorem get_dynamic_table_property_errors
    (tbl : @DynamicTable.t V) (property_name : string) :
  (∀ data before x after,
     DynamicTable.columns tbl !! property_name = Some data →
     length data = length (DynamicTable.id tbl) →
     (∀ r, r ∈ before → r ∈ DynamicTable.id tbl) → x ∉ DynamicTable.id tbl →
     DynamicTable.get_dynamic_table_property tbl (Some (before ++ x :: after)) property_name
     = inl (Py.ValueError (pretty x ++ " is not in list")%string)) ∧
  (∀ x rest,
     DynamicTable.columns tbl !! property_name = None →
     DynamicTable.get_dynamic_table_property tbl (Some (x :: rest)) property_name
     = inl (Py.KeyError property_name)) ∧
  DynamicTable.get_dynamic_table_property tbl (Some []) property_name = inr [].
Proof.
  split; [|split].
  - intros data before x after Hcol Hlen Hknown Hx.
    unfold DynamicTable.get_dynamic_table_property.
    change (default (DynamicTable.id tbl) (Some (before ++ x :: after)))
      with (before ++ x :: after).
    induction before as [|r before IH]; cbn [app DynamicTable.cells].
    + rewrite Hcol.
      destruct (DynamicTable.list_index x (DynamicTable.id tbl)) as [i|] eqn:Hi; [|reflexivity].
      exfalso. apply Hx. eapply list_elem_of_lookup_2, list_index_Some. exact Hi.
    + rewrite Hcol.
      destruct (list_index_elem r (DynamicTable.id tbl)) as [p Hp]; [apply Hknown; left|].
      rewrite Hp.
      destruct (lookup_lt_is_Some_2 data p) as [cell Hcell].
      { rewrite Hlen. eapply lookup_lt_Some, list_index_Some. exact Hp. }
      rewrite Hcell, IH; [reflexivity|]. intros r' Hr'. apply Hknown. right. exact Hr'.
  - intros x rest Hcol. unfold DynamicTable.get_dynamic_table_property. cbn. rewrite Hcol.
    reflexivity.
  - reflexivity.
Qed.

End TableReading.

Lemma set_then_get_dynamic_table_property_witness :
  let tbl : @DynamicTable.t Z := DynamicTable.mk [10; 20; 30] {[ "score" := [1; 2; 3] ]} in
  let after := DynamicTable.set_dynamic_table_property tbl [30; 10] "score" [7; 8] false 0 in
  after.2 = inr tt ∧
  DynamicTable.get_dynamic_table_property after.1 (Some [30; 10]) "score" = inr [7; 8].
Proof.
  intros tbl.
  refine (set_then_get_dynamic_table_property tbl [30; 10] "score" [7; 8] 0 _ _ _ _ _).
  - compute_done.
  - compute_done.
  - intros r Hr. repeat (apply elem_of_cons in Hr as [-> | Hr]; [compute_done|]). inversion Hr.
  - reflexivity.
  - intros data Hd. unfold tbl in Hd. cbn in Hd. rewrite lookup_singleton_eq in Hd.
    injection Hd as <-. reflexivity.
Defined.

Lemma get_dynamic_table_property_whole_column_witness :
  DynamicTable.get_dynamic_table_property
    (DynamicTable.mk [10; 20; 30] {[ "score" := [1; 2; 3] ]}) None "score"
  = inr [1; 2; 3].
Proof.
  refine (get_dynamic_table_property_whole_column
            (DynamicTable.mk [10; 20; 30] {[ "score" := [1; 2; 3] ]}) "score" [1; 2; 3] _ _ _).
  - compute_done.
  - apply lookup_singleton_eq.
  - reflexivity.
Defined.

(** ** The constructor of NwbSegmentationExtractor: processing modules and channels *)

(** With [mod] still the dictionary of modules, 'Fluorescence' is looked
    up among the names of the modules, and a module is no Fluorescence
    interface: it has no method [get_roi_response_series]. *)
Lemma get_roi_response_series_all_modules (f : NWB.file) (series_name : string) :
  (∃ key, NwbSegmentationExtractor.get_roi_response_series f
            NwbSegmentationExtractor.AllModules series_name = inl (Py.KeyError key)) ∨
  NwbSegmentationExtractor.get_roi_response_series f
    NwbSegmentationExtractor.AllModules series_name
  = inl (Py.AttributeError "get_roi_response_series").
Proof.
  unfold NwbSegmentationExtractor.get_roi_response_series,
    NwbSegmentationExtractor.mod_getitem, NWB.module_named.
  destruct (list_find _ f) as [[i nd]|] eqn:Hfind; [|left; eexists; reflexivity].
  apply list_find_Some in Hfind as (Hi & [Hty _] & _).
  cbn [fmap option_fmap option_map fst Py.bind Py.ok]. rewrite Hi. cbn.
  right. destruct (NWB.content nd); try reflexivity. discriminate Hty.
Qed.


Lemma channel_names_loop_length (f : NWB.file) (planes : list nat) :
  ∀ l, NwbSegmentationExtractor.channel_names_loop f planes = inr l →
       length l = length planes.
Proof.
  induction planes as [|i r IH]; intros l; cbn; [intros [= <-]; reflexivity|].
  destruct (NwbSegmentationExtractor.optical_channel_names_of f i); [discriminate|].
  cbn [Py.bind].
  destruct (NwbSegmentationExtractor.channel_names_loop f r) as [|rest]; [discriminate|].
  cbn. intros [= <-]. cbn. f_equal. apply IH. reflexivity.
Qed.

(** X21. The statements on the imaging plane give [channel_names] one
    list of names for every node of type ImagingPlane, and None when the
    file has none; [get_num_channels] is the length of [channel_names].
    So on an instance whose [channel_names] is what these statements give
    for a file, [get_num_channels] is the number of imaging planes of the
    file, and a TypeError when the file has none. *)
Theorem get_num_channels_counts_imaging_planes (f : NWB.file)
    (self : NwbSegmentationExtractor.t) :
  NwbSegmentationExtractor.read_channel_names f
  = inr (NwbSegmentationExtractor.channel_names self) →
  NwbSegmentationExtractor.get_num_channels self
  = match NWB.positions "ImagingPlane" (NWB.children_type f) with
    | [] => inl (Py.TypeError "object of type 'NoneType' has no len()")
    | planes => inr (length planes)
    end.
Proof.
  unfold NwbSegmentationExtractor.read_channel_names,
    NwbSegmentationExtractor.get_num_channels.
  destruct (NWB.positions "ImagingPlane" (NWB.children_type f)) as [|p planes] eqn:Hp.
  - intros [= <-]. reflexivity.
  - destruct (NwbSegmentationExtractor.channel_names_loop f (p :: planes)) as [?|l] eqn:Hl;
      [discriminate|].
    cbn [Py.bind Py.ok]. intros [= <-].
    rewrite (channel_names_loop_length _ _ _ Hl). reflexivity.
Qed.

(** On a file with one imaging plane of two optical channels. *)
Lemma get_num_channels_counts_imaging_planes_witness :
  let self := NwbSegmentationExtractor.mk "f.nwb" [] [] (NwbSegmentationExtractor.PixelRows [])
                (0, 0)%nat 0 [] [] [] None 0%Q [] (Some [["green"; "red"]]) None None in
  NwbSegmentationExtractor.read_channel_names Examples.file_with_two_channels
  = inr (NwbSegmentationExtractor.channel_names self) ∧
  NwbSegmentationExtractor.get_num_channels self = inr 1%nat.
Proof.
  intros self. split; [reflexivity|].
  exact (get_num_channels_counts_imaging_planes Examples.file_with_two_channels self eq_refl).
Defined.

(** ** The accessors of NwbSegmentationExtractor without a request *)

Lemma map_seq_id {A} (g : nat → A) (l : list A) :
  (∀ i x, l !! i = Some x → g i = x) → map g (seq 0 (length l)) = l.
Proof.
  intros Hg. apply list_eq. intros i. rewrite list_lookup_fmap.
  destruct (decide (i < length l)%nat) as [Hi|Hi].
  - rewrite lookup_seq_lt by exact Hi. cbn.
    destruct (lookup_lt_is_Some_2 l i Hi) as [x Hx]. rewrite Hx. f_equal. exact (Hg i x Hx).
  - rewrite lookup_seq_ge by lia. cbn. symmetry. apply lookup_ge_None. lia.
Qed.

Lemma mapM_lookup_all {A} (l : list A) :
  mapM (fun i => l !! i) (seq 0 (length l)) = Some l.
Proof.
  apply mapM_Some_2. apply Forall2_same_length_lookup_2; [apply length_seq|].
  intros i j x Hj Hx.
  rewrite lookup_seq_lt in Hj by (eapply lookup_lt_Some; exact Hx).
  injection Hj as <-. exact Hx.
Qed.

Lemma mapM_same {A} (g : A → option A) (l : list A) :
  (∀ x, x ∈ l → g x = Some x) → mapM g l = Some l.
Proof.
  intros Hg. apply mapM_Some_2. apply Forall2_same_length_lookup_2; [reflexivity|].
  intros i x y Hx Hy. rewrite Hx in Hy. injection Hy as <-.
  apply Hg. eapply list_elem_of_lookup_2. exact Hx.
Qed.

(** What [rectangular3] says of the planes and lines of an array. *)
Lemma rectangular3_inv {A} (a : Np.array3 A) :
  Np.rectangular3 a = true →
  ∀ plane, plane ∈ a →
    length plane = (Np.shape3 a).1.2 ∧
    ∀ line, line ∈ plane → length line = (Np.shape3 a).2.
Proof.
  unfold Np.rectangular3.
  destruct (Np.shape3 a) as [[d0 d1] d2] eqn:Hs. cbn [fst snd].
  intros Hall plane Hplane.
  rewrite forallb_forall in Hall. specialize (Hall plane).
  rewrite <- list_elem_of_In in Hall. specialize (Hall Hplane).
  apply andb_true_iff in Hall as [H1 H2]. apply Nat.eqb_eq in H1.
  split; [exact H1|]. intros line Hline.
  rewrite forallb_forall in H2. specialize (H2 line).
  rewrite <- list_elem_of_In in H2. apply Nat.eqb_eq. exact (H2 Hline).
Qed.

Lemma flat_F_entry (r c : nat) (a : Np.array3 Q) (y x z : nat) :
  (Np.shape3 a).1 = (r, c) → (y < r)%nat → (x < c)%nat →
  Np.flat_F a (y + r * (x + c * z))%nat = (plane ← a !! y; line ← plane !! x; line !! z).
Proof.
  intros Hs Hy Hx. unfold Np.flat_F.
  destruct (Np.shape3 a) as [[d0 d1] d2]. cbn in Hs. injection Hs as -> ->.
  assert (H1 : ((y + r * (x + c * z)) mod r = y)%nat).
  { rewrite (Nat.mul_comm r), Nat.Div0.mod_add. apply Nat.mod_small. exact Hy. }
  assert (H2 : ((y + r * (x + c * z)) / r = x + c * z)%nat).
  { rewrite (Nat.mul_comm r), Nat.div_add by lia. rewrite Nat.div_small by exact Hy. lia. }
  assert (H3 : ((x + c * z) mod c = x)%nat).
  { rewrite (Nat.mul_comm c), Nat.Div0.mod_add. apply Nat.mod_small. exact Hx. }
  assert (H4 : ((y + r * (x + c * z)) / (r * c) = z)%nat).
  { rewrite <- Nat.Div0.div_div, H2.
    rewrite (Nat.mul_comm c), Nat.div_add by lia. rewrite Nat.div_small by exact Hx. lia. }
  rewrite H1, H2, H3, H4. reflexivity.
Qed.

(** Reshaping an array to its own shape returns it. *)
Lemma reshape3_F_same (a : Np.array3 Q) :
  Np.rectangular3 a = true →
  Np.reshape3_F (Np.shape3 a).1.1 (Np.shape3 a).1.2 (Np.shape3 a).2 a = inr a.
Proof.
  intros Hrect. pose proof (rectangular3_inv a Hrect) as Hinv.
  unfold Np.reshape3_F.
  destruct (Np.shape3 a) as [[d0 d1] d2] eqn:Hs. cbn [fst snd] in *.
  rewrite Nat.eqb_refl. cbn [negb]. unfold Py.ok. f_equal.
  assert (Hd0 : d0 = length a) by (unfold Np.shape3 in Hs; injection Hs as <- _ _; reflexivity).
  replace (seq 0 d0) with (seq 0 (length a)) by (rewrite Hd0; reflexivity).
  apply map_seq_id. intros y plane Hplane.
  destruct (Hinv plane) as [Hlen Hlines]; [eapply list_elem_of_lookup_2; exact Hplane|].
  replace (seq 0 d1) with (seq 0 (length plane)) by (rewrite Hlen; reflexivity).
  apply map_seq_id. intros x line Hline.
  replace (seq 0 d2) with (seq 0 (length line))
    by (rewrite (Hlines line) by (eapply list_elem_of_lookup_2; exact Hline); reflexivity).
  apply map_seq_id. intros z w Hw.
  rewrite (flat_F_entry d0 d1).
  - rewrite Hplane. cbn. rewrite Hline. cbn. rewrite Hw. reflexivity.
  - rewrite Hs. reflexivity.
  - rewrite Hd0. eapply lookup_lt_Some. exact Hplane.
  - rewrite <- Hlen. eapply lookup_lt_Some. exact Hline.
Qed.

Lemma last_axis_take_all (a : Np.array3 Q) :
  Np.rectangular3 a = true →
  Np.last_axis_take (seq 0 (Np.shape3 a).2) a = Some a.
Proof.
  intros Hrect. pose proof (rectangular3_inv a Hrect) as Hinv.
  unfold Np.last_axis_take. apply mapM_same. intros plane Hplane.
  apply mapM_same. intros line Hline.
  rewrite <- (proj2 (Hinv plane Hplane) line Hline). apply mapM_lookup_all.
Qed.

(** X22. [get_image_masks()] without a request returns the stored masks
    unchanged, on an instance whose [extimage_dims] are the first two
    axes of [raw_images] and whose number of ROIs is the third (as the
    constructor leaves them when the table has one id for every mask). *)
Theorem get_image_masks_returns_raw_images (self : NwbSegmentationExtractor.t) :
  Np.rectangular3 (NwbSegmentationExtractor.raw_images self) = true →
  NwbSegmentationExtractor.extimage_dims self
    = (Np.shape3 (NwbSegmentationExtractor.raw_images self)).1 →
  NwbSegmentationExtractor.no_rois self
    = (Np.shape3 (NwbSegmentationExtractor.raw_images self)).2 →
  NwbSegmentationExtractor.get_image_masks self None
  = inr (NwbSegmentationExtractor.raw_images self).
Proof.
  intros Hrect Hdims Hrois. unfold NwbSegmentationExtractor.get_image_masks,
    NwbSegmentationExtractor.get_num_rois, NwbSegmentationExtractor.range.
  rewrite Hdims, Hrois, (reshape3_F_same _ Hrect). cbn [Py.bind].
  rewrite (last_axis_take_all _ Hrect). reflexivity.
Qed.

Lemma get_image_masks_returns_raw_images_witness :
  NwbSegmentationExtractor.get_image_masks Examples.two_rois None
  = inr [ [[1%Q; 0%Q]; [0%Q; 1%Q]] ].
Proof.
  exact (get_image_masks_returns_raw_images Examples.two_rois eq_refl eq_refl eq_refl).
Defined.

Lemma mapM_lookup_take {A} (l : list A) (k : nat) :
  (k <= length l)%nat → mapM (fun i => l !! i) (seq 0 k) = Some (take k l).
Proof.
  intros Hk. apply mapM_Some_2. apply Forall2_same_length_lookup_2.
  - rewrite length_seq, length_take. lia.
  - intros i j x Hj Hx. apply lookup_seq in Hj as [-> Hi]. cbn.
    rewrite lookup_take_lt in Hx by exact Hi. exact Hx.
Qed.

(** X23. [get_traces()] without arguments returns the responses of the
    first [no_rois] rows of [roi_response], each row complete, when every
    row has the length of the first; with fewer rows than ROIs it raises
    IndexError. *)
Theorem get_traces_without_arguments (self : NwbSegmentationExtractor.t) :
  ((NwbSegmentationExtractor.no_rois self
      <= length (NwbSegmentationExtractor.roi_response self))%nat →
   (∀ row, row ∈ NwbSegmentationExtractor.roi_response self →
           length row = NwbSegmentationExtractor.get_num_frames self) →
   NwbSegmentationExtractor.get_traces self None None None
   = inr (take (NwbSegmentationExtractor.no_rois self)
            (NwbSegmentationExtractor.roi_response self))) ∧
  ((length (NwbSegmentationExtractor.roi_response self)
      < NwbSegmentationExtractor.no_rois self)%nat →
   NwbSegmentationExtractor.get_traces self None None None
   = inl (Py.IndexError "index is out of bounds for axis 0")).
Proof.
  unfold NwbSegmentationExtractor.get_traces, NwbSegmentationExtractor.take_positions,
    NwbSegmentationExtractor.get_num_rois, NwbSegmentationExtractor.range.
  cbn [default]. split.
  - intros Hrows Hrect. rewrite (mapM_lookup_take _ _ Hrows). cbn [Py.bind Py.ok].
    f_equal. rewrite <- (list_fmap_id (take _ _)) at 2.
    apply list_fmap_ext. intros k row Hrow.
    unfold NwbSegmentationExtractor.slice, id. rewrite drop_0. apply take_ge.
    rewrite (Hrect row); [lia|].
    apply lookup_take_Some in Hrow as [Hrow _]. eapply list_elem_of_lookup_2. exact Hrow.
  - intros Hfew.
    destruct (mapM _ _) as [rows|] eqn:Hm; [|reflexivity]. exfalso.
    apply mapM_Some_1 in Hm.
    destruct (Forall2_lookup_l _ _ _ _ _ Hm
                (lookup_seq_lt 0 _ (length (NwbSegmentationExtractor.roi_response self)) Hfew))
      as (row & _ & Hrow).
    cbn in Hrow. apply lookup_lt_Some in Hrow. lia.
Qed.

(** ** ROI locations lie inside the image *)

(** The truncated median of integers between two bounds lies between
    them. *)
Lemma median_to_int_bounds (l : list Z) (lo hi : Z) (q : Q) :
  0 <= lo → (∀ x, x ∈ l → lo <= x <= hi) → Np.median l = Some q →
  lo <= Np.to_int q <= hi.
Proof.
  intros Hlo Hall. unfold Np.median.
  assert (Hs : ∀ k x, merge_sort Z.le l !! k = Some x → lo <= x <= hi).
  { intros k x Hk. apply Hall. rewrite <- (merge_sort_Permutation Z.le l).
    eapply list_elem_of_lookup_2. exact Hk. }
  set (s := merge_sort Z.le l) in *.
  destruct (Nat.eqb (length s) 0); [discriminate|].
  destruct (Nat.odd (length s)).
  - destruct (s !! (length s / 2)%nat) as [x|] eqn:Hx; [|discriminate].
    cbn. intros [= <-]. unfold Np.to_int. cbn. rewrite Z.quot_1_r. exact (Hs _ _ Hx).
  - destruct (s !! (length s / 2 - 1)%nat) as [a|] eqn:Ha; [|discriminate].
    destruct (s !! (length s / 2)%nat) as [b|] eqn:Hb; [|discriminate].
    intros [= <-]. pose proof (Hs _ _ Ha). pose proof (Hs _ _ Hb).
    unfold Np.to_int. cbn.
    replace ((a * 1 + b * 1) * 1) with (a + b) by lia.
    rewrite Z.quot_div_nonneg by lia. split.
    + apply Z.div_le_lower_bound; lia.
    + apply Z.div_le_upper_bound; lia.
Qed.

(** The mask of one ROI has the rows and columns of the image. *)
Lemma last_axis_at_shape (raw : Np.array3 Q) (i : nat) (mask : Np.array2 Q) :
  Np.rectangular3 raw = true → Np.last_axis_at i raw = Some mask →
  ∀ r c w, Np.entry2 mask r c = Some w →
    (r < (Np.shape3 raw).1.1)%nat ∧ (c < (Np.shape3 raw).1.2)%nat.
Proof.
  intros Hrect Hmask r c w Hw. unfold Np.last_axis_at in Hmask.
  apply mapM_Some_1 in Hmask. unfold Np.entry2 in Hw.
  destruct (mask !! r) as [row|] eqn:Hrow; [|discriminate]. cbn in Hw.
  destruct (Forall2_lookup_r _ _ _ _ _ Hmask Hrow) as (plane & Hplane & Hsel).
  split.
  - assert (Hd0 : (Np.shape3 raw).1.1 = length raw) by (destruct raw; reflexivity).
    rewrite Hd0. eapply lookup_lt_Some. exact Hplane.
  - destruct (rectangular3_inv raw Hrect plane) as [Hlen _];
      [eapply list_elem_of_lookup_2; exact Hplane|].
    rewrite <- Hlen, (length_mapM _ _ _ Hsel). eapply lookup_lt_Some. exact Hw.
Qed.

Lemma roi_loc_inside (raw : Np.array3 Q) (i : nat) (loc : Z * Z) :
  Np.rectangular3 raw = true → NwbSegmentationExtractor.roi_loc raw i = inr loc →
  0 <= loc.1 < Z.of_nat (Np.shape3 raw).1.1 ∧ 0 <= loc.2 < Z.of_nat (Np.shape3 raw).1.2.
Proof.
  intros Hrect. unfold NwbSegmentationExtractor.roi_loc.
  destruct (Np.last_axis_at i raw) as [mask|] eqn:Hmask; [|discriminate].
  destruct (Np.amax mask) as [e|top]; [discriminate|]. cbn [Py.bind].
  set (temp := Np.where_eq2 top mask).
  assert (Htemp : ∀ r c, (r, c) ∈ temp →
            (r < (Np.shape3 raw).1.1)%nat ∧ (c < (Np.shape3 raw).1.2)%nat).
  { intros r c Hrc. subst temp. unfold Np.where_eq2 in Hrc.
    apply elem_of_where_from2 in Hrc as (k & w & -> & Hw & _).
    exact (last_axis_at_shape raw i mask Hrect Hmask k c w Hw). }
  destruct (Np.median (Z.of_nat <$> temp.*1)) as [mr|] eqn:Hr; [|discriminate].
  destruct (Np.median (Z.of_nat <$> temp.*2)) as [mc|] eqn:Hc; [|discriminate].
  intros [= <-]. cbn [fst snd]. split.
  - enough (0 <= Np.to_int mr <= Z.of_nat (Np.shape3 raw).1.1 - 1) by lia.
    apply (median_to_int_bounds _ 0 (Z.of_nat (Np.shape3 raw).1.1 - 1) _ ltac:(lia)) in Hr;
      [exact Hr|].
    intros x (r & -> & (rc & -> & Hrc)%list_elem_of_fmap)%list_elem_of_fmap.
    destruct rc as [r c]. destruct (Htemp r c Hrc). cbn [fst snd]. lia.
  - enough (0 <= Np.to_int mc <= Z.of_nat (Np.shape3 raw).1.2 - 1) by lia.
    apply (median_to_int_bounds _ 0 (Z.of_nat (Np.shape3 raw).1.2 - 1) _ ltac:(lia)) in Hc;
      [exact Hc|].
    intros x (c & -> & (rc & -> & Hrc)%list_elem_of_fmap)%list_elem_of_fmap.
    destruct rc as [r c]. destruct (Htemp r c Hrc). cbn [fst snd]. lia.
Qed.

Lemma roi_locs_loop_each (raw : Np.array3 Q) (l : list nat) :
  ∀ locs, NwbSegmentationExtractor.roi_locs_loop raw l = inr locs →
          Forall2 (fun i loc => NwbSegmentationExtractor.roi_loc raw i = inr loc) l locs.
Proof.
  induction l as [|j r IH]; intros locs; cbn [NwbSegmentationExtractor.roi_locs_loop].
  - intros [= <-]. constructor.
  - destruct (NwbSegmentationExtractor.roi_loc raw j) as [e|loc] eqn:Hloc; [discriminate|].
    destruct (NwbSegmentationExtractor.roi_locs_loop raw r) as [e|rest]; [discriminate|].
    cbn. intros [= <-]. constructor; [exact Hloc | apply IH; reflexivity].
Qed.

(** X24. Every location that [get_roi_locations] returns lies inside the
    image: its row is a row index and its column a column index of the
    masks.  Without a request there is one location for every ROI. *)
Theorem roi_locations_inside_image (self : NwbSegmentationExtractor.t) :
  Np.rectangular3 (NwbSegmentationExtractor.raw_images self) = true →
  let rows := (Np.shape3 (NwbSegmentationExtractor.raw_images self)).1.1 in
  let columns := (Np.shape3 (NwbSegmentationExtractor.raw_images self)).1.2 in
  (∀ locs, NwbSegmentationExtractor.get_roi_locations self None = inr locs →
     length locs = NwbSegmentationExtractor.no_rois self) ∧
  (∀ ROI_ids locs loc,
     NwbSegmentationExtractor.get_roi_locations self ROI_ids = inr locs → loc ∈ locs →
     0 <= loc.1 < Z.of_nat rows ∧ 0 <= loc.2 < Z.of_nat columns).
Proof.
  intros Hrect rows columns.
  assert (Hall : ∀ locs, NwbSegmentationExtractor.roi_locs self = inr locs →
            length locs = NwbSegmentationExtractor.no_rois self ∧
            ∀ loc, loc ∈ locs →
              0 <= loc.1 < Z.of_nat rows ∧ 0 <= loc.2 < Z.of_nat columns).
  { intros locs Hlocs. unfold NwbSegmentationExtractor.roi_locs in Hlocs.
    apply roi_locs_loop_each in Hlocs. split.
    - rewrite <- (Forall2_length _ _ _ Hlocs). apply length_seq.
    - intros loc (k & Hk)%list_elem_of_lookup.
      destruct (Forall2_lookup_r _ _ _ _ _ Hlocs Hk) as (i & _ & Hloc).
      exact (roi_loc_inside _ i loc Hrect Hloc). }
  split.
  - intros locs Hlocs. exact (proj1 (Hall locs Hlocs)).
  - intros [ids|] locs loc; cbn [NwbSegmentationExtractor.get_roi_locations].
    + destruct (NwbSegmentationExtractor.roi_locs self) as [e|all] eqn:Hlocs; [discriminate|].
      cbn [Py.bind]. unfold NwbSegmentationExtractor.take_positions.
      destruct (mapM _ _) as [picked|] eqn:Hm; [|discriminate].
      intros [= <-] (k & Hk)%list_elem_of_lookup. apply mapM_Some_1 in Hm.
      destruct (Forall2_lookup_r _ _ _ _ _ Hm Hk) as (p & _ & Hp).
      apply (proj2 (Hall all eq_refl)). eapply list_elem_of_lookup_2. exact Hp.
    + intros Hlocs. exact (proj2 (Hall locs Hlocs) loc).
Qed.

Lemma roi_locations_inside_image_witness :
  (∀ locs, NwbSegmentationExtractor.get_roi_locations Examples.tied_rows None = inr locs →
     length locs = NwbSegmentationExtractor.no_rois Examples.tied_rows) ∧
  (∀ ROI_ids locs loc,
     NwbSegmentationExtractor.get_roi_locations Examples.tied_rows ROI_ids = inr locs →
     loc ∈ locs →
     0 <= loc.1 < Z.of_nat 2 ∧ 0 <= loc.2 < Z.of_nat 1).
Proof. exact (roi_locations_inside_image Examples.tied_rows eq_refl). Defined.

(** ** write_nwb: appending to an existing file *)

Section Appending.

Import NwbSegmentationExtractor.

Lemma then_fails {A B} (m : run A) (k : A → run B) (s : frame) :
  (∀ a s1, ∃ e s', k a s1 = (inl e, s')) → ∃ e s', then_ m k s = (inl e, s').
Proof.
  intros Hk. unfold then_. destruct (m s) as [[e|a] s1]; [eexists _, _; reflexivity|].
  apply Hk.
Qed.

(** X25. Appending to a container that already holds a node with the
    name of the device: the device step evaluates [len(_device_exist > 1)]
    and raises TypeError; the file is left as it was. *)
Theorem write_nwb_existing_device (fs : gmap string NWB.disk_file)
    (seg : segmentation_extractor) (filename : string) (args : arguments) (f : NWB.file)
    (names : option (list string)) :
  PyPath.lower (PyPath.splitext_ext filename) = ".nwb" →
  WriteNwb.channel_names_argument seg args = inr names →
  fs !! filename = Some (NWB.Container f) →
  device_name args ∈ NWB.children_name f →
  WriteNwb.write_nwb fs seg filename args
  = (fs, inl (Py.TypeError "'>' not supported between instances of 'list' and 'int'")).
Proof.
  intros Hext Hnames Hfs Hdev. unfold WriteNwb.write_nwb.
  rewrite Hnames, Hfs. rewrite bool_decide_eq_true_2 by exact Hext. cbn [negb]. cbv zeta.
  assert (Hrun : ∃ s', WriteNwb.existing_file_branch args names (seg_movie_location seg)
                         (seg_sampling_frequency seg) (new_frame f)
                       = (inl (Py.TypeError
                                 "'>' not supported between instances of 'list' and 'int'"), s')).
  { unfold WriteNwb.existing_file_branch.
    erewrite then_ok by reflexivity.
    eexists. apply then_raises. unfold WriteNwb.device_step.
    erewrite then_ok by reflexivity.
    apply then_raises. cbn [nwbfile new_frame].
    destruct (NWB.positions (device_name args) (NWB.children_name f)) as [|i l] eqn:Hpos;
      [|reflexivity].
    exfalso. apply (positions_from_nil _ _ 0) in Hpos. exact (Hpos Hdev). }
  destruct Hrun as [s' Hrun]. rewrite (then_raises _ _ _ _ _ Hrun). reflexivity.
Qed.

Lemma write_nwb_existing_device_witness :
  WriteNwb.write_nwb {[ "f.nwb" := NWB.Container Examples.file_with_device ]}
    Examples.one_roi_segmentation "f.nwb" Examples.named_channel_arguments
  = ({[ "f.nwb" := NWB.Container Examples.file_with_device ]},
     inl (Py.TypeError "'>' not supported between instances of 'list' and 'int'")).
Proof.
  refine (write_nwb_existing_device _ Examples.one_roi_segmentation "f.nwb"
            Examples.named_channel_arguments Examples.file_with_device _ _ eq_refl _ _).
  - vm_compute. reflexivity.
  - apply lookup_singleton_eq.
  - right. left.
Defined.

Lemma after_branches_without_propertydict (seg : segmentation_extractor) (args : arguments)
    (rate : option Q) (s : frame) :
  propertydict args = None →
  WriteNwb.after_branches seg args rate s
  = (inl (Py.TypeError "object of type 'NoneType' has no len()"), s).
Proof.
  intros Hp. unfold WriteNwb.after_branches. apply then_raises.
  unfold WriteNwb.custom_columns. rewrite Hp. reflexivity.
Qed.

(** X26. The block that adds the custom columns runs when [propertydict]
    is empty or None and starts with [len(propertydict)]: with the default
    [propertydict = None] the call never returns, and a list of properties
    is never looked at: the call does the same for every list. *)
Theorem write_nwb_propertydict (fs : gmap string NWB.disk_file)
    (seg : segmentation_extractor) (filename : string) :
  (∀ args, propertydict args = None →
     ∃ e, (WriteNwb.write_nwb fs seg filename args).2 = inl e) ∧
  (∀ l l' start dev channel plane series module neuron background,
     WriteNwb.write_nwb fs seg filename
       (mkArguments (Some l) start dev channel plane series module neuron background)
     = WriteNwb.write_nwb fs seg filename
         (mkArguments (Some l') start dev channel plane series module neuron background)).
Proof.
  split.
  - intros args Hp. unfold WriteNwb.write_nwb.
    destruct (WriteNwb.channel_names_argument seg args) as [e|names]; [eexists; reflexivity|].
    destruct (negb _); [eexists; reflexivity|].
    destruct (fs !! filename) as [[|f]|]; [eexists; reflexivity| |]; cbv zeta.
    + destruct (then_fails
                  (WriteNwb.existing_file_branch args names (seg_movie_location seg)
                     (seg_sampling_frequency seg))
                  (fun _ => WriteNwb.after_branches seg args (seg_sampling_frequency seg))
                  (new_frame f)) as (e & s' & ->); [|eexists; reflexivity].
      intros a s1. eexists _, _. apply after_branches_without_propertydict. exact Hp.
    + destruct (then_fails
                  (WriteNwb.new_file_branch args (seg_movie_location seg)
                     (seg_sampling_frequency seg))
                  (fun _ => WriteNwb.after_branches seg args (seg_sampling_frequency seg))
                  (new_frame [])) as (e & s' & ->); [|eexists; reflexivity].
      intros a s1. eexists _, _. apply after_branches_without_propertydict. exact Hp.
  - intros l l' start dev channel plane series module neuron background.
    destruct l, l'; reflexivity.
Qed.

End Appending.

(** ** write_nwb: the traces *)

Section Traces.

Import NwbSegmentationExtractor.

Lemma expect_inv (method : string) (P : NWB.body → bool) (i : nat) (s s' : frame) :
  WriteNwb.expect method P i s = (inr tt, s') → s' = s.
Proof.
  unfold WriteNwb.expect. destruct (NWB.content <$> nwbfile s !! i) as [b|]; [|discriminate].
  destruct (P b); [|discriminate]. intros [= <-]. reflexivity.
Qed.

Lemma create_roi_response_series_inv (series_name : string) (data : Np.array2 Np.float)
    (rois : list nat) (start : Q) (rate : option Q) (s s' : frame) :
  WriteNwb.create_roi_response_series series_name data rois start rate s = (inr tt, s') →
  ∃ f, fl s = Some f ∧
       s' = set_nwbfile
              (nwbfile s ++ [NWB.mkNode series_name (Some f)
                               (NWB.RoiResponseSeries
                                  (NWB.mkRoiResponseSeries data rois start rate))]) s.
Proof.
  unfold WriteNwb.create_roi_response_series, then_, read_local.
  destruct (fl s) as [f|]; [|discriminate]. cbn [Py.local].
  destruct (WriteNwb.expect _ _ f s) as [[e|[]] s1] eqn:Hexp; [discriminate|].
  apply expect_inv in Hexp as ->.
  unfold WriteNwb.add_node, NWB.add, ret. intros [= <-]. exists f. split; reflexivity.
Qed.

Lemma create_roi_table_region_inv (region : list nat) (s s' : frame) (r : list nat) :
  WriteNwb.create_roi_table_region region s = (inr r, s') → r = region ∧ s' = s.
Proof.
  unfold WriteNwb.create_roi_table_region, then_, read_local, get.
  destruct (ps s) as [p|]; [|discriminate]. cbn [Py.local].
  destruct (NWB.content <$> nwbfile s !! p) as [[]|]; try discriminate.
  destruct (list_find _ region) as [[? ?]|]; [discriminate|].
  unfold ret. intros [= <- <-]. split; reflexivity.
Qed.

(** X27. "Add Traces", for arrays of masks and traces that have a row:
    whenever the statements complete, the file has gained three nodes,
    the neuron response series, the background response series and the
    residual series.  Both response series hold [roi_response.T]: the
    background series does not hold [roi_response_bk], which only gives
    the number of background ROIs and the number of time stamps. *)
Theorem add_traces_writes_neuron_data_twice (seg : segmentation_extractor) (args : arguments)
    (imaging_rate : option Q) (s s' : frame) :
  seg_image_masks seg ≠ [] → seg_roi_response seg ≠ [] →
  seg_roi_response_bk seg ≠ [] → seg_roi_response_residual seg ≠ [] →
  WriteNwb.add_traces seg args imaging_rate s = (inr tt, s') →
  ∃ f m timestamps,
    fl s = Some f ∧ pmod s = Some m ∧
    WriteNwb.timestamps_of (Np.shape2 (seg_roi_response_bk seg)).2 imaging_rate
      (starting_time args) = inr timestamps ∧
    nwbfile s'
    ≡ₚ nwbfile s ++
       [ NWB.mkNode (neuron_roi_response_series_name args) (Some f)
           (NWB.RoiResponseSeries
              (NWB.mkRoiResponseSeries (Np.transpose (seg_roi_response seg))
                 (seq 0 (Np.shape2 (seg_image_masks seg)).2)
                 (starting_time args) imaging_rate));
         NWB.mkNode (background_roi_response_series_name args) (Some f)
           (NWB.RoiResponseSeries
              (NWB.mkRoiResponseSeries (Np.transpose (seg_roi_response seg))
                 (seq (Np.shape2 (seg_image_masks seg)).2 (length (seg_roi_response_bk seg)))
                 (starting_time args) imaging_rate));
         NWB.mkNode "residuals" (Some m)
           (NWB.TimeSeries (Np.transpose (seg_roi_response_residual seg)) timestamps) ].
Proof.
  intros _ _ _ _.
  unfold WriteNwb.add_traces. unfold then_ at 1.
  destruct (WriteNwb.create_roi_table_region _ s) as [[e|neuron_rois] s0] eqn:Hr1;
    [discriminate|].
  apply create_roi_table_region_inv in Hr1 as [-> ->].
  unfold then_ at 1.
  destruct (WriteNwb.create_roi_table_region _ s) as [[e|background_rois] s0] eqn:Hr2;
    [discriminate|].
  apply create_roi_table_region_inv in Hr2 as [-> ->].
  unfold then_ at 1. unfold lift at 1.
  destruct (WriteNwb.timestamps_of _ imaging_rate _) as [e|timestamps] eqn:Hts; [discriminate|].
  unfold then_ at 1. unfold read_local at 1.
  destruct (_nwbchildren_name s) as [names|] eqn:Hnames; [|discriminate]. cbn [Py.local].
  unfold then_ at 1.
  destruct (NWB.positions (neuron_roi_response_series_name args) names); [|discriminate].
  destruct (WriteNwb.create_roi_response_series _ _ _ _ _ s) as [[e|[]] s1] eqn:Hn;
    [discriminate|].
  apply create_roi_response_series_inv in Hn as (f & Hf & ->).
  unfold then_ at 1. unfold read_local at 1. cbn [_nwbchildren_name set_nwbfile].
  rewrite Hnames. cbn [Py.local].
  unfold then_ at 1.
  destruct (NWB.positions (background_roi_response_series_name args) names); [|discriminate].
  destruct (WriteNwb.create_roi_response_series _ _ _ _ _ _) as [[e|[]] s2] eqn:Hb;
    [discriminate|].
  apply create_roi_response_series_inv in Hb as (f' & Hf' & ->).
  cbn [fl set_nwbfile] in Hf'. rewrite Hf in Hf'. injection Hf' as <-.
  unfold then_ at 1. unfold read_local at 1. cbn [pmod set_nwbfile nwbfile].
  destruct (pmod s) as [m|]; [|discriminate]. cbn [Py.local].
  unfold then_ at 1.
  destruct (WriteNwb.expect _ _ m _) as [[e|[]] s3] eqn:Hexp; [discriminate|].
  apply expect_inv in Hexp as ->.
  unfold then_, WriteNwb.add_node, NWB.add, ret. cbn [nwbfile set_nwbfile].
  intros [= <-]. exists f, m, timestamps.
  split; [exact Hf|]. split; [reflexivity|]. split; [reflexivity|].
  cbn [nwbfile]. rewrite <- !app_assoc. reflexivity.
Qed.

End Traces.

(** After "Add Traces" on [Examples.frame_with_two_rois]. *)
Lemma add_traces_writes_neuron_data_twice_witness :
  ∃ f m,
    NwbSegmentationExtractor.fl Examples.frame_with_two_rois = Some f ∧
    NwbSegmentationExtractor.pmod Examples.frame_with_two_rois = Some m ∧
    NwbSegmentationExtractor.nwbfile
      (WriteNwb.add_traces Examples.segmentation_with_background
         Examples.named_channel_arguments (Some 30%Q) Examples.frame_with_two_rois).2
    ≡ₚ Examples.file_with_two_rois ++
       [ NWB.mkNode "NeuronTimeSeriesData" (Some f)
           (NWB.RoiResponseSeries
              (NWB.mkRoiResponseSeries [[Np.Fin 1%Q]; [Np.Fin 2%Q]] [0%nat] 0%Q (Some 30%Q)));
         NWB.mkNode "BackgroundTimeSeriesData" (Some f)
           (NWB.RoiResponseSeries
              (NWB.mkRoiResponseSeries [[Np.Fin 1%Q]; [Np.Fin 2%Q]] [1%nat] 0%Q (Some 30%Q)));
         NWB.mkNode "residuals" (Some m)
           (NWB.TimeSeries [[Np.Fin 0%Q]; [Np.Fin 0%Q]]
              [Np.Fin (inject_Z 0 / 30 + 0)%Q; Np.Fin (inject_Z 1 / 30 + 0)%Q]) ].
Proof.
  destruct (add_traces_writes_neuron_data_twice Examples.segmentation_with_background
              Examples.named_channel_arguments (Some 30%Q) Examples.frame_with_two_rois _
              ltac:(discriminate) ltac:(discriminate) ltac:(discriminate) ltac:(discriminate)
              eq_refl)
    as (f & m & timestamps & Hf & Hm & Hts & Hfile).
  exists f, m. split; [exact Hf|]. split; [exact Hm|].
  injection Hts as <-. exact Hfile.
Defined.

(** ** write_nwb: the variables of the ROI table *)

Section PlaneAndSeries.

Import NwbSegmentationExtractor.

Context (args : arguments) (names : list string).

Abbreviation checks_keep := (WriteNwb.checks_keep args names).

Ltac run_check :=
  unfold WriteNwb.checks_keep, then_, read_local, modify, ret, fail, lift, get, WriteNwb.add_node,
    WriteNwb.expect, WriteNwb.create_imaging_plane;
  intros r s' Hrun (Hnames & Hplane & Hseries);
  rewrite ?Hnames in Hrun; cbn [Py.local] in Hrun;
  repeat case_match; simplify_eq; cbn; auto.

Lemma device_step_keeps (s : frame) : ∀ r s',
  WriteNwb.device_step args s = (r, s') → checks_keep s → checks_keep s'.
Proof. unfold WriteNwb.device_step. run_check. Qed.

Lemma optical_channel_step_keeps (l : option (list string)) (s : frame) : ∀ r s',
  WriteNwb.optical_channel_step args l s = (r, s') → checks_keep s → checks_keep s'.
Proof.
  unfold WriteNwb.optical_channel_step, WriteNwb.iterate, WriteNwb.from_second. run_check.
Qed.

Lemma imaging_plane_step_keeps (s : frame) : ∀ r s',
  WriteNwb.imaging_plane_step args s = (r, s') → checks_keep s → checks_keep s'.
Proof.
  unfold WriteNwb.imaging_plane_step. run_check.
  split; [assumption|]. split; [|assumption]. intros Hnot. exfalso.
  match goal with H : NWB.positions _ _ = [_] |- _ => apply positions_singleton in H end.
  apply Hnot. eapply list_elem_of_lookup_2. eassumption.
Qed.

Lemma image_series_step_keeps (location : option string) (rate : option Q) (s : frame) :
  ∀ r s',
  WriteNwb.image_series_step args location rate s = (r, s') → checks_keep s → checks_keep s'.
Proof.
  unfold WriteNwb.image_series_step. run_check.
  split; [assumption|]. split; [assumption|]. intros Hnot. exfalso.
  match goal with H : NWB.positions _ _ = [_] |- _ => apply positions_singleton in H end.
  apply Hnot. eapply list_elem_of_lookup_2. eassumption.
Qed.

Lemma processing_module_step_keeps (s : frame) : ∀ r s',
  WriteNwb.processing_module_step args s = (r, s') → checks_keep s → checks_keep s'.
Proof. unfold WriteNwb.processing_module_step. run_check. Qed.

Lemma image_segmentation_step_keeps (s : frame) : ∀ r s',
  WriteNwb.image_segmentation_step s = (r, s') → checks_keep s → checks_keep s'.
Proof.
  unfold WriteNwb.image_segmentation_step, WriteNwb.add_data_interface. run_check.
Qed.

Lemma fluorescence_step_keeps (s : frame) : ∀ r s',
  WriteNwb.fluorescence_step s = (r, s') → checks_keep s → checks_keep s'.
Proof.
  unfold WriteNwb.fluorescence_step, WriteNwb.add_data_interface. run_check.
Qed.

(** Without a node named 'PlaneSegmentation' the table is created from
    [imaging_plane] and [image_series], which must both be bound. *)
Lemma plane_segmentation_step_unbound (s : frame) :
  checks_keep s → "PlaneSegmentation" ∉ names →
  imaging_plane_name args ∉ names ∨ image_series_name args ∉ names →
  ∃ e s', WriteNwb.plane_segmentation_step s = (inl e, s').
Proof.
  intros (Hnames & Hplane & Hseries) Hps Hone.
  unfold WriteNwb.plane_segmentation_step, WriteNwb.create_plane_segmentation,
    then_, read_local.
  rewrite Hnames. cbn [Py.local].
  apply (positions_from_nil _ _ 0) in Hps. unfold NWB.positions. rewrite Hps.
  destruct (img_seg s) as [i|]; cbn [Py.local]; [|eexists _, _; reflexivity].
  destruct (imaging_plane s) as [p|] eqn:Hp; cbn [Py.local]; [|eexists _, _; reflexivity].
  destruct (image_series s) as [q|] eqn:Hq; cbn [Py.local]; [|eexists _, _; reflexivity].
  exfalso. destruct Hone as [H | H]; [apply Hplane in H | apply Hseries in H]; congruence.
Qed.

End PlaneAndSeries.

Section AppendingNeedsPlane.

Import NwbSegmentationExtractor.

Ltac next_check lem :=
  match goal with
  | |- ∃ e s', then_ ?m ?k ?s = (inl e, s') =>
      let Hstep := fresh "Hstep" in
      destruct (m s) as [[?|[]] ?] eqn:Hstep;
      [ rewrite (then_raises _ _ _ _ _ Hstep); eexists _, _; reflexivity
      | rewrite (then_ok _ _ _ _ _ Hstep); apply lem in Hstep; [|assumption] ]
  end.

(** X28. Appending to a container that has no node named
    'PlaneSegmentation' and lacks a node with the name of the imaging
    plane or of the acquisition series never succeeds, and leaves the file
    as it was: the plane or series that the writer creates is not assigned
    to the variable from which the ROI table is then created. *)
Theorem write_nwb_append_needs_plane_and_series (fs : gmap string NWB.disk_file)
    (seg : segmentation_extractor) (filename : string) (args : arguments) (f : NWB.file) :
  fs !! filename = Some (NWB.Container f) →
  "PlaneSegmentation" ∉ NWB.children_name f →
  imaging_plane_name args ∉ NWB.children_name f ∨
  image_series_name args ∉ NWB.children_name f →
  ∃ e, WriteNwb.write_nwb fs seg filename args = (fs, inl e).
Proof.
  intros Hfs Hps Hone. unfold WriteNwb.write_nwb.
  destruct (WriteNwb.channel_names_argument seg args) as [e|channels]; [eexists; reflexivity|].
  destruct (negb _); [eexists; reflexivity|].
  rewrite Hfs. cbv zeta.
  assert (Hrun : ∃ e s', WriteNwb.existing_file_branch args channels (seg_movie_location seg)
                           (seg_sampling_frequency seg) (new_frame f) = (inl e, s')).
  { unfold WriteNwb.existing_file_branch.
    erewrite then_ok by reflexivity.
    assert (Hkeep : WriteNwb.checks_keep args (NWB.children_name f)
                      (set__nwbchildren_name (Some (NWB.children_name (nwbfile (new_frame f))))
                         (new_frame f))).
    { repeat split. }
    next_check (device_step_keeps args (NWB.children_name f)).
    next_check (optical_channel_step_keeps args (NWB.children_name f)).
    next_check (imaging_plane_step_keeps args (NWB.children_name f)).
    next_check (image_series_step_keeps args (NWB.children_name f)).
    next_check (processing_module_step_keeps args (NWB.children_name f)).
    next_check (image_segmentation_step_keeps args (NWB.children_name f)).
    next_check (fluorescence_step_keeps args (NWB.children_name f)).
    eapply plane_segmentation_step_unbound; eassumption. }
  destruct Hrun as (e & s' & Hrun). rewrite (then_raises _ _ _ _ _ Hrun).
  eexists. reflexivity.
Qed.

End AppendingNeedsPlane.

(** A container without imaging plane, acquisition series and ROI table. *)
Lemma write_nwb_append_needs_plane_and_series_witness :
  ∃ e, WriteNwb.write_nwb {[ "f.nwb" := NWB.Container Examples.file_with_device ]}
         Examples.one_roi_segmentation "f.nwb"
         (NwbSegmentationExtractor.mkArguments (Some []) 0%Q "Scope" (Some "OpticalChannel")
            "MyImagingPlane" "MyTwoPhotonSeries" "Ophys"
            "NeuronTimeSeriesData" "BackgroundTimeSeriesData")
       = ({[ "f.nwb" := NWB.Container Examples.file_with_device ]}, inl e).
Proof.
  refine (write_nwb_append_needs_plane_and_series _ Examples.one_roi_segmentation "f.nwb"
            _ Examples.file_with_device _ _ _).
  - apply lookup_singleton_eq.
  - compute_done.
  - left. compute_done.
Defined.

(* ----- end of the development ----- *)
